(** * neevs: LLM response normalisation, retry, consensus and artifact repair

    A shallow embedding of the news-perspectives pipeline:
    - [agents/news_perspectives/model_analyzer.py]   (retry loop, fence
      stripping, JSON recovery, per-article and batch analysis),
    - [agents/news_perspectives/perspective_synthesizer.py] (loading of the
      per-model artifacts, article index, consensus),
    - [fix_analysis_json.py] and [fix_json_fences.py] (the two repair passes).

    Conventions.  A Python [str] is a [string]; one [ascii] stands for one
    code point below 256.  JSON documents are values of type [json]; a Python
    [dict] is an association list in insertion order.  Python exceptions are
    values of type [exn]; code that can raise returns [exn + A].  Console
    output is not modelled, except the warning lines of [load_analysis]. *)

From Stdlib Require Import String Ascii List ZArith Bool Lia Arith.
From Stdlib Require Import Floats.PrimFloat Floats.SpecFloat Floats.FloatOps.
From Stdlib Require Import Sorting.Sorted Sorting.Permutation.
Import ListNotations.
Set Warnings "-register-all,-inexact-float".
Local Open Scope string_scope.
Local Open Scope list_scope.

(** ** Python strings *)

Module PyStr.

Definition nl : ascii := ascii_of_nat 10.
Definition NL : string := String nl EmptyString.

(** [str.isspace] on one code point below 256. *)
Definition isspace (c : ascii) : bool :=
  let n := nat_of_ascii c in
  (((9 <=? n) && (n <=? 13)) || ((28 <=? n) && (n <=? 32))
   || (n =? 133) || (n =? 160))%nat.

Fixpoint lstrip (s : string) : string :=
  match s with
  | EmptyString => EmptyString
  | String c s' => if isspace c then lstrip s' else s
  end.

Fixpoint rstrip (s : string) : string :=
  match s with
  | EmptyString => EmptyString
  | String c s' =>
      match rstrip s' with
      | EmptyString => if isspace c then EmptyString else String c EmptyString
      | r => String c r
      end
  end.

(** [s.strip()] *)
Definition strip (s : string) : string := rstrip (lstrip s).

(** [s.startswith(p)] *)
Definition startswith (p s : string) : bool := String.prefix p s.

(** [s.split('\n')]: never empty. *)
Fixpoint split_lines (s : string) : list string :=
  match s with
  | EmptyString => [EmptyString]
  | String c s' =>
      if Ascii.eqb c nl then EmptyString :: split_lines s'
      else match split_lines s' with
           | l :: ls => String c l :: ls
           | [] => [String c EmptyString]
           end
  end.

(** ['\n'.join(lines)] *)
Fixpoint join_lines (lines : list string) : string :=
  match lines with
  | [] => EmptyString
  | [l] => l
  | l :: ls => (l ++ NL ++ join_lines ls)%string
  end.

(** [s.find(c)] for a one-character needle: the index, or -1. *)
Fixpoint find_from (c : ascii) (s : string) (i : Z) : Z :=
  match s with
  | EmptyString => (-1)%Z
  | String a s' => if Ascii.eqb a c then i else find_from c s' (i + 1)%Z
  end.

Definition find (c : ascii) (s : string) : Z := find_from c s 0%Z.

(** [needle in s] *)
Fixpoint contains (needle s : string) : bool :=
  String.prefix needle s
  || match s with
     | EmptyString => false
     | String _ s' => contains needle s'
     end.

Definition len (s : string) : Z := Z.of_nat (String.length s).

(** [s[a:b]] for [0 <= a], [0 <= b]. *)
Definition slice (a b : Z) (s : string) : string :=
  String.substring (Z.to_nat a) (Z.to_nat b - Z.to_nat a) s.

(** [s[:n]] *)
Definition take (n : nat) (s : string) : string := String.substring 0 n s.

(** [s[n:]] *)
Fixpoint drop (n : nat) (s : string) : string :=
  match n, s with
  | O, _ => s
  | S _, EmptyString => EmptyString
  | S n', String _ s' => drop n' s'
  end.

End PyStr.

(** ** Python lists *)

Module PyList.

(** [l[1:]] *)
Definition drop_first {A} (l : list A) : list A := tl l.

(** [l[:-1]] *)
Definition drop_last {A} (l : list A) : list A := removelast l.

(** [l[a:b]] for [0 <= a], [0 <= b]. *)
Definition slice {A} (a b : nat) (l : list A) : list A :=
  firstn (b - a) (skipn a l).

End PyList.

(** ** JSON values and Python dictionaries *)

Inductive json : Type :=
| JNull
| JBool (b : bool)
| JInt (z : Z)
| JFloat (f : float)
| JStr (s : string)
| JList (l : list json)
| JDict (d : list (string * json)).

Definition dict := list (string * json).

(** [d.get(k)]: [None] when the key is absent. *)
Fixpoint dict_get {V} (k : string) (d : list (string * V)) : option V :=
  match d with
  | [] => None
  | (k', v) :: d' => if String.eqb k' k then Some v else dict_get k d'
  end.

(** [k in d] *)
Definition dict_has {V} (k : string) (d : list (string * V)) : bool :=
  match dict_get k d with Some _ => true | None => false end.

(** [d[k] = v]: an existing key keeps its place, a new key goes last. *)
Fixpoint dict_set {V} (k : string) (v : V) (d : list (string * V))
  : list (string * V) :=
  match d with
  | [] => [(k, v)]
  | (k', v') :: d' =>
      if String.eqb k' k then (k', v) :: d' else (k', v') :: dict_set k v d'
  end.

(** [d.get(k, default)] *)
Definition dict_get_default (k : string) (default : json) (d : dict) : json :=
  match dict_get k d with Some v => v | None => default end.

(** ** Exceptions *)

(** [RateLimitError] is the exception class the retry loop catches; every
    other exception is a [PyError] with its class name and message. *)
Inductive exn : Type :=
| RateLimitError (msg : string)
| PyError (type_name msg : string).

(** [type(e).__name__] *)
Definition exn_type_name (e : exn) : string :=
  match e with
  | RateLimitError _ => "RateLimitError"
  | PyError t _ => t
  end.

(** [str(e)] *)
Definition exn_str (e : exn) : string :=
  match e with
  | RateLimitError m => m
  | PyError _ m => m
  end.

Definition result (A : Type) : Type := (exn + A)%type.

Definition ret {A} (a : A) : result A := inr a.
Definition raise {A} (e : exn) : result A := inl e.
Definition bind {A B} (m : result A) (k : A -> result B) : result B :=
  match m with
  | inl e => inl e
  | inr a => k a
  end.

Notation "x <- m ;; k" := (bind m (fun x => k))
  (at level 61, m at next level, right associativity).

(** The class name Python prints for a value, as in
    ['int' object has no attribute ...]. *)
Definition py_type_name (v : json) : string :=
  match v with
  | JNull => "NoneType"
  | JBool _ => "bool"
  | JInt _ => "int"
  | JFloat _ => "float"
  | JStr _ => "str"
  | JList _ => "list"
  | JDict _ => "dict"
  end.

Definition TypeError {A} (msg : string) : result A := raise (PyError "TypeError" msg).
Definition AttributeError {A} (v : json) (attr : string) : result A :=
  raise (PyError "AttributeError"
           ("'" ++ py_type_name v ++ "' object has no attribute '" ++ attr ++ "'")%string).
Definition KeyError {A} (k : string) : result A :=
  raise (PyError "KeyError" ("'" ++ k ++ "'")%string).

(** ** Quoted text

    Texts that contain the double quote are written with an apostrophe in
    its place and passed through [q]. *)

Definition q_char (c : ascii) : ascii :=
  if Ascii.eqb c "'" then ascii_of_nat 34 else c.

Fixpoint q (s : string) : string :=
  match s with
  | EmptyString => EmptyString
  | String c s' => String (q_char c) (q s')
  end.

(** ** Numbers *)

(** [float(z)] for an integer: the nearest binary64 value. *)
Definition float_of_Z (z : Z) : float :=
  SF2Prim (binary_normalize prec emax z 0 false).

(** ** A reference [json.loads]

    [json.loads] belongs to the Python library.  The analyzer and the repair
    passes below take the parser as a parameter; [ref_loads] is a reference
    parser used to run them on concrete documents.  It follows the grammar
    of the [json] module: objects (a repeated key keeps its first place and
    its last value), arrays, strings with the escapes quote, backslash,
    slash, b, f, n, r, t and u, no raw control character inside a string,
    integers, [true], [false], [null], [NaN], [Infinity], [-Infinity],
    blanks (space, tab, line feed, carriage return) between tokens.  Outside
    this fragment it answers [None]: a [\u] escape above U+00FF, and a
    number with a fraction or an exponent unless its digits, read as one
    integer, stay below 2^53 and its decimal exponent is within 22 of zero
    (then one correctly rounded operation gives the value [float] gives). *)

Module RefJson.

Definition dquote : ascii := ascii_of_nat 34.
Definition quote : string := String dquote EmptyString.

Definition is_ws (c : ascii) : bool :=
  match c with
  | " "%char | "009"%char | "010"%char | "013"%char => true
  | _ => false
  end.

Fixpoint skip_ws (s : string) : string :=
  match s with
  | String c s' => if is_ws c then skip_ws s' else s
  | EmptyString => s
  end.

Definition digit_val (c : ascii) : option Z :=
  let n := nat_of_ascii c in
  if ((48 <=? n) && (n <=? 57))%nat then Some (Z.of_nat (n - 48)) else None.

Definition hex_val (c : ascii) : option Z :=
  let n := nat_of_ascii c in
  if ((48 <=? n) && (n <=? 57))%nat then Some (Z.of_nat (n - 48))
  else if ((97 <=? n) && (n <=? 102))%nat then Some (Z.of_nat (n - 87))
  else if ((65 <=? n) && (n <=? 70))%nat then Some (Z.of_nat (n - 55))
  else None.

(** The digits at the head of [s]: their value, their number, the rest. *)
Fixpoint digits (s : string) (acc : Z) (n : nat) : Z * nat * string :=
  match s with
  | String c s' =>
      match digit_val c with
      | Some d => digits s' (10 * acc + d)%Z (S n)
      | None => (acc, n, s)
      end
  | EmptyString => (acc, n, s)
  end.

(** The body of a string literal, after the opening quote. *)
Fixpoint string_body (s : string) : option (string * string) :=
  match s with
  | EmptyString => None
  | String c rest =>
      if Ascii.eqb c dquote then Some (EmptyString, rest)
      else if Ascii.eqb c "\" then
        match rest with
        | String e rest1 =>
            let simple (c : ascii) :=
              match string_body rest1 with
              | Some (t, r) => Some (String c t, r)
              | None => None
              end in
            if Ascii.eqb e dquote then simple dquote
            else
              match e with
              | "\"%char => simple "\"%char
              | "/"%char => simple "/"%char
              | "b"%char => simple "008"%char
              | "f"%char => simple "012"%char
              | "n"%char => simple "010"%char
              | "r"%char => simple "013"%char
              | "t"%char => simple "009"%char
              | "u"%char =>
                  match rest1 with
                  | String h1 (String h2 (String h3 (String h4 rest2))) =>
                      match hex_val h1, hex_val h2, hex_val h3, hex_val h4 with
                      | Some 0%Z, Some 0%Z, Some a, Some b =>
                          match string_body rest2 with
                          | Some (t, r) =>
                              Some (String (ascii_of_nat (Z.to_nat (16 * a + b))) t, r)
                          | None => None
                          end
                      | _, _, _, _ => None
                      end
                  | _ => None
                  end
              | _ => None
              end
        | EmptyString => None
        end
      else if (nat_of_ascii c <? 32)%nat then None
      else match string_body rest with
           | Some (t, r) => Some (String c t, r)
           | None => None
           end
  end.

(** [10 ** k] as a float, exact for [k <= 22]. *)
Definition pow10 (k : Z) : float := float_of_Z (10 ^ k).

(** The value of the literal [m * 10**e], when one rounding gives it. *)
Definition decimal_float (neg : bool) (m e : Z) : option float :=
  if ((m <? 2 ^ 53) && (-22 <=? e) && (e <=? 22))%Z then
    let f := if (0 <=? e)%Z then mul (float_of_Z m) (pow10 e)
             else div (float_of_Z m) (pow10 (- e)) in
    Some (if neg then opp f else f)
  else None.

(** A number literal; [s] starts at its first digit. *)
Definition number (neg : bool) (s : string) : option (json * string) :=
  match s with
  | String c s' =>
      match digit_val c with
      | None => None
      | Some d =>
          let '(ip, _, r1) :=
            if (d =? 0)%Z then (0%Z, 1%nat, s') else digits s' d 1 in
          let '(m, fn, r2) :=
            match r1 with
            | String "."%char (String c2 r) =>
                match digit_val c2 with
                | Some _ =>
                    let '(m, n, r') := digits (String c2 r) ip 0 in
                    (m, Some n, r')
                | None => (ip, None, r1)
                end
            | _ => (ip, None, r1)
            end in
          let exponent (r : string) : option (Z * string) :=
            match r with
            | String c3 r3 =>
                if (Ascii.eqb c3 "e" || Ascii.eqb c3 "E")%bool then
                  let '(sg, r4) :=
                    match r3 with
                    | String "-"%char r' => (true, r')
                    | String "+"%char r' => (false, r')
                    | _ => (false, r3)
                    end in
                  match digits r4 0 0 with
                  | (_, O, _) => None
                  | (x, S _, r5) => Some (if sg then (- x)%Z else x, r5)
                  end
                else None
            | EmptyString => None
            end in
          match fn, exponent r2 with
          | None, None => Some (JInt (if neg then (- ip)%Z else ip), r2)
          | _, ex =>
              let '(x, r3) := match ex with Some p => p | None => (0%Z, r2) end in
              let fd := match fn with Some n => Z.of_nat n | None => 0%Z end in
              match decimal_float neg m (x - fd) with
              | Some f => Some (JFloat f, r3)
              | None => None
              end
          end
      end
  | EmptyString => None
  end.

(** One JSON value at the head of [s], blanks before it skipped; the
    fuel bounds the nesting depth plus the number of members read. *)
Fixpoint value (fuel : nat) (s : string) : option (json * string) :=
  match fuel with
  | O => None
  | S fuel' =>
      match skip_ws s with
      | String "{"%char r =>
          match skip_ws r with
          | String "}"%char r' => Some (JDict [], r')
          | r' => members fuel' r' []
          end
      | String "["%char r =>
          match skip_ws r with
          | String "]"%char r' => Some (JList [], r')
          | r' => elements fuel' r' []
          end
      | String "-"%char r =>
          if String.prefix "Infinity" r
          then Some (JFloat neg_infinity, PyStr.drop 8 r)
          else number true r
      | s' =>
          if String.prefix quote s' then
            match string_body (PyStr.drop 1 s') with
            | Some (t, r') => Some (JStr t, r')
            | None => None
            end
          else if String.prefix "true" s' then Some (JBool true, PyStr.drop 4 s')
          else if String.prefix "false" s' then Some (JBool false, PyStr.drop 5 s')
          else if String.prefix "null" s' then Some (JNull, PyStr.drop 4 s')
          else if String.prefix "NaN" s' then Some (JFloat nan, PyStr.drop 3 s')
          else if String.prefix "Infinity" s'
               then Some (JFloat infinity, PyStr.drop 8 s')
          else number false s'
      end
  end
with elements (fuel : nat) (s : string) (acc : list json)
  : option (json * string) :=
  match fuel with
  | O => None
  | S fuel' =>
      match value fuel' s with
      | Some (v, r) =>
          match skip_ws r with
          | String ","%char r' => elements fuel' (skip_ws r') (acc ++ [v])
          | String "]"%char r' => Some (JList (acc ++ [v]), r')
          | _ => None
          end
      | None => None
      end
  end
with members (fuel : nat) (s : string) (acc : dict)
  : option (json * string) :=
  match fuel with
  | O => None
  | S fuel' =>
      match s with
      | String c r =>
          if negb (Ascii.eqb c dquote) then None else
          match string_body r with
          | Some (k, r1) =>
              match skip_ws r1 with
              | String ":"%char r2 =>
                  match value fuel' r2 with
                  | Some (v, r3) =>
                      match skip_ws r3 with
                      | String ","%char r4 =>
                          members fuel' (skip_ws r4) (dict_set k v acc)
                      | String "}"%char r4 => Some (JDict (dict_set k v acc), r4)
                      | _ => None
                      end
                  | None => None
                  end
              | _ => None
              end
          | None => None
          end
      | EmptyString => None
      end
  end.

(** [json.loads(s)]; [None] stands for [JSONDecodeError]. *)
Definition loads (s : string) : option json :=
  match value (2 * String.length s + 2) s with
  | Some (v, r) =>
      match skip_ws r with
      | EmptyString => Some v
      | _ => None
      end
  | None => None
  end.

End RefJson.

Definition ref_loads : string -> option json := RefJson.loads.

(** ** Dynamic operations on JSON values *)

(** [k in v] for a string [k]. *)
Definition py_contains (k : string) (v : json) : result bool :=
  match v with
  | JDict d => ret (dict_has k d)
  | JList l =>
      ret (existsb (fun x => match x with JStr s => String.eqb s k | _ => false end) l)
  | JStr s => ret (PyStr.contains k s)
  | _ => TypeError ("argument of type '" ++ py_type_name v ++ "' is not iterable")%string
  end.

(** [v[k] = x] for a string [k]. *)
Definition py_setitem (v : json) (k : string) (x : json) : result json :=
  match v with
  | JDict d => ret (JDict (dict_set k x d))
  | JList _ => TypeError "list indices must be integers or slices, not str"
  | _ => TypeError ("'" ++ py_type_name v ++ "' object does not support item assignment")%string
  end.

(** [v[k]] for a string [k]. *)
Definition py_getitem (v : json) (k : string) : result json :=
  match v with
  | JDict d => match dict_get k d with Some x => ret x | None => KeyError k end
  | JList _ => TypeError "list indices must be integers or slices, not str"
  | JStr _ => TypeError "string indices must be integers, not 'str'"
  | _ => TypeError ("'" ++ py_type_name v ++ "' object is not subscriptable")%string
  end.

(** [v.get(k, default)] *)
Definition py_get (v : json) (k : string) (default : json) : result json :=
  match v with
  | JDict d => ret (dict_get_default k default d)
  | _ => AttributeError v "get"
  end.

(** [bool(v)] *)
Definition py_truthy (v : json) : bool :=
  match v with
  | JNull => false
  | JBool b => b
  | JInt z => negb (z =? 0)%Z
  | JFloat f => negb (PrimFloat.eqb f zero)
  | JStr s => negb (String.eqb s EmptyString)
  | JList l => match l with [] => false | _ => true end
  | JDict d => match d with [] => false | _ => true end
  end.

(** [a + b] on numbers ([bool] counts as [int]). *)
Definition py_add (a b : json) : result json :=
  let num (v : json) : option (Z + float) :=
    match v with
    | JInt z => Some (inl z)
    | JBool t => Some (inl (if t then 1 else 0)%Z)
    | JFloat f => Some (inr f)
    | _ => None
    end in
  match num a, num b with
  | Some (inl x), Some (inl y) => ret (JInt (x + y))
  | Some (inl x), Some (inr g) => ret (JFloat (add (float_of_Z x) g))
  | Some (inr f), Some (inl y) => ret (JFloat (add f (float_of_Z y)))
  | Some (inr f), Some (inr g) => ret (JFloat (add f g))
  | _, _ => TypeError ("unsupported operand type(s) for +=: '" ++ py_type_name a
                       ++ "' and '" ++ py_type_name b ++ "'")%string
  end.

(** ** model_analyzer.py *)

Record usage : Type := mkUsage {
  prompt_tokens : Z;
  completion_tokens : Z;
  total_tokens : Z
}.

(** What the analyzer reads of a chat completion:
    [response.choices[0].message.content] and [response.usage], each of
    which the API may leave [None] (the response object of the SDK always
    has the attribute [usage], so [hasattr(response, 'usage')] holds). *)
Record response : Type := mkResponse {
  resp_content : option string;
  resp_usage : option usage
}.

Record request : Type := mkRequest {
  req_model : string;
  req_messages : list (string * string);   (* role, content *)
  req_temperature : float;
  req_max_tokens : Z
}.

(** An article as the analyzer reads it: the three fields of the prompt,
    which the fetcher always sets to strings, and whatever else it stored. *)
Record article : Type := mkArticle {
  title : string;
  source : string;
  description : string;
  article_rest : dict
}.

Inductive event : Type :=
| Call (r : request)        (* client.chat.completions.create *)
| Sleep (seconds : Z).      (* time.sleep *)

Definition system_prompt : string :=
  "You are an analytical AI assistant helping users understand news from multiple perspectives. Be thorough, honest about limitations, and highlight your unique analytical approach.".

Definition build_prompt (a : article) : string :=
  PyStr.join_lines
    [ "Analyze this news article and provide your perspective. Be opinionated and show your analytical approach.";
      EmptyString;
      ("Title: " ++ title a)%string;
      ("Source: " ++ source a)%string;
      ("Description: " ++ description a)%string;
      EmptyString;
      "Provide a JSON response with:";
      q "1. 'summary': A 2-3 sentence summary of the article from your perspective";
      q "2. 'key_points': List of 3-5 key points or insights";
      q "3. 'sentiment': Your overall sentiment (positive/negative/neutral/mixed)";
      q "4. 'confidence': Your confidence in this analysis (high/medium/low)";
      q "5. 'bias_check': What potential biases might exist in this story?";
      q "6. 'missing_context': What important context or perspectives might be missing?";
      q "7. 'implications': What are the broader implications of this story?";
      EmptyString;
      "Be honest about uncertainties and limitations. Your response will be compared with other AI models to show different perspectives." ].

Definition max_retries : Z := 3.
Definition base_delay : Z := 2.

(** [range(n)] *)
Definition range (n : Z) : list Z := map Z.of_nat (seq 0 (Z.to_nat n)).

Definition fence : string := "```".

(** Lines 121-129: strip markdown code fences if present. *)
Definition strip_fences (content : string) : string :=
  if PyStr.startswith fence (PyStr.strip content) then
    let lines := PyStr.split_lines (PyStr.strip content) in
    let lines :=
      if PyStr.startswith fence (hd EmptyString lines)
      then PyList.drop_first lines else lines in
    let lines :=
      match lines with
      | [] => lines
      | _ => if String.eqb (PyStr.strip (last lines EmptyString)) fence
             then PyList.drop_last lines else lines
      end in
    PyStr.join_lines lines
  else content.

(** The brace-counting loop over [content[i:]], [s] being that suffix:
    the index after the brace that closes the first one, or -1. *)
Fixpoint match_braces (s : string) (i brace_count : Z) : Z :=
  match s with
  | EmptyString => (-1)%Z
  | String c s' =>
      if Ascii.eqb c "{" then match_braces s' (i + 1)%Z (brace_count + 1)%Z
      else if Ascii.eqb c "}" then
        let brace_count := (brace_count - 1)%Z in
        if (brace_count =? 0)%Z then (i + 1)%Z
        else match_braces s' (i + 1)%Z brace_count
      else match_braces s' (i + 1)%Z brace_count
  end.

(** [content[json_start:json_end]] for the first brace and its match,
    when both exist. *)
Definition brace_slice (content : string) : option string :=
  let json_start := PyStr.find "{" content in
  if (json_start >=? 0)%Z then
    let json_end :=
      match_braces (PyStr.drop (Z.to_nat json_start) content) json_start 0 in
    if (json_end >? json_start)%Z
    then Some (PyStr.slice json_start json_end content)
    else None
  else None.

(** The object built when nothing parses (lines 161-169). *)
Definition fallback_analysis (content : string) : json :=
  JDict [ ("summary", JStr (PyStr.take 300 content));
          ("key_points", JList [JStr content]);
          ("sentiment", JStr "neutral");
          ("confidence", JStr "medium");
          ("bias_check", JStr "Unable to parse structured response");
          ("missing_context", JStr EmptyString);
          ("implications", JStr EmptyString) ].

Section Analyzer.

(** The outside world: the completion service, the clock. *)
Variable World : Type.
Variable create : request -> World -> result response * World.
Variable utcnow_iso : World -> string.
Variable sleep : Z -> World -> World.

(** [json.loads]; [None] stands for [JSONDecodeError]. *)
Variable loads : string -> option json.

(** [self.model_name], [self.display_name] *)
Variable model_name display_name : string.

Record state : Type := mkState {
  world : World;
  trace : list event
}.

Definition time_sleep (d : Z) (st : state) : state :=
  {| world := sleep d (world st); trace := trace st ++ [Sleep d] |}.

Definition client_create (req : request) (st : state) : result response * state :=
  let (r, w) := create req (world st) in
  (r, {| world := w; trace := trace st ++ [Call req] |}).

(** Lines 95-114: [for attempt in range(max_retries)]. *)
Fixpoint retry_loop (attempts : list Z) (req : request) (st : state)
  : result response * state :=
  match attempts with
  | [] =>
      (raise (PyError "UnboundLocalError"
                "cannot access local variable 'response' where it is not associated with a value"),
       st)
  | attempt :: rest =>
      match client_create req st with
      | (inr response, st1) => (ret response, st1)
      | (inl (RateLimitError m), st1) =>
          if (attempt <? max_retries - 1)%Z then
            let delay := (base_delay * 2 ^ attempt)%Z in
            retry_loop rest req (time_sleep delay st1)
          else (raise (RateLimitError m), st1)
      | (inl e, st1) => (raise e, st1)
      end
  end.

Definition make_request (prompt : string) : request :=
  {| req_model := model_name;
     req_messages := [("system", system_prompt); ("user", prompt)];
     req_temperature := 0.7%float;
     req_max_tokens := 1000 |}.

Definition call_with_retry (prompt : string) (st : state)
  : result response * state :=
  retry_loop (range max_retries) (make_request prompt) st.

(** Lines 131-169: parse as JSON, else parse the first braced span, else
    wrap the text. *)
Definition parse_content (content : string) : json :=
  match loads content with
  | Some analysis => analysis
  | None =>
      match brace_slice content with
      | Some json_content =>
          match loads json_content with
          | Some analysis => analysis
          | None => fallback_analysis content
          end
      | None => fallback_analysis content
      end
  end.

(** Lines 121-169: from the completion text to the analysis object. *)
Definition extract_analysis (content : string) : json :=
  parse_content (strip_fences content).

Definition usage_dict (u : usage) : json :=
  JDict [ ("prompt_tokens", JInt (prompt_tokens u));
          ("completion_tokens", JInt (completion_tokens u));
          ("total_tokens", JInt (total_tokens u)) ].

(** Lines 119-184, after the response has arrived. *)
Definition build_analysis (resp : response) (now : string) : result json :=
  content <- match resp_content resp with
             | Some c => ret c
             | None => AttributeError JNull "strip"
             end ;;
  let analysis := extract_analysis content in
  analysis <- py_setitem analysis "model" (JStr display_name) ;;
  analysis <- py_setitem analysis "model_id" (JStr model_name) ;;
  analysis <- py_setitem analysis "analyzed_at" (JStr now) ;;
  match resp_usage resp with
  | Some u => py_setitem analysis "token_usage" (usage_dict u)
  | None => AttributeError JNull "prompt_tokens"
  end.

(** The body of the [try] of [analyze_article]. *)
Definition analyze_try (prompt : string) (st : state) : result json * state :=
  match call_with_retry prompt st with
  | (inl e, st1) => (raise e, st1)
  | (inr resp, st1) => (build_analysis resp (utcnow_iso (world st1)), st1)
  end.

(** The dictionary returned by the [except Exception] handler. *)
Definition error_analysis (e : exn) (now : string) : json :=
  let error_msg := exn_str e in
  JDict [ ("model", JStr display_name);
          ("model_id", JStr model_name);
          ("error", JStr error_msg);
          ("error_type", JStr (exn_type_name e));
          ("analyzed_at", JStr now);
          ("summary", JStr ("Analysis failed: " ++ error_msg)%string);
          ("sentiment", JStr "unknown") ].

Definition analyze_article (a : article) (st : state) : json * state :=
  let prompt := build_prompt a in
  match analyze_try prompt st with
  | (inr analysis, st1) => (analysis, st1)
  | (inl e, st1) => (error_analysis e (utcnow_iso (world st1)), st1)
  end.

Definition zero_tokens : dict :=
  [ ("prompt_tokens", JInt 0); ("completion_tokens", JInt 0); ("total_tokens", JInt 0) ].

(** [for key in total_tokens: total_tokens[key] += token_usage.get(key, 0)];
    [keys] are the keys still to visit. *)
Fixpoint add_tokens (keys : list string) (token_usage : json) (total : dict)
  : result dict :=
  match keys with
  | [] => ret total
  | key :: keys' =>
      x <- py_get token_usage key (JInt 0) ;;
      old <- py_getitem (JDict total) key ;;
      new <- py_add old x ;;
      add_tokens keys' token_usage (dict_set key new total)
  end.

(** Lines 222-225: track token usage. *)
Definition track_tokens (analysis : json) (total : dict) : result dict :=
  has <- py_contains "token_usage" analysis ;;
  if (has : bool) then
    token_usage <- py_getitem analysis "token_usage" ;;
    add_tokens (map fst total) token_usage total
  else ret total.

(** The loop of [analyze_articles]; [analyzed] and [total] are the
    accumulators, [articles] the items still to process. *)
Fixpoint analyze_loop (articles : list article)
    (analyzed : list (article * json)) (total : dict) (st : state)
  : result (list (article * json) * dict) * state :=
  match articles with
  | [] => (ret (analyzed, total), st)
  | a :: rest =>
      let (analysis, st1) := analyze_article a st in
      match track_tokens analysis total with
      | inl e => (raise e, st1)
      | inr total1 =>
          let analyzed1 := analyzed ++ [(a, analysis)] in
          let st2 := match rest with
                     | [] => st1
                     | _ => time_sleep 1 st1
                     end in
          analyze_loop rest analyzed1 total1 st2
      end
  end.

Definition analyze_articles (articles : list article) (st : state)
  : result (list (article * json) * dict) * state :=
  analyze_loop articles [] zero_tokens st.

End Analyzer.

Arguments world {World} _.
Arguments trace {World} _.
Arguments mkState {World} _ _.

(** ** perspective_synthesizer.py

    The synthesizer is modelled on artifacts that have the types of the data
    model: identifiers, titles, sentiments and confidence levels are strings,
    each of them possibly absent; the other fields are arbitrary JSON. *)

Inductive pynum : Type :=
| PyInt (z : Z)
| PyFloat (f : float).

(** [n / d] rounded to the nearest integer, halves to the even one; [0 < d]. *)
Definition div_half_even (n d : Z) : Z :=
  let q := (n / d)%Z in
  let r := (n mod d)%Z in
  if (2 * r <? d)%Z then q
  else if (d <? 2 * r)%Z then (q + 1)%Z
  else if Z.even q then q else (q + 1)%Z.

(** The number of tenths nearest to the exact value of a finite [x],
    halves to the even one. *)
Definition nearest_tenths (x : float) : option Z :=
  match Prim2SF x with
  | S754_finite s m e =>
      let n := (10 * (if s then Z.neg m else Z.pos m))%Z in
      Some (if (0 <=? e)%Z then (n * 2 ^ e)%Z else div_half_even n (2 ^ (- e)))
  | S754_zero _ => Some 0%Z
  | _ => None
  end.

(** [round(x, 1)] on a float: the float nearest to the decimal with one
    digit nearest to [x].  (For [|x|] from 2^49 on the last division rounds
    a second time; an agreement percentage lies between 0 and 100.) *)
Definition round1 (x : float) : float :=
  match nearest_tenths x with
  | Some t =>
      if (t =? 0)%Z then (if get_sign x then neg_zero else zero)
      else div (float_of_Z t) (float_of_Z 10)
  | None => x
  end.

(** [round(v, 1)]: an [int] stays an [int]. *)
Definition py_round1 (v : pynum) : pynum :=
  match v with
  | PyInt z => PyInt z
  | PyFloat f => PyFloat (round1 f)
  end.

Record Article : Type := mkArticleRec {
  art_id : option string;
  art_title : option string;
  art_other : dict
}.

Record Analysis : Type := mkAnalysis {
  an_model_id : option string;
  an_summary : option string;
  an_key_points : option json;
  an_sentiment : option string;
  an_confidence : option string;
  an_bias_check : option string;
  an_missing_context : option string;
  an_implications : option string;
  an_analyzed_at : option string;
  an_other : dict
}.

(** One element of [data.analyses] in a per-model artifact. *)
Record Item : Type := mkItem {
  item_article : Article;
  item_analysis : Analysis
}.

(** The dictionary returned by [load_analysis]. *)
Record ModelData : Type := mkModelData {
  md_model : string;
  md_analyses : list Item;
  md_metadata : json;
  md_costs : json
}.

Record Perspective : Type := mkPerspective {
  p_model : string;
  p_model_id : string;
  p_emoji : string;
  p_summary : string;
  p_key_points : json;
  p_sentiment : string;
  p_confidence : string;
  p_bias_check : string;
  p_missing_context : string;
  p_implications : string;
  p_analyzed_at : string
}.

Record ArticleConsensus : Type := mkArticleConsensus {
  dominant_sentiment : string;
  agreement_percentage : pynum;
  sentiment_distribution : list (string * Z);
  models_analyzed : Z
}.

Record Synthesized : Type := mkSynthesized {
  syn_article : Article;
  syn_perspectives : list Perspective;
  syn_consensus : ArticleConsensus
}.

Definition get_or {A} (o : option A) (default : A) : A :=
  match o with Some a => a | None => default end.

Definition emoji_map : list (string * string) :=
  [ ("GPT-4o Mini", "🟢"); ("Llama 3.1 8B", "🔵"); ("Phi-4 Mini", "🟡");
    ("Mistral Small", "🟣"); ("GPT-4o", "🟢"); ("Llama 3.1 405B", "🔵");
    ("DeepSeek-V3", "🟣"); ("Grok 3", "🟠") ].

Definition get_model_emoji (model_name : string) : string :=
  get_or (dict_get model_name emoji_map) "⚪".

(** [article.get('id', article.get('title', ''))] *)
Definition article_key (a : Article) : string :=
  get_or (art_id a) (get_or (art_title a) EmptyString).

Definition make_perspective (model_name : string) (analysis : Analysis) : Perspective :=
  {| p_model := model_name;
     p_model_id := get_or (an_model_id analysis) EmptyString;
     p_emoji := get_model_emoji model_name;
     p_summary := get_or (an_summary analysis) EmptyString;
     p_key_points := get_or (an_key_points analysis) (JList []);
     p_sentiment := get_or (an_sentiment analysis) "unknown";
     p_confidence := get_or (an_confidence analysis) "unknown";
     p_bias_check := get_or (an_bias_check analysis) EmptyString;
     p_missing_context := get_or (an_missing_context analysis) EmptyString;
     p_implications := get_or (an_implications analysis) EmptyString;
     p_analyzed_at := get_or (an_analyzed_at analysis) EmptyString |}.

(** The article index: per key, the article first seen under it and the
    perspectives appended so far. *)
Definition index := list (string * (Article * list Perspective)).

(** Lines 95-115, for one item. *)
Definition index_item (model_name : string) (ix : index) (item : Item) : index :=
  let article := item_article item in
  let article_id := article_key article in
  let ix := if dict_has article_id ix then ix
            else dict_set article_id (article, []) ix in
  match dict_get article_id ix with
  | Some (a, ps) =>
      dict_set article_id (a, ps ++ [make_perspective model_name (item_analysis item)]) ix
  | None => ix
  end.

(** Lines 86-115; a [None] entry is skipped by [if not model_data]. *)
Definition index_model (ix : index) (model_data : option ModelData) : index :=
  match model_data with
  | None => ix
  | Some md => fold_left (index_item (md_model md)) (md_analyses md) ix
  end.

Definition build_index (all_analyses : list (option ModelData)) : index :=
  fold_left index_model all_analyses [].

(** [for s in sentiments: counts[s] = counts.get(s, 0) + 1] *)
Definition count_sentiments (sentiments : list string) : list (string * Z) :=
  fold_left (fun counts s => dict_set s (get_or (dict_get s counts) 0 + 1)%Z counts)
            sentiments [].

(** [max(items, key=lambda x: x[1])]: the first item with the largest
    count; [best] is the largest so far. *)
Fixpoint max_by_count (best : string * Z) (items : list (string * Z)) : string * Z :=
  match items with
  | [] => best
  | x :: items' => max_by_count (if (snd best <? snd x)%Z then x else best) items'
  end.

Definition len {A} (l : list A) : Z := Z.of_nat (length l).

(** [count / total * 100] on two [int]s. *)
Definition percentage (count total : Z) : float :=
  mul (div (float_of_Z count) (float_of_Z total)) (float_of_Z 100).

(** Lines 122-129. *)
Definition article_consensus (perspectives : list Perspective) : ArticleConsensus :=
  let sentiments :=
    filter (fun s => negb (String.eqb s "unknown")) (map p_sentiment perspectives) in
  let sentiment_counts := count_sentiments sentiments in
  let dominant_sentiment :=
    match sentiment_counts with
    | x :: items => fst (max_by_count x items)
    | [] => "mixed"
    end in
  let agreement :=
    match sentiments with
    | _ :: _ =>
        PyFloat (percentage (get_or (dict_get dominant_sentiment sentiment_counts) 0%Z)
                            (len sentiments))
    | [] => PyInt 0%Z
    end in
  {| dominant_sentiment := dominant_sentiment;
     agreement_percentage := py_round1 agreement;
     sentiment_distribution := sentiment_counts;
     models_analyzed := len perspectives |}.

(** [sort(key=lambda x: len(x['perspectives']), reverse=True)]: stable. *)
Fixpoint insert_by_coverage (x : Synthesized) (l : list Synthesized) : list Synthesized :=
  match l with
  | [] => [x]
  | y :: l' =>
      if (length (syn_perspectives x) <? length (syn_perspectives y))%nat
      then y :: insert_by_coverage x l'
      else x :: l
  end.

Definition sort_by_coverage (l : list Synthesized) : list Synthesized :=
  fold_right insert_by_coverage [] l.

Definition synthesize_entry (e : string * (Article * list Perspective)) : Synthesized :=
  let '(_, (a, perspectives)) := e in
  {| syn_article := a;
     syn_perspectives := perspectives;
     syn_consensus := article_consensus perspectives |}.

Definition synthesize_perspectives (all_analyses : list (option ModelData))
  : list Synthesized :=
  sort_by_coverage (map synthesize_entry (build_index all_analyses)).

Record Consensus : Type := mkConsensus {
  c_dominant_sentiment : string;
  c_sentiment_distribution : list (string * Z);
  c_agreement_percentage : pynum;
  c_total_analyses : Z;
  c_confidence_distribution : list (string * Z)
}.

(** Lines 39-47: the sentiments and confidence levels that are present. *)
Definition collect {A} (field : Analysis -> option A)
    (analyses : list (option ModelData)) : list A :=
  flat_map (fun md =>
              match md with
              | None => []
              | Some d =>
                  flat_map (fun item =>
                              match field (item_analysis item) with
                              | Some x => [x]
                              | None => []
                              end) (md_analyses d)
              end) analyses.

(** [l.count(x)] *)
Definition count (x : string) (l : list string) : Z :=
  len (filter (String.eqb x) l).

Definition calculate_consensus (analyses : list (option ModelData)) : Consensus :=
  let sentiments := collect an_sentiment analyses in
  let confidence_levels := collect an_confidence analyses in
  let sentiment_dist := count_sentiments sentiments in
  let dominant :=
    match sentiment_dist with
    | x :: items => fst (max_by_count x items)
    | [] => "unknown"
    end in
  let agreement :=
    match sentiments with
    | _ :: _ =>
        PyFloat (percentage (get_or (dict_get dominant sentiment_dist) 0%Z) (len sentiments))
    | [] => PyInt 0%Z
    end in
  {| c_dominant_sentiment := dominant;
     c_sentiment_distribution := sentiment_dist;
     c_agreement_percentage := py_round1 agreement;
     c_total_analyses := len sentiments;
     c_confidence_distribution :=
       [ ("high", count "high" confidence_levels);
         ("medium", count "medium" confidence_levels);
         ("low", count "low" confidence_levels) ] |}.

(** What a path holds when [load_analysis] reads it. *)
Inductive file_state : Type :=
| Missing                       (* open raises FileNotFoundError *)
| Broken (e : exn)              (* any other exception while loading *)
| Stored (analyses : list Item) (metadata costs : json).

Definition filesystem := string -> file_state.

(** [load_analysis]: the result and the lines printed. *)
Definition load_analysis (fs : filesystem) (file_path model_name : string)
  : option ModelData * list string :=
  match fs file_path with
  | Stored analyses metadata costs =>
      (Some {| md_model := model_name; md_analyses := analyses;
               md_metadata := metadata; md_costs := costs |}, [])
  | Missing =>
      (None, [("  Warning: " ++ model_name ++ " analysis not found at " ++ file_path)%string])
  | Broken e =>
      (None, [("  Error loading " ++ model_name ++ " analysis: " ++ exn_str e)%string])
  end.

(** The static list of [main]. *)
Definition models : list (string * string) :=
  [ ("data/news_perspectives/gpt_mini_analysis.json", "GPT-4o Mini");
    ("data/news_perspectives/llama_small_analysis.json", "Llama 3.1 8B");
    ("data/news_perspectives/phi_analysis.json", "Phi-4 Mini");
    ("data/news_perspectives/mistral_analysis.json", "Mistral Small");
    ("data/news_perspectives/gpt_analysis.json", "GPT-4o");
    ("data/news_perspectives/llama_analysis.json", "Llama 3.1 405B");
    ("data/news_perspectives/deepseek_analysis.json", "DeepSeek-V3");
    ("data/news_perspectives/grok_analysis.json", "Grok 3") ].

(** Lines 188-194: the loop that loads what exists. *)
Fixpoint load_all (fs : filesystem) (ms : list (string * string))
    (all_analyses : list (option ModelData)) (log : list string)
  : list (option ModelData) * list string :=
  match ms with
  | [] => (all_analyses, log)
  | (file_path, model_name) :: ms' =>
      let (analysis, lines) := load_analysis fs file_path model_name in
      match analysis with
      | Some md => load_all fs ms' (all_analyses ++ [Some md]) (log ++ lines)
      | None => load_all fs ms' all_analyses (log ++ lines)
      end
  end.

(** The [data] and [metadata] parts of the output of [main] (time stamps
    and costs left out). *)
Record Output : Type := mkOutput {
  out_articles : list Synthesized;
  out_count : Z;
  out_consensus : Consensus;
  out_models : list string;
  out_models_included : list string;
  out_total_perspectives : Z
}.

Definition main (fs : filesystem) : Output * list string :=
  let (all_analyses, log) := load_all fs models [] [] in
  let synthesized := synthesize_perspectives all_analyses in
  let consensus := calculate_consensus all_analyses in
  ({| out_articles := synthesized;
      out_count := len synthesized;
      out_consensus := consensus;
      out_models := map snd models;
      out_models_included := map snd models;
      out_total_perspectives := c_total_analyses consensus |}, log).

(** ** More dynamic operations, used by the repair scripts *)

(** [for x in v]: the values the loop visits. *)
Definition py_iter (v : json) : result (list json) :=
  match v with
  | JList l => ret l
  | JDict d => ret (map (fun kv => JStr (fst kv)) d)
  | JStr s => ret (map (fun c => JStr (String c EmptyString)) (list_ascii_of_string s))
  | _ => TypeError ("'" ++ py_type_name v ++ "' object is not iterable")%string
  end.

(** [len(v)] *)
Definition py_len (v : json) : result Z :=
  match v with
  | JList l => ret (len l)
  | JDict d => ret (len d)
  | JStr s => ret (PyStr.len s)
  | _ => TypeError ("object of type '" ++ py_type_name v ++ "' has no len()")%string
  end.

(** [v[0]] *)
Definition py_first (v : json) : result json :=
  match v with
  | JList (x :: _) => ret x
  | JList [] => raise (PyError "IndexError" "list index out of range")
  | JStr (String c _) => ret (JStr (String c EmptyString))
  | JStr EmptyString => raise (PyError "IndexError" "string index out of range")
  | JDict _ => raise (PyError "KeyError" "0")
  | _ => TypeError ("'" ++ py_type_name v ++ "' object is not subscriptable")%string
  end.

(** [v[:n]] *)
Definition py_take (n : nat) (v : json) : result json :=
  match v with
  | JStr s => ret (JStr (PyStr.take n s))
  | JList l => ret (JList (firstn n l))
  | JDict _ => TypeError "unhashable type: 'slice'"
  | _ => TypeError ("'" ++ py_type_name v ++ "' object is not subscriptable")%string
  end.

(** [v.strip()], for the call sites that go on with a string. *)
Definition py_strip (v : json) : result string :=
  match v with
  | JStr s => ret (PyStr.strip s)
  | _ => AttributeError v "strip"
  end.

(** The index of the first line that satisfies [p], counted from [i]. *)
Fixpoint find_line (p : string -> bool) (lines : list string) (i : nat) : option nat :=
  match lines with
  | [] => None
  | l :: lines' => if p l then Some i else find_line p lines' (S i)
  end.

(** The document a file holds after a run on the document [before], [run]
    being the outcome of the loop over its records: the run leaves the
    document alone when the loop raises or counts no fix, and otherwise
    writes the repaired one back.  This is the view by documents, in which
    the write-back goes through; the write-back itself, which the key_points
    script can fail part-way, is in [run_on_file] and [file_after]. *)
Definition stored_after (before : json) (run : result (json * Z)) : json :=
  match run with
  | inr (data, fixed_count) => if (fixed_count >? 0)%Z then data else before
  | inl _ => before
  end.

(** Puts the repaired items back where [data['data']['analyses']] is a
    list (other iterables hold strings, which the loop cannot change). *)
Definition put_analyses (data : json) (analyses : json) (items : list json) : json :=
  match data, analyses with
  | JDict d, JList _ =>
      match dict_get "data" d with
      | Some (JDict dd) => JDict (dict_set "data" (JDict (dict_set "analyses" (JList items) dd)) d)
      | _ => data
      end
  | _, _ => data
  end.

(** The loop over the items: the items after the loop and how many of
    them were fixed. *)
Fixpoint fix_items (fix_item : json -> result (json * bool)) (items : list json)
  : result (list json * Z) :=
  match items with
  | [] => ret ([], 0%Z)
  | item :: items' =>
      r <- fix_item item ;;
      rs <- fix_items fix_item items' ;;
      ret (fst r :: fst rs, ((if snd r then 1 else 0) + snd rs)%Z)
  end.

(** ** fix_analysis_json.py *)

Module FixAnalysisJson.
Section WithLoads.

Variable loads : string -> option json.

Definition preamble : string := "**JSON Response".

Definition extract_json_from_string (content : string) : option json :=
  let content := PyStr.strip content in
  let content :=
    if PyStr.startswith preamble content then
      let lines := PyStr.split_lines content in
      let start_idx :=
        get_or (find_line (fun line =>
                             PyStr.startswith fence (PyStr.strip line)
                             || PyStr.startswith "{" (PyStr.strip line)) lines 0) 0%nat in
      PyStr.join_lines (skipn start_idx lines)
    else content in
  let content :=
    if PyStr.startswith fence content then
      let lines := PyStr.split_lines content in
      let lines :=
        if PyStr.startswith fence (hd EmptyString lines)
        then PyList.drop_first lines else lines in
      let lines :=
        match lines with
        | [] => lines
        | _ => if String.eqb (PyStr.strip (last lines EmptyString)) fence
               then PyList.drop_last lines else lines
        end in
      PyStr.join_lines lines
    else content in
  match brace_slice content with
  | Some json_content => loads json_content
  | None => None
  end.

(** The condition of lines 72-75, for an [analysis] that has [get]. *)
Definition looks_broken (analysis : json) (summary_start : string) : result bool :=
  has_summary <- py_contains "summary" analysis ;;
  if negb has_summary then ret false
  else if negb (PyStr.startswith "{" summary_start
                || PyStr.startswith preamble summary_start) then ret false
  else
    has_kp <- py_contains "key_points" analysis ;;
    if negb has_kp then ret false
    else
      kp <- py_getitem analysis "key_points" ;;
      n <- py_len kp ;;
      ret (n >? 0)%Z.

(** Lines 83-99: the analysis that replaces a broken one. *)
Definition rebuilt (parsed analysis : json) : result json :=
  summary <- py_get parsed "summary" (JStr EmptyString) ;;
  key_points <- py_get parsed "key_points" (JList []) ;;
  sentiment <- py_get parsed "sentiment" (JStr "neutral") ;;
  confidence <- py_get parsed "confidence" (JStr "medium") ;;
  bias_check <- py_get parsed "bias_check" (JStr EmptyString) ;;
  missing_context <- py_get parsed "missing_context" (JStr EmptyString) ;;
  implications <- py_get parsed "implications" (JStr EmptyString) ;;
  model <- py_get analysis "model" (JStr EmptyString) ;;
  model_id <- py_get analysis "model_id" (JStr EmptyString) ;;
  analyzed_at <- py_get analysis "analyzed_at" (JStr EmptyString) ;;
  let new :=
    JDict [ ("summary", summary); ("key_points", key_points);
            ("sentiment", sentiment); ("confidence", confidence);
            ("bias_check", bias_check); ("missing_context", missing_context);
            ("implications", implications);
            ("model", model); ("model_id", model_id);
            ("analyzed_at", analyzed_at) ] in
  has_usage <- py_contains "token_usage" analysis ;;
  if (has_usage : bool) then
    token_usage <- py_getitem analysis "token_usage" ;;
    py_setitem new "token_usage" token_usage
  else ret new.

(** The body of the loop of [fix_analysis_file] for one item: the item
    after the step, and whether it was fixed. *)
Definition fix_item (item : json) : result (json * bool) :=
  has_analysis <- py_contains "analysis" item ;;
  if negb has_analysis then ret (item, false)
  else
    analysis <- py_getitem item "analysis" ;;
    summary <- py_get analysis "summary" (JStr EmptyString) ;;
    summary_start <- py_strip summary ;;
    broken <- looks_broken analysis summary_start ;;
    if negb broken then ret (item, false)
    else
      kp <- py_getitem analysis "key_points" ;;
      raw_content <- py_first kp ;;
      text <- match raw_content with
              | JStr s => ret s
              | _ => AttributeError raw_content "strip"
              end ;;
      match extract_json_from_string text with
      | None => ret (item, false)
      | Some parsed =>
          if negb (py_truthy parsed) then ret (item, false)
          else
            has_summary <- py_contains "summary" parsed ;;
            if negb has_summary then ret (item, false)
            else
              new <- rebuilt parsed analysis ;;
              item1 <- py_setitem item "analysis" new ;;
              (* the log line reads item['article']['title'][:60] *)
              a <- py_getitem item1 "article" ;;
              t <- py_getitem a "title" ;;
              _ <- py_take 60 t ;;
              ret (item1, true)
      end.

Definition fix_analysis_file (data : json) : result (json * Z) :=
  d <- py_getitem data "data" ;;
  analyses <- py_getitem d "analyses" ;;
  items <- py_iter analyses ;;
  r <- fix_items fix_item items ;;
  ret (put_analyses data analyses (fst r), snd r).

(** The document in the file after one run of the script on it, when the
    write-back, if there is one, goes through ([json.dump] is called with
    [ensure_ascii=False] and can raise: see [file_after]). *)
Definition repair (file : json) : json :=
  stored_after file (fix_analysis_file file).

(** The summary of the item's analysis starts with one of the two markers
    the script looks for. *)
Definition marked (item : json) : bool :=
  match (analysis <- py_getitem item "analysis" ;;
         summary <- py_get analysis "summary" (JStr EmptyString) ;;
         py_strip summary) with
  | inr s => PyStr.startswith "{" s || PyStr.startswith preamble s
  | inl _ => false
  end.

(** Every record the script rewrites gets a summary without marker. *)
Definition settles (file : json) : bool :=
  match (d <- py_getitem file "data" ;; py_getitem d "analyses") with
  | inr (JList items) =>
      forallb (fun item => match fix_item item with
                           | inr (item', true) => negb (marked item')
                           | _ => true
                           end) items
  | _ => true
  end.

End WithLoads.
End FixAnalysisJson.

(** ** fix_json_fences.py *)

Module FixJsonFences.
Section WithLoads.

Variable loads : string -> option json.

Definition strip_code_fences (content : string) : string :=
  let content := PyStr.strip content in
  let lines := PyStr.split_lines content in
  let start_idx :=
    match find_line (fun line => PyStr.startswith fence (PyStr.strip line)) lines 0 with
    | Some i => S i
    | None => 0%nat
    end in
  let closing_fence_idx :=
    find_line (fun line => String.eqb (PyStr.strip line) fence)
              (skipn start_idx lines) start_idx in
  let lines :=
    match closing_fence_idx with
    | Some c => PyList.slice start_idx c lines
    | None => if (0 <? start_idx)%nat then skipn start_idx lines else lines
    end in
  PyStr.join_lines lines.

(** The test of line 53 on the stripped summary. *)
Definition looks_fenced (summary : string) : bool :=
  PyStr.startswith fence summary
  || PyStr.contains "```json" (PyStr.take 100 summary).

Definition fix_item (item : json) : result (json * bool) :=
  has_analysis <- py_contains "analysis" item ;;
  if negb has_analysis then ret (item, false)
  else
    analysis <- py_getitem item "analysis" ;;
    s <- py_get analysis "summary" (JStr EmptyString) ;;
    summary <- py_strip s ;;
    if negb (looks_fenced summary) then ret (item, false)
    else
      has_kp <- py_contains "key_points" analysis ;;
      if negb has_kp then ret (item, false)
      else
        kp <- py_getitem analysis "key_points" ;;
        n <- py_len kp ;;
        if negb (n >? 0)%Z then ret (item, false)
        else
          first <- py_first kp ;;
          text <- match first with
                  | JStr t => ret t
                  | _ => AttributeError first "strip"
                  end ;;
          let raw_json := strip_code_fences text in
          match loads raw_json with
          | Some parsed =>
              item1 <- py_setitem item "analysis" parsed ;;
              ret (item1, true)
          | None => ret (item, false)
          end.

Definition fix_analysis_file (data : json) : result (json * Z) :=
  has_data <- py_contains "data" data ;;
  if negb has_data then ret (data, 0%Z)
  else
    d <- py_getitem data "data" ;;
    has_analyses <- py_contains "analyses" d ;;
    if negb has_analyses then ret (data, 0%Z)
    else
      analyses <- py_getitem d "analyses" ;;
      items <- py_iter analyses ;;
      r <- fix_items fix_item items ;;
      ret (put_analyses data analyses (fst r), snd r).

(** The document in the file after one run of the script on it
    ([json.dump] keeps the default [ensure_ascii=True] here, so every
    document can be written). *)
Definition repair (file : json) : json :=
  stored_after file (fix_analysis_file file).

(** The summary of the item's analysis passes the test of line 53. *)
Definition marked (item : json) : bool :=
  match (analysis <- py_getitem item "analysis" ;;
         summary <- py_get analysis "summary" (JStr EmptyString) ;;
         py_strip summary) with
  | inr s => looks_fenced s
  | inl _ => false
  end.

(** Every record the script rewrites gets a summary that fails that test. *)
Definition settles (file : json) : bool :=
  match (d <- py_getitem file "data" ;; py_getitem d "analyses") with
  | inr (JList items) =>
      forallb (fun item => match fix_item item with
                           | inr (item', true) => negb (marked item')
                           | _ => true
                           end) items
  | _ => true
  end.

End WithLoads.
End FixJsonFences.

(** ** Reading a trace *)

(** The delays passed to [time.sleep], in order. *)
Fixpoint sleeps (evs : list event) : list Z :=
  match evs with
  | [] => []
  | Sleep d :: evs' => d :: sleeps evs'
  | Call _ :: evs' => sleeps evs'
  end.

(** The number of requests sent. *)
Fixpoint calls (evs : list event) : nat :=
  match evs with
  | [] => 0
  | Call _ :: evs' => S (calls evs')
  | Sleep _ :: evs' => calls evs'
  end.

Definition total_sleep (evs : list event) : Z := fold_right Z.add 0%Z (sleeps evs).

(** ** A scripted completion service, for concrete runs *)

Module Demo.

(** The world is the list of outcomes of the calls still to come; once
    the script is over the connection fails. *)
Definition World : Type := list (result response).

Definition create (_ : request) (w : World) : result response * World :=
  match w with
  | r :: w' => (r, w')
  | [] => (raise (PyError "APIConnectionError" "Connection error."), [])
  end.

Definition utcnow_iso (_ : World) : string := "2025-01-01T00:00:00".

Definition sleep (_ : Z) (w : World) : World := w.

Definition start (w : World) : state World := {| world := w; trace := [] |}.

Definition rate_limited : result response := raise (RateLimitError "Error code: 429").

Definition answer (text : string) : result response :=
  ret {| resp_content := Some text;
         resp_usage := Some {| prompt_tokens := 120; completion_tokens := 80;
                               total_tokens := 200 |} |}.

Definition news : article :=
  {| title := "Chip exports rise"; source := "Wire"; description := "Exports rose.";
     article_rest := [("id", JStr "news_0_1700000000")] |}.

Definition analyze (a : article) (st : state World) : json * state World :=
  analyze_article World create utcnow_iso sleep ref_loads "openai/gpt-4o-mini" "GPT-4o Mini" a st.

Definition voice (sentiment : string) : Perspective :=
  {| p_model := "GPT-4o Mini"; p_model_id := "openai/gpt-4o-mini"; p_emoji := EmptyString;
     p_summary := EmptyString; p_key_points := JList []; p_sentiment := sentiment;
     p_confidence := "high"; p_bias_check := EmptyString; p_missing_context := EmptyString;
     p_implications := EmptyString; p_analyzed_at := EmptyString |}.

Definition record (id sentiment : string) : Item :=
  {| item_article := {| art_id := Some id; art_title := Some "Chip exports rise";
                        art_other := [] |};
     item_analysis := {| an_model_id := Some "openai/gpt-4o-mini";
                         an_summary := Some "Exports rose."; an_key_points := None;
                         an_sentiment := Some sentiment; an_confidence := Some "high";
                         an_bias_check := None; an_missing_context := None;
                         an_implications := None; an_analyzed_at := None;
                         an_other := [] |} |}.

Definition two_records : list Item :=
  [record "news_0" "positive"; record "news_1" "negative"].

(** One loaded artifact, whose only record has no sentiment to count. *)
Definition quiet : list (option ModelData) :=
  [ Some {| md_model := "GPT-4o Mini"; md_analyses := [record "news_0" "unknown"];
            md_metadata := JDict []; md_costs := JDict [] |} ].

(** The first article of a synthesis (an article without perspectives when
    there is none). *)
Definition first_article (l : list Synthesized) : Synthesized :=
  hd (synthesize_entry
        (EmptyString, ({| art_id := None; art_title := None; art_other := [] |}, []))) l.

(** Only the first artifact of the static list exists; [items] are its
    records. *)
Definition only_gpt_mini (items : list Item) : filesystem :=
  fun path =>
    if String.eqb path "data/news_perspectives/gpt_mini_analysis.json"
    then Stored items (JDict []) (JDict [])
    else Missing.

(** An artifact with one record, whose analysis has the given summary and
    first key point. *)
Definition artifact (summary key_point : string) : json :=
  JDict [ ("agent", JStr "gpt-mini-analyzer");
          ("data",
           JDict [ ("analyses",
                    JList [ JDict [ ("article", JDict [("title", JStr "Chip exports rise")]);
                                    ("analysis",
                                     JDict [ ("summary", JStr summary);
                                             ("key_points", JList [JStr key_point]);
                                             ("sentiment", JStr "neutral");
                                             ("model", JStr "GPT-4o Mini");
                                             ("model_id", JStr "openai/gpt-4o-mini");
                                             ("analyzed_at", JStr "2025-01-01T00:00:00");
                                             ("token_usage",
                                              JDict [("total_tokens", JInt 200)]) ]) ] ]);
                   ("count", JInt 1) ]) ].

(** The model answered with JSON that the analyzer of the day could not
    parse, so the text landed in [key_points]. *)
Definition broken_once : json :=
  artifact "{"
    (q "{'summary': 'Exports rose.', 'key_points': ['a', 'b'], 'sentiment': 'positive'}").

(** The same, but the summary inside the JSON is itself a braced text and
    its first key point is itself JSON. *)
Definition broken_twice : json :=
  artifact "{"
    (q "{'summary': '{x}', 'key_points': ['{\'summary\': \'done\'}']}").

Definition fenced_once : json :=
  artifact "```json"
    ("```json" ++ PyStr.NL ++ q "{'summary': 'Exports rose.', 'key_points': ['a']}"
     ++ PyStr.NL ++ "```").

Definition fenced_twice : json :=
  artifact "```json"
    ("```json" ++ PyStr.NL ++ q "{'summary': '```', 'key_points': ['{}']}"
     ++ PyStr.NL ++ "```").

(** The only analysis of such an artifact. *)
Definition analysis_of (file : json) : result json :=
  d <- py_getitem file "data" ;;
  l <- py_getitem d "analyses" ;;
  item <- py_first l ;;
  py_getitem item "analysis".

(** The only record of such an artifact. *)
Definition record_of (file : json) : json :=
  match (d <- py_getitem file "data" ;; l <- py_getitem d "analyses" ;; py_first l) with
  | inr item => item
  | inl _ => JNull
  end.

(** The item a repair step returns. *)
Definition after (step : result (json * bool)) : json :=
  match step with
  | inr (item, _) => item
  | inl _ => JNull
  end.

Definition analyze_many (l : list article) (st : state World) :=
  analyze_articles World create utcnow_iso sleep ref_loads "openai/gpt-4o-mini" "GPT-4o Mini" l st.

End Demo.

(** ** Vocabulary of the statements *)

(** How often [s] occurs in [l]. *)
Definition occurrences (s : string) (l : list string) : Z :=
  Z.of_nat (count_occ string_dec l s).

(** The sentiments an article's consensus counts: all but "unknown". *)
Definition counted_sentiments (perspectives : list Perspective) : list string :=
  filter (fun s => negb (String.eqb s "unknown")) (map p_sentiment perspectives).

(** [t] tenths are within half a tenth of [100 * c / n]. *)
Definition half_tenth_close (t c n : Z) : bool :=
  (Z.abs (2 * n * t - 2000 * c) <=? n)%Z.

(** The float [c / n * 100] has a positive number of tenths nearest to it,
    and that number is within half a tenth of the exact percentage. *)
Definition rounds_well (c n : nat) : bool :=
  match nearest_tenths (percentage (Z.of_nat c) (Z.of_nat n)) with
  | Some t => (0 <? t)%Z && half_tenth_close t (Z.of_nat c) (Z.of_nat n)
  | None => false
  end.

Definition rounding_table (bound : nat) : bool :=
  forallb (fun n => forallb (fun c => rounds_well c n) (seq 1 n)) (seq 1 bound).

(** The artifacts of the static list that the file system holds, under the
    display name of their model, in the order of the list. *)
Definition loaded (fs : filesystem) : list ModelData :=
  flat_map (fun pm : string * string =>
              match fs (fst pm) with
              | Stored analyses metadata costs =>
                  [ {| md_model := snd pm; md_analyses := analyses;
                       md_metadata := metadata; md_costs := costs |} ]
              | _ => []
              end) models.

(** The records of an artifact that are about the article with key [k]. *)
Definition matching (k : string) (items : list Item) : list Item :=
  filter (fun item => String.eqb (article_key (item_article item)) k) items.

(** The loaded artifacts that have a record about the article with key [k]. *)
Definition contributing (fs : filesystem) (k : string) : list ModelData :=
  filter (fun d => match matching k (md_analyses d) with [] => false | _ => true end)
         (loaded fs).

(** No two records of the artifact are about the same article key. *)
Definition unique_keys (d : ModelData) : Prop :=
  NoDup (map (fun item => article_key (item_article item)) (md_analyses d)).

(** The perspectives the index holds under [k]. *)
Definition perspectives_of (ix : index) (k : string) : list Perspective :=
  match dict_get k ix with
  | Some (_, ps) => ps
  | None => []
  end.

(** The index has one entry per key, filed under the key of its article. *)
Definition index_ok (ix : index) : Prop :=
  NoDup (map fst ix)
  /\ forall k a ps, In (k, (a, ps)) ix -> article_key a = k.

(** The running totals hold three integers. *)
Definition tokens_ok (total : dict) : Prop :=
  exists a b c,
    total = [ ("prompt_tokens", JInt a); ("completion_tokens", JInt b);
              ("total_tokens", JInt c) ].

Section EachInTurn.

Variable World : Type.
Variable create : request -> World -> result response * World.
Variable utcnow_iso : World -> string.
Variable sleep : Z -> World -> World.
Variable loads : string -> option json.
Variable model_name display_name : string.

(** The batch as the specification words it: every item is analyzed in
    turn, whatever became of the items before it, with a pause of one
    second between two items. *)
Fixpoint each_in_turn (articles : list article) (st : state World)
  : list (article * json) * state World :=
  match articles with
  | [] => ([], st)
  | a :: rest =>
      let (analysis, st1) :=
        analyze_article World create utcnow_iso sleep loads model_name display_name a st in
      let st2 := match rest with
                 | [] => st1
                 | _ => time_sleep World sleep 1 st1
                 end in
      let (records, st3) := each_in_turn rest st2 in
      ((a, analysis) :: records, st3)
  end.

End EachInTurn.

(** The number of perspectives of a synthesized article. *)
Definition coverage (s : Synthesized) : nat := length (syn_perspectives s).

(** The key under which a record is filed. *)
Definition item_key (item : Item) : string := article_key (item_article item).

(** All the records of the loaded artifacts, in load order. *)
Definition records (all_analyses : list (option ModelData)) : list Item :=
  flat_map (fun md => match md with
                      | Some d => md_analyses d
                      | None => []
                      end) all_analyses.

(** The distinct elements of a list, in the order of their first
    occurrence. *)
Fixpoint first_seen (l : list string) : list string :=
  match l with
  | [] => []
  | x :: l' => x :: filter (fun y => negb (String.eqb y x)) (first_seen l')
  end.

(** One of the three confidence levels the histogram has a bucket for. *)
Definition recognized (c : string) : bool :=
  String.eqb "high" c || String.eqb "medium" c || String.eqb "low" c.

(** The first record of [seen] filed under [k]. *)
Definition first_record (k : string) (seen : list Item) : option Item :=
  find (fun it => String.eqb (item_key it) k) seen.

(** Each entry of the index holds the article of the first record filed
    under its key and at least one perspective; a key without entry has no
    record. *)
Definition index_first (ix : index) (seen : list Item) : Prop :=
  forall k,
    match dict_get k ix with
    | Some (a, ps) =>
        ps <> [] /\ exists item, first_record k seen = Some item /\ a = item_article item
    | None => first_record k seen = None
    end.

(** The number of perspectives an index holds. *)
Definition index_size (ix : index) : nat :=
  list_sum (map (fun e : string * (Article * list Perspective) => length (snd (snd e))) ix).

(** The record carries a [sentiment] field. *)
Definition has_sentiment (item : Item) : bool :=
  match an_sentiment (item_analysis item) with
  | Some _ => true
  | None => false
  end.

(** The line [load_analysis] prints for a path it cannot load, if any. *)
Definition load_report (fs : filesystem) (pm : string * string) : list string :=
  snd (load_analysis fs (fst pm) (snd pm)).

(** [n / n * 100] rounds to exactly 1000 tenths, for [n] from 1 to the
    bound. *)
Definition unanimous_table (bound : nat) : bool :=
  forallb (fun n => match nearest_tenths (percentage (Z.of_nat n) (Z.of_nat n)) with
                    | Some t => (t =? 1000)%Z
                    | None => false
                    end) (seq 1 bound).


(** The requests sent, in order. *)
Fixpoint requests (evs : list event) : list request :=
  match evs with
  | [] => []
  | Call r :: evs' => r :: requests evs'
  | Sleep _ :: evs' => requests evs'
  end.

(** The count an analysis reports under [key] of its [token_usage], and 0
    when it reports none. *)
Definition tokens_of (key : string) (analysis : json) : Z :=
  match analysis with
  | JDict d =>
      match dict_get "token_usage" d with
      | Some (JDict u) => match dict_get key u with Some (JInt n) => n | _ => 0%Z end
      | _ => 0%Z
      end
  | _ => 0%Z
  end.

(** The sum of the counts the records of a batch report under [key]. *)
Definition sum_tokens (key : string) (recs : list (article * json)) : Z :=
  fold_right Z.add 0%Z (map (fun r => tokens_of key (snd r)) recs).

(** Opening minus closing braces. *)
Fixpoint depth (s : string) : Z :=
  match s with
  | EmptyString => 0%Z
  | String c s' =>
      ((if Ascii.eqb c "{" then 1 else if Ascii.eqb c "}" then -1 else 0) + depth s')%Z
  end.

(** The character does not occur in the text. *)
Fixpoint absent (c : ascii) (s : string) : Prop :=
  match s with
  | EmptyString => True
  | String a s' => a <> c /\ absent c s'
  end.

(** The text is made of white space only. *)
Fixpoint blank (s : string) : bool :=
  match s with
  | EmptyString => true
  | String c s' => PyStr.isspace c && blank s'
  end.

(** No line of the text is, once stripped, a bare fence marker. *)
Definition no_bare_fence (s : string) : bool :=
  forallb (fun line => negb (String.eqb (PyStr.strip line) fence)) (PyStr.split_lines s).

(** The line, once stripped, starts with a fence marker. *)
Definition opens_fence (line : string) : bool :=
  PyStr.startswith fence (PyStr.strip line).

(** The line, once stripped, is a bare fence marker. *)
Definition closes_fence (line : string) : bool :=
  String.eqb (PyStr.strip line) fence.



(** The records of an artifact: the list under [data.analyses], if any. *)
Definition file_records (file : json) : list json :=
  match (d <- py_getitem file "data" ;; py_getitem d "analyses") with
  | inr (JList items) => items
  | _ => []
  end.

(** ** The repair scripts on files

    What a path holds when a script opens it: nothing
    ([os.path.exists] is false and [open] raises [FileNotFoundError]),
    something that [open] or [json.load] rejects with [e], or a JSON
    document.  Opening a file that was just read for writing is taken to
    succeed. *)
Inductive disk_entry : Type :=
| Absent
| Unreadable (e : exn)
| Holds (doc : json).

Definition disk := string -> disk_entry.

Definition disk_put (path : string) (entry : disk_entry) (dk : disk) : disk :=
  fun p => if String.eqb p path then entry else dk p.

Definition file_not_found (path : string) : exn :=
  PyError "FileNotFoundError"
    ("[Errno 2] No such file or directory: '" ++ path ++ "'")%string.

(** What [json.dump(data, f, ...)] does once [open(filepath, 'w')] has
    emptied the file: it writes the whole text, or it raises part-way and
    leaves the beginning of the text, an object that is never closed, which
    [json.load] rejects with [on_load]. *)
Inductive dump_outcome : Type :=
| Written
| Failed (raised on_load : exn).

(** [fix_analysis_file(filepath)] of either script, [pass] being its loop
    over the loaded document and [dump] its [json.dump]: the count it
    computed (or the exception it raised) and the disk it leaves. *)
Definition run_on_file (pass : json -> result (json * Z)) (dump : json -> dump_outcome)
    (filepath : string) (dk : disk) : result Z * disk :=
  match dk filepath with
  | Absent => (raise (file_not_found filepath), dk)
  | Unreadable e => (raise e, dk)
  | Holds data =>
      match pass data with
      | inl e => (raise e, dk)
      | inr (data', fixed_count) =>
          if (fixed_count >? 0)%Z then
            match dump data' with
            | Written => (ret fixed_count, disk_put filepath (Holds data') dk)
            | Failed raised on_load =>
                (raise raised, disk_put filepath (Unreadable on_load) dk)
            end
          else (ret fixed_count, dk)
      end
  end.

Module FixAnalysisJsonMain.
Section WithLoads.

Variable loads : string -> option json.

(** [json.dump(data, f, indent=2, ensure_ascii=False)] writes strings as
    they are and raises [UnicodeEncodeError] on a character that UTF-8
    cannot encode (a lone surrogate, which [json.loads] accepts as an
    escape).  The strings of this development hold no such character, so
    the outcome of the dump on a document is a parameter of the script. *)
Variable dump : json -> dump_outcome.

Definition files_to_fix : list string :=
  [ "data/news_perspectives/gpt_mini_analysis.json";
    "data/news_perspectives/llama_small_analysis.json";
    "data/news_perspectives/phi_analysis.json";
    "data/news_perspectives/mistral_analysis.json" ].

(** Lines 124-129: files that do not exist are skipped, an exception
    leaves the loop. *)
Fixpoint main_loop (files : list string) (total_fixed : Z) (dk : disk)
  : result Z * disk :=
  match files with
  | [] => (ret total_fixed, dk)
  | filepath :: rest =>
      match dk filepath with
      | Absent => main_loop rest total_fixed dk
      | _ =>
          match run_on_file (FixAnalysisJson.fix_analysis_file loads) dump filepath dk with
          | (inr n, dk') => main_loop rest (total_fixed + n)%Z dk'
          | (inl e, dk') => (raise e, dk')
          end
      end
  end.

Definition main (dk : disk) : result Z * disk := main_loop files_to_fix 0%Z dk.

End WithLoads.
End FixAnalysisJsonMain.

Module FixJsonFencesMain.
Section WithLoads.

Variable loads : string -> option json.

(** [json.dump(data, f, indent=2)] keeps the default [ensure_ascii=True]:
    every character outside ASCII is written as an escape, so the text of
    a document that was loaded or parsed can always be encoded. *)
Definition dump (data : json) : dump_outcome := Written.

Definition files : list string :=
  [ "data/news_perspectives/gpt_mini_analysis.json";
    "data/news_perspectives/llama_small_analysis.json";
    "data/news_perspectives/phi_analysis.json";
    "data/news_perspectives/mistral_analysis.json" ].

(** Lines 85-89: every file is tried, an exception is caught and
    reported; [caught] are the exceptions reported so far. *)
Fixpoint main_loop (files : list string) (dk : disk) (caught : list exn)
  : disk * list exn :=
  match files with
  | [] => (dk, caught)
  | filepath :: rest =>
      match run_on_file (FixJsonFences.fix_analysis_file loads) dump filepath dk with
      | (inr _, dk') => main_loop rest dk' caught
      | (inl e, dk') => main_loop rest dk' (caught ++ [e])
      end
  end.

Definition main (dk : disk) : disk * list exn := main_loop files dk [].

End WithLoads.
End FixJsonFencesMain.


(** The entry after a repair of the document it holds, if it holds one. *)
Definition repaired_entry (repair : json -> json) (e : disk_entry) : disk_entry :=
  match e with
  | Holds doc => Holds (repair doc)
  | _ => e
  end.

(** [p] is one of the paths of [l]. *)
Definition listed (p : string) (l : list string) : bool := existsb (String.eqb p) l.

(** The fixes a run of [pass] counts on an entry: none unless it holds a
    document on which the run returns. *)
Definition fixes_of (pass : json -> result (json * Z)) (e : disk_entry) : Z :=
  match e with
  | Holds doc => match pass doc with inr (_, n) => n | inl _ => 0%Z end
  | _ => 0%Z
  end.

(** * Properties *)

(** ** Strings *)

Lemma split_lines_nonempty (s : string) :
  exists l ls, PyStr.split_lines s = l :: ls.
Proof.
  induction s as [|c s IH]; simpl.
  - eauto.
  - destruct (Ascii.eqb c PyStr.nl); [eauto|].
    destruct IH as (l & ls & ->). eauto.
Qed.

Lemma prefix_cons (a b : ascii) (p s : string) :
  String.prefix (String a p) (String b s) = true -> a = b /\ String.prefix p s = true.
Proof.
  cbn [String.prefix]. destruct (ascii_dec a b); [auto | discriminate].
Qed.

Lemma prefix_refl_cons (a : ascii) (p s : string) :
  String.prefix (String a p) (String a s) = String.prefix p s.
Proof.
  cbn [String.prefix]. destruct (ascii_dec a a); [reflexivity | congruence].
Qed.

Lemma startswith_fence_inv (s : string) :
  PyStr.startswith fence s = true -> exists s', s = (fence ++ s')%string.
Proof.
  unfold PyStr.startswith, fence. intros H.
  destruct s as [|a s]; [discriminate|]. apply prefix_cons in H as [<- H].
  destruct s as [|b s]; [discriminate|]. apply prefix_cons in H as [<- H].
  destruct s as [|c s]; [discriminate|]. apply prefix_cons in H as [<- H].
  now exists s.
Qed.

Lemma split_lines_first_fence (s : string) :
  PyStr.startswith fence s = true ->
  exists first rest,
    PyStr.split_lines s = first :: rest /\ PyStr.startswith fence first = true.
Proof.
  intros H. destruct (startswith_fence_inv s H) as (s' & ->).
  destruct (split_lines_nonempty s') as (l & ls & E).
  exists (fence ++ l)%string, ls. split.
  - cbn. now rewrite E.
  - unfold PyStr.startswith, fence. cbn [String.append].
    rewrite !prefix_refl_cons. now destruct l.
Qed.

Lemma take_length (n : nat) (s : string) :
  String.length (PyStr.take n s) = Nat.min n (String.length s).
Proof.
  unfold PyStr.take. revert s.
  induction n as [|n IH]; intros [|c s]; simpl; try reflexivity.
  now rewrite IH.
Qed.

Lemma take_prefix (n : nat) (s : string) :
  String.prefix (PyStr.take n s) s = true.
Proof.
  unfold PyStr.take. revert s.
  induction n as [|n IH]; intros [|c s]; try reflexivity.
  cbn [String.substring]. rewrite prefix_refl_cons. apply IH.
Qed.

(** ** The extractor: fences, direct parse, brace recovery, fallback *)

Lemma strip_fences_plain (content : string) :
  PyStr.startswith fence (PyStr.strip content) = false ->
  strip_fences content = content.
Proof. unfold strip_fences. now intros ->. Qed.

Lemma parse_content_fallback (loads : string -> option json) (content : string) :
  loads content = None ->
  (forall sub, brace_slice content = Some sub -> loads sub = None) ->
  parse_content loads content = fallback_analysis content.
Proof.
  unfold parse_content. intros -> H.
  destruct (brace_slice content) as [sub|]; [|reflexivity].
  now rewrite (H sub eq_refl).
Qed.

(** C4, as the code has it.  A text whose stripped form does not start with
    a fence marker is left as it is.  Otherwise the first line of the
    stripped text is dropped whatever follows, the last remaining line is
    dropped as well exactly when it is a bare fence marker, and the lines
    left are joined again. *)
Theorem strip_fences_cases (content : string) :
  (PyStr.startswith fence (PyStr.strip content) = false ->
   strip_fences content = content)
  /\ (PyStr.startswith fence (PyStr.strip content) = true ->
      exists first rest,
        PyStr.split_lines (PyStr.strip content) = first :: rest
        /\ PyStr.startswith fence first = true
        /\ strip_fences content =
             PyStr.join_lines
               match rest with
               | [] => []
               | _ => if String.eqb (PyStr.strip (last rest EmptyString)) fence
                      then removelast rest else rest
               end).
Proof.
  split; [apply strip_fences_plain|].
  unfold strip_fences. intros H. rewrite H.
  destruct (split_lines_first_fence _ H) as (first & rest & E & F).
  exists first, rest. rewrite E. cbn [hd]. rewrite F.
  unfold PyList.drop_first, PyList.drop_last. cbn [tl].
  repeat split. now destruct rest.
Qed.

Lemma strip_fences_cases_witness :
  strip_fences "plain text" = "plain text"
  /\ exists first rest,
       PyStr.split_lines (PyStr.strip ("```json" ++ PyStr.NL ++ "{}")) = first :: rest
       /\ PyStr.startswith fence first = true
       /\ strip_fences ("```json" ++ PyStr.NL ++ "{}") =
            PyStr.join_lines
              match rest with
              | [] => []
              | _ => if String.eqb (PyStr.strip (last rest EmptyString)) fence
                     then removelast rest else rest
              end.
Proof.
  split.
  - apply (proj1 (strip_fences_cases "plain text")). reflexivity.
  - apply (proj2 (strip_fences_cases ("```json" ++ PyStr.NL ++ "{}"))). reflexivity.
Defined.

(** Sentence C4 of the specification fails on the code:
    an opening fence without a closing fence is not
    left as it is (its first line goes), and a closing fence followed by
    more text does not bound the block (the text after the opening line
    stays whole). *)
Lemma opening_fence_alone_is_stripped :
  strip_fences ("```json" ++ PyStr.NL ++ "{}") = "{}"
  /\ strip_fences ("```json" ++ PyStr.NL ++ "{}") <> ("```json" ++ PyStr.NL ++ "{}")%string
  /\ strip_fences ("```" ++ PyStr.NL ++ "{}" ++ PyStr.NL ++ "```" ++ PyStr.NL ++ "Thanks")
     = ("{}" ++ PyStr.NL ++ "```" ++ PyStr.NL ++ "Thanks")%string.
Proof.
  split; [reflexivity|]. split; [|reflexivity].
  vm_compute. discriminate.
Qed.

(** C1, as the code has it.  Whatever the direct parse returns is the
    analysis, with or without a [summary] key; when the direct parse fails,
    whatever the braced span parses to is the analysis; the fallback object
    is built only when both parses fail. *)
Theorem parse_content_accepts (loads : string -> option json) (content : string) :
  (forall v, loads content = Some v -> parse_content loads content = v)
  /\ (forall sub v,
        loads content = None -> brace_slice content = Some sub ->
        loads sub = Some v -> parse_content loads content = v)
  /\ (loads content = None ->
      (forall sub, brace_slice content = Some sub -> loads sub = None) ->
      parse_content loads content = fallback_analysis content).
Proof.
  unfold parse_content. repeat split.
  - intros v ->. reflexivity.
  - intros sub v -> -> ->. reflexivity.
  - fold (parse_content loads content). apply parse_content_fallback.
Qed.

Lemma parse_content_accepts_witness :
  parse_content ref_loads (q "{'summary': 'Calm markets.', 'sentiment': 'neutral'}")
  = JDict [("summary", JStr "Calm markets."); ("sentiment", JStr "neutral")]
  /\ parse_content ref_loads (q "Here it is: {'summary': 'Calm markets.'} Hope it helps")
     = JDict [("summary", JStr "Calm markets.")]
  /\ parse_content ref_loads "Markets were calm." = fallback_analysis "Markets were calm.".
Proof.
  split; [|split].
  - apply (proj1 (parse_content_accepts ref_loads _)). reflexivity.
  - apply (proj1 (proj2 (parse_content_accepts ref_loads _))
             (q "{'summary': 'Calm markets.'}")); reflexivity.
  - apply (proj2 (proj2 (parse_content_accepts ref_loads _))); [reflexivity|].
    intros sub H. discriminate H.
Defined.

(** Sentence C1 of the specification fails on the code:
    an object without a [summary] key is accepted both
    from the direct parse and from the brace recovery, and no fallback
    object is built. *)
Lemma summary_not_required :
  ref_loads (q "{'sentiment': 'positive'}") = Some (JDict [("sentiment", JStr "positive")])
  /\ dict_has "summary" [("sentiment", JStr "positive")] = false
  /\ parse_content ref_loads (q "{'sentiment': 'positive'}")
     = JDict [("sentiment", JStr "positive")]
  /\ parse_content ref_loads (q "{'sentiment': 'positive'}")
     <> fallback_analysis (q "{'sentiment': 'positive'}")
  /\ ref_loads (q "Sure: {'sentiment': 'positive'} ok") = None
  /\ brace_slice (q "Sure: {'sentiment': 'positive'} ok") = Some (q "{'sentiment': 'positive'}")
  /\ parse_content ref_loads (q "Sure: {'sentiment': 'positive'} ok")
     = JDict [("sentiment", JStr "positive")]
  /\ parse_content ref_loads (q "Sure: {'sentiment': 'positive'} ok")
     <> fallback_analysis (q "Sure: {'sentiment': 'positive'} ok").
Proof.
  repeat split; try reflexivity; vm_compute; discriminate.
Qed.

(** C3, as the code has it.  When neither the text nor its braced span
    parses, the object is built from the text left after fence stripping:
    [summary] is its first 300 characters (all of it when shorter),
    [key_points] holds that text, [sentiment] is neutral, [confidence] is
    medium, [bias_check] is a fixed notice, and [missing_context] and
    [implications] are empty.  The text is the raw text itself unless the
    raw text starts, after stripping, with a fence marker. *)
Theorem fallback_shape (loads : string -> option json) (raw : string) :
  loads (strip_fences raw) = None ->
  (forall sub, brace_slice (strip_fences raw) = Some sub -> loads sub = None) ->
  extract_analysis loads raw =
    JDict [ ("summary", JStr (PyStr.take 300 (strip_fences raw)));
            ("key_points", JList [JStr (strip_fences raw)]);
            ("sentiment", JStr "neutral");
            ("confidence", JStr "medium");
            ("bias_check", JStr "Unable to parse structured response");
            ("missing_context", JStr EmptyString);
            ("implications", JStr EmptyString) ]
  /\ String.length (PyStr.take 300 (strip_fences raw))
     = Nat.min 300 (String.length (strip_fences raw))
  /\ String.prefix (PyStr.take 300 (strip_fences raw)) (strip_fences raw) = true
  /\ (PyStr.startswith fence (PyStr.strip raw) = false -> strip_fences raw = raw).
Proof.
  intros H1 H2. repeat split.
  - unfold extract_analysis.
    now rewrite (parse_content_fallback loads _ H1 H2).
  - apply take_length.
  - apply take_prefix.
  - apply strip_fences_plain.
Qed.

Lemma fallback_shape_witness :
  extract_analysis ref_loads "Markets were calm." =
    JDict [ ("summary", JStr (PyStr.take 300 (strip_fences "Markets were calm.")));
            ("key_points", JList [JStr (strip_fences "Markets were calm.")]);
            ("sentiment", JStr "neutral");
            ("confidence", JStr "medium");
            ("bias_check", JStr "Unable to parse structured response");
            ("missing_context", JStr EmptyString);
            ("implications", JStr EmptyString) ]
  /\ String.length (PyStr.take 300 (strip_fences "Markets were calm."))
     = Nat.min 300 (String.length (strip_fences "Markets were calm."))
  /\ String.prefix (PyStr.take 300 (strip_fences "Markets were calm."))
       (strip_fences "Markets were calm.") = true
  /\ (PyStr.startswith fence (PyStr.strip "Markets were calm.") = false ->
      strip_fences "Markets were calm." = "Markets were calm.").
Proof.
  apply (fallback_shape ref_loads "Markets were calm.").
  - reflexivity.
  - intros sub H. discriminate H.
Defined.

(** Sentence C3 of the specification fails on the code:
    on a fenced text without JSON the fallback
    [bias_check] is not empty, and [summary] and [key_points] hold the text
    between the fences, not the raw text. *)
Lemma fallback_bias_check_not_empty :
  extract_analysis ref_loads ("```" ++ PyStr.NL ++ "Markets were calm." ++ PyStr.NL ++ "```")
  = JDict [ ("summary", JStr "Markets were calm.");
            ("key_points", JList [JStr "Markets were calm."]);
            ("sentiment", JStr "neutral");
            ("confidence", JStr "medium");
            ("bias_check", JStr "Unable to parse structured response");
            ("missing_context", JStr EmptyString);
            ("implications", JStr EmptyString) ]
  /\ JStr "Unable to parse structured response" <> JStr EmptyString
  /\ JStr "Markets were calm."
     <> JStr (PyStr.take 300 ("```" ++ PyStr.NL ++ "Markets were calm." ++ PyStr.NL ++ "```"))
  /\ JList [JStr "Markets were calm."]
     <> JList [JStr ("```" ++ PyStr.NL ++ "Markets were calm." ++ PyStr.NL ++ "```")].
Proof.
  repeat split; try reflexivity; vm_compute; discriminate.
Qed.

(** ** The retry loop *)

Section RetryFacts.

Variable World : Type.
Variable create : request -> World -> result response * World.
Variable sleep : Z -> World -> World.

Local Abbreviation retry := (retry_loop World create sleep).

(** A failure other than a rate limit leaves the loop at once, from any
    attempt: one request more in the trace, no sleep, no further attempt. *)
Lemma retry_other_failure (attempt : Z) (rest : list Z) (req : request)
    (st : state World) (t m : string) (w : World) :
  create req (world st) = (inl (PyError t m), w) ->
  retry (attempt :: rest) req st
  = (inl (PyError t m), {| world := w; trace := trace st ++ [Call req] |}).
Proof.
  intros H. cbn [retry_loop]. unfold client_create. now rewrite H.
Qed.

(** The loop only ever extends the trace, sends at least one request when
    there is an attempt to make and at most one request per attempt, and
    never sleeps more often than it sends. *)
Lemma retry_trace (attempts : list Z) (req : request) (st : state World) :
  exists evs,
    trace (snd (retry attempts req st)) = trace st ++ evs
    /\ (calls evs <= length attempts)%nat
    /\ (attempts <> [] -> 1 <= calls evs)%nat
    /\ (length (sleeps evs) <= calls evs)%nat.
Proof.
  revert st. induction attempts as [|attempt rest IH]; intros st.
  - exists []. cbn. rewrite app_nil_r. repeat split; auto. congruence.
  - cbn [retry_loop]. unfold client_create.
    destruct (create req (world st)) as [[[m|t m]|resp] w].
    + destruct (attempt <? max_retries - 1)%Z.
      * destruct (IH (time_sleep World sleep (base_delay * 2 ^ attempt)
                        {| world := w; trace := trace st ++ [Call req] |}))
          as (evs & E & Hc & Hn & Hs).
        exists (Call req :: Sleep (base_delay * 2 ^ attempt) :: evs).
        rewrite E. cbn. rewrite <- !app_assoc. cbn.
        repeat split; lia.
      * exists [Call req]. cbn. repeat split; lia.
    + exists [Call req]. cbn. repeat split; lia.
    + exists [Call req]. cbn. repeat split; lia.
Qed.

(** C2.  One logical request makes at most 3 attempts.  After a
    rate-limited attempt that is not the last one it sleeps
    [base_delay * 2^attempt] seconds, so 2 and then 4: at most 6 seconds in
    all, which is within the worst case of 2+4+8 = 14 seconds that the
    specification gives, and exactly 6 when the rate-limit failure of the
    third attempt is propagated.  A failure other than a rate limit is
    propagated at once, with no sleep and no further attempt. *)
Theorem retry_policy (req : request) (st : state World) :
  (forall attempt rest t m w,
      create req (world st) = (inl (PyError t m), w) ->
      retry (attempt :: rest) req st
      = (inl (PyError t m), {| world := w; trace := trace st ++ [Call req] |}))
  /\ exists evs,
       trace (snd (retry (range max_retries) req st)) = trace st ++ evs
       /\ (1 <= calls evs <= 3)%nat
       /\ sleeps evs
          = map (fun attempt => base_delay * 2 ^ attempt)%Z
                (range (Z.of_nat (calls evs) - 1))
       /\ (total_sleep evs <= 2 + 4)%Z
       /\ (total_sleep evs <= 2 + 4 + 8)%Z
       /\ (forall m, fst (retry (range max_retries) req st) = inl (RateLimitError m) ->
                     calls evs = 3%nat /\ sleeps evs = [2; 4]%Z
                     /\ total_sleep evs = 6%Z)
       /\ (forall t m, fst (retry (range max_retries) req st) = inl (PyError t m) ->
                       exists evs', evs = evs' ++ [Call req]).
Proof.
  split; [intros; now apply retry_other_failure|].
  change (range max_retries) with [0; 1; 2]%Z.
  cbn [retry_loop]. unfold client_create.
  destruct (create req (world st)) as [[[m1|t1 m1]|resp1] w1]; cbn.
  2,3: exists [Call req]; cbn; repeat split; try lia; try discriminate;
       intros; now exists [].
  destruct (create req (sleep 2 w1)) as [[[m2|t2 m2]|resp2] w2]; cbn.
  2,3: exists [Call req; Sleep 2; Call req]; rewrite <- !app_assoc; cbn;
       repeat split; try lia; try discriminate;
       intros; now exists [Call req; Sleep 2].
  destruct (create req (sleep 4 w2)) as [[[m3|t3 m3]|resp3] w3]; cbn.
  all: exists [Call req; Sleep 2; Call req; Sleep 4; Call req];
       rewrite <- !app_assoc; cbn;
       repeat split; try lia; try discriminate;
       intros; now exists [Call req; Sleep 2; Call req; Sleep 4].
Qed.

End RetryFacts.

Lemma retry_policy_witness :
  retry_loop Demo.World Demo.create Demo.sleep [0%Z; 1%Z; 2%Z] (make_request "m" "p")
    (Demo.start [raise (PyError "AuthenticationError" "401")])
  = (inl (PyError "AuthenticationError" "401"),
     {| world := []; trace := [Call (make_request "m" "p")] |})
  /\ exists evs,
       trace (snd (retry_loop Demo.World Demo.create Demo.sleep (range max_retries)
                     (make_request "m" "p")
                     (Demo.start [Demo.rate_limited; Demo.rate_limited; Demo.rate_limited])))
       = [] ++ evs
       /\ calls evs = 3%nat /\ sleeps evs = [2; 4]%Z /\ total_sleep evs = 6%Z.
Proof.
  split.
  - apply (proj1 (retry_policy Demo.World Demo.create Demo.sleep (make_request "m" "p")
                    (Demo.start [raise (PyError "AuthenticationError" "401")]))
             0%Z [1%Z; 2%Z] "AuthenticationError" "401" []).
    reflexivity.
  - destruct (proj2 (retry_policy Demo.World Demo.create Demo.sleep (make_request "m" "p")
                       (Demo.start [Demo.rate_limited; Demo.rate_limited; Demo.rate_limited])))
      as (evs & E & _ & _ & _ & _ & R & _).
    exists evs. split; [exact E|]. apply (R "Error code: 429"). reflexivity.
Defined.

(** The worst case of the specification is not reached: when every attempt
    is rate limited the loop sleeps 2 and 4 seconds and then propagates the
    failure of the third attempt; the total is 6 seconds, there is no sleep
    of 8 seconds. *)
Example rate_limited_run_sleeps_six :
  fst (retry_loop Demo.World Demo.create Demo.sleep (range max_retries) (make_request "m" "p")
         (Demo.start [Demo.rate_limited; Demo.rate_limited; Demo.rate_limited]))
  = inl (RateLimitError "Error code: 429")
  /\ sleeps (trace (snd (retry_loop Demo.World Demo.create Demo.sleep (range max_retries)
                             (make_request "m" "p")
                             (Demo.start [Demo.rate_limited; Demo.rate_limited; Demo.rate_limited]))))
     = [2; 4]%Z
  /\ total_sleep (trace (snd (retry_loop Demo.World Demo.create Demo.sleep (range max_retries)
                             (make_request "m" "p")
                             (Demo.start [Demo.rate_limited; Demo.rate_limited; Demo.rate_limited]))))
     = 6%Z.
Proof.
  repeat split; vm_compute; reflexivity.
Qed.

(** ** Dictionaries *)

Section DictFacts.

Context {V : Type}.
Implicit Types (d : list (string * V)) (k : string) (v : V).

Lemma dict_get_set_same k v d : dict_get k (dict_set k v d) = Some v.
Proof.
  induction d as [|[k' v'] d IH]; cbn.
  - now rewrite String.eqb_refl.
  - destruct (String.eqb_spec k' k) as [->|N]; cbn.
    + now rewrite String.eqb_refl.
    + destruct (String.eqb_spec k' k); [contradiction | exact IH].
Qed.

Lemma dict_get_set_other k k' v d :
  k <> k' -> dict_get k (dict_set k' v d) = dict_get k d.
Proof.
  intros N. induction d as [|[k0 v0] d IH]; cbn.
  - destruct (String.eqb_spec k' k); congruence.
  - destruct (String.eqb_spec k0 k') as [->|N0]; cbn.
    + destruct (String.eqb_spec k' k); congruence.
    + destruct (String.eqb_spec k0 k); [reflexivity | exact IH].
Qed.

Lemma dict_get_none_keys k d : dict_get k d = None -> ~ In k (map fst d).
Proof.
  induction d as [|[k' v'] d IH]; cbn; [tauto|].
  destruct (String.eqb_spec k' k); [discriminate|].
  intros H [E|I]; [contradiction | now apply IH].
Qed.

Lemma dict_get_some_in k v d : dict_get k d = Some v -> In (k, v) d.
Proof.
  induction d as [|[k' v'] d IH]; cbn; [discriminate|].
  destruct (String.eqb_spec k' k) as [->|N].
  - intros [= ->]. now left.
  - intros H. right. now apply IH.
Qed.

Lemma dict_keys_set k v d :
  map fst (dict_set k v d)
  = if dict_has k d then map fst d else map fst d ++ [k].
Proof.
  unfold dict_has. induction d as [|[k' v'] d IH]; cbn; [reflexivity|].
  destruct (String.eqb_spec k' k) as [->|N]; cbn; [reflexivity|].
  rewrite IH. now destruct (dict_get k d).
Qed.

Lemma dict_set_nodup k v d :
  NoDup (map fst d) -> NoDup (map fst (dict_set k v d)).
Proof.
  intros H. rewrite dict_keys_set. unfold dict_has.
  destruct (dict_get k d) eqn:E; [assumption|].
  apply NoDup_app; [assumption | repeat constructor; cbn; tauto |].
  intros x I [<-|[]]. now apply (dict_get_none_keys _ _ E).
Qed.

Lemma dict_in_get k v d :
  NoDup (map fst d) -> In (k, v) d -> dict_get k d = Some v.
Proof.
  induction d as [|[k' v'] d IH]; cbn; [tauto|].
  intros H [E|I].
  - injection E as -> ->. now rewrite String.eqb_refl.
  - inversion H as [|? ? Hn Hd]; subst.
    destruct (String.eqb_spec k' k) as [->|N]; [|now apply IH].
    exfalso. apply Hn. now apply (in_map fst) in I.
Qed.

End DictFacts.

(** ** Consensus of one article *)

Lemma count_sentiments_step (l : list string) (counts : list (string * Z)) (s : string) :
  dict_get s (fold_left (fun c x => dict_set x (get_or (dict_get x c) 0 + 1)%Z c) l counts)
  = if (occurrences s l =? 0)%Z then dict_get s counts
    else Some (get_or (dict_get s counts) 0 + occurrences s l)%Z.
Proof.
  unfold occurrences. revert counts.
  induction l as [|x l IH]; intros counts; cbn [fold_left count_occ]; [reflexivity|].
  rewrite IH. destruct (string_dec x s) as [->|N].
  - rewrite dict_get_set_same. cbn [get_or].
    destruct (Z.eqb_spec (Z.of_nat (count_occ string_dec l s)) 0) as [E|E];
      destruct (Z.eqb_spec (Z.of_nat (S (count_occ string_dec l s))) 0); try lia.
    + f_equal. lia.
    + f_equal. lia.
  - rewrite dict_get_set_other by congruence. reflexivity.
Qed.

Lemma count_sentiments_get (l : list string) (s : string) :
  dict_get s (count_sentiments l)
  = if (occurrences s l =? 0)%Z then None else Some (occurrences s l).
Proof.
  unfold count_sentiments. rewrite count_sentiments_step. cbn.
  now destruct (occurrences s l =? 0)%Z.
Qed.

Lemma count_sentiments_nodup (l : list string) :
  NoDup (map fst (count_sentiments l)).
Proof.
  unfold count_sentiments.
  assert (G : forall c, NoDup (map fst c) ->
            NoDup (map fst (fold_left
              (fun c x => dict_set x (get_or (dict_get x c) 0 + 1)%Z c) l c))).
  { induction l as [|x l IH]; intros c H; cbn; [assumption|].
    apply IH. now apply dict_set_nodup. }
  apply G. constructor.
Qed.

Lemma max_by_count_in (best : string * Z) (items : list (string * Z)) :
  In (max_by_count best items) (best :: items).
Proof.
  revert best. induction items as [|x items IH]; intros best; cbn; [now left|].
  destruct (IH (if (snd best <? snd x)%Z then x else best)) as [E|I].
  - rewrite <- E. destruct (snd best <? snd x)%Z; auto.
  - auto.
Qed.

Lemma max_by_count_ge_best (best : string * Z) (items : list (string * Z)) :
  (snd best <= snd (max_by_count best items))%Z.
Proof.
  revert best. induction items as [|y items IH]; intros best; cbn; [lia|].
  specialize (IH (if (snd best <? snd y)%Z then y else best)).
  destruct (Z.ltb_spec (snd best) (snd y)); lia.
Qed.

Lemma max_by_count_max (best : string * Z) (items : list (string * Z)) (x : string * Z) :
  In x (best :: items) -> (snd x <= snd (max_by_count best items))%Z.
Proof.
  revert best. induction items as [|y items IH]; intros best; cbn.
  - intros [<-|[]]. lia.
  - pose proof (max_by_count_ge_best (if (snd best <? snd y)%Z then y else best) items) as M.
    intros [<-|[<-|I]].
    + destruct (Z.ltb_spec (snd best) (snd y)); lia.
    + destruct (Z.ltb_spec (snd best) (snd y)); lia.
    + apply IH. now right.
Qed.

Lemma occurrences_pos_in (s : string) (l : list string) :
  (0 < occurrences s l)%Z <-> In s l.
Proof.
  unfold occurrences. rewrite (count_occ_In string_dec). lia.
Qed.

Lemma all_unknown_filtered (perspectives : list Perspective) :
  (forall p, In p perspectives -> p_sentiment p = "unknown") ->
  filter (fun s => negb (String.eqb s "unknown")) (map p_sentiment perspectives) = [].
Proof.
  induction perspectives as [|p ps IH]; intros H; cbn; [reflexivity|].
  rewrite (H p (or_introl eq_refl)). cbn. apply IH. intros q I. apply H. now right.
Qed.

Lemma insert_by_coverage_in (x y : Synthesized) (l : list Synthesized) :
  In y (insert_by_coverage x l) <-> y = x \/ In y l.
Proof.
  induction l as [|z l IH]; cbn [insert_by_coverage].
  - cbn. intuition congruence.
  - destruct (length (syn_perspectives x) <? length (syn_perspectives z))%nat; cbn [In].
    + rewrite IH. intuition congruence.
    + intuition congruence.
Qed.

Lemma sort_by_coverage_in (y : Synthesized) (l : list Synthesized) :
  In y (sort_by_coverage l) <-> In y l.
Proof.
  induction l as [|x l IH]; cbn [sort_by_coverage fold_right]; [tauto|].
  fold (sort_by_coverage l). rewrite insert_by_coverage_in, IH. cbn. intuition congruence.
Qed.

Lemma synthesized_consensus (all_analyses : list (option ModelData)) (s : Synthesized) :
  In s (synthesize_perspectives all_analyses) ->
  syn_consensus s = article_consensus (syn_perspectives s).
Proof.
  unfold synthesize_perspectives. rewrite sort_by_coverage_in.
  intros I. apply in_map_iff in I as ([k [a ps]] & <- & _). reflexivity.
Qed.

Lemma counted_sentiments_known (perspectives : list Perspective) :
  ~ In "unknown" (counted_sentiments perspectives).
Proof.
  unfold counted_sentiments. rewrite filter_In. intros [_ H]. discriminate H.
Qed.

Lemma rounding_table_100 : rounding_table 100 = true.
Proof. vm_compute. reflexivity. Qed.

Lemma rounding_table_sound (bound c n : nat) :
  rounding_table bound = true ->
  (1 <= c <= n)%nat -> (n <= bound)%nat -> rounds_well c n = true.
Proof.
  unfold rounding_table. intros T Hc Hn.
  rewrite forallb_forall in T.
  assert (I : In n (seq 1 bound)) by (apply in_seq; lia).
  specialize (T n I). rewrite forallb_forall in T.
  apply T. apply in_seq. lia.
Qed.

Lemma rounds_well_upto_100 (c n : nat) :
  (1 <= c <= n)%nat -> (n <= 100)%nat -> rounds_well c n = true.
Proof. exact (rounding_table_sound 100 c n rounding_table_100). Qed.

Lemma round1_tenths (x : float) (t : Z) :
  nearest_tenths x = Some t -> (0 < t)%Z ->
  round1 x = div (float_of_Z t) (float_of_Z 10).
Proof.
  intros E H. unfold round1. rewrite E.
  destruct (Z.eqb_spec t 0); [lia | reflexivity].
Qed.

(** C5.  The consensus of a synthesized article is the consensus of its
    perspectives, which counts each sentiment other than
    "unknown" as often as it occurs among the perspectives; the dominant
    sentiment is one of them and none occurs more often; the agreement is
    the float [count / total * 100] rounded by [round(_, 1)], which for up
    to 100 counted sentiments is the float of the number of tenths within
    half a tenth of the exact percentage.  For positive, positive, negative
    the dominant sentiment is positive and the agreement is 66.7. *)
Theorem article_consensus_spec (perspectives : list Perspective) :
  (forall s,
      dict_get s (sentiment_distribution (article_consensus perspectives))
      = if (occurrences s (counted_sentiments perspectives) =? 0)%Z then None
        else Some (occurrences s (counted_sentiments perspectives)))
  /\ dict_get "unknown" (sentiment_distribution (article_consensus perspectives)) = None
  /\ (counted_sentiments perspectives <> [] ->
      In (dominant_sentiment (article_consensus perspectives))
         (counted_sentiments perspectives)
      /\ (forall s,
            occurrences s (counted_sentiments perspectives)
            <= occurrences (dominant_sentiment (article_consensus perspectives))
                           (counted_sentiments perspectives))%Z
      /\ agreement_percentage (article_consensus perspectives)
         = PyFloat (round1 (percentage
                      (occurrences (dominant_sentiment (article_consensus perspectives))
                                   (counted_sentiments perspectives))
                      (len (counted_sentiments perspectives))))
      /\ ((length (counted_sentiments perspectives) <= 100)%nat ->
          exists t,
            agreement_percentage (article_consensus perspectives)
            = PyFloat (div (float_of_Z t) (float_of_Z 10))
            /\ half_tenth_close t
                 (occurrences (dominant_sentiment (article_consensus perspectives))
                              (counted_sentiments perspectives))
                 (len (counted_sentiments perspectives)) = true))
  /\ (forall all_analyses s,
        In s (synthesize_perspectives all_analyses) ->
        syn_consensus s = article_consensus (syn_perspectives s))
  /\ dominant_sentiment
       (article_consensus [Demo.voice "positive"; Demo.voice "positive"; Demo.voice "negative"])
     = "positive"
  /\ agreement_percentage
       (article_consensus [Demo.voice "positive"; Demo.voice "positive"; Demo.voice "negative"])
     = PyFloat 66.7%float.
Proof.
  split; [|split; [|split; [|split; [apply synthesized_consensus | split; reflexivity]]]].
  - intros s. apply count_sentiments_get.
  - cbn [article_consensus sentiment_distribution]. fold (counted_sentiments perspectives).
    rewrite count_sentiments_get.
    destruct (Z.eqb_spec (occurrences "unknown" (counted_sentiments perspectives)) 0) as [|N];
      [reflexivity|].
    exfalso. apply (counted_sentiments_known perspectives).
    apply occurrences_pos_in. unfold occurrences in *. lia.
  - intros NE.
    unfold article_consensus. fold (counted_sentiments perspectives).
    cbn [dominant_sentiment agreement_percentage].
    destruct (counted_sentiments perspectives) as [|s0 l0]; [congruence|].
    cbv iota. set (l := s0 :: l0) in *.
    pose proof (count_sentiments_get l) as G.
    pose proof (count_sentiments_nodup l) as ND.
    destruct (count_sentiments l) as [|x items] eqn:Ed.
    { specialize (G s0). cbn [dict_get] in G.
      destruct (Z.eqb_spec (occurrences s0 l) 0) as [Z0|]; [|discriminate].
      assert (0 < occurrences s0 l)%Z by (apply occurrences_pos_in; now left).
      lia. }
    set (mx := max_by_count x items).
    assert (Imx : In mx (x :: items)) by apply max_by_count_in.
    assert (Gmx : dict_get (fst mx) (x :: items) = Some (snd mx)).
    { apply dict_in_get; [assumption | now destruct mx]. }
    assert (Omx : occurrences (fst mx) l = snd mx /\ (0 < snd mx)%Z).
    { rewrite G in Gmx.
      destruct (Z.eqb_spec (occurrences (fst mx) l) 0); [discriminate|].
      injection Gmx as Gmx. split; [assumption|].
      unfold occurrences in *. lia. }
    destruct Omx as [Omx Pmx].
    assert (Hmax : forall s, (occurrences s l <= snd mx)%Z).
    { intros s. specialize (G s).
      destruct (Z.eqb_spec (occurrences s l) 0) as [->|]; [lia|].
      apply dict_get_some_in in G. apply (max_by_count_max x items (s, occurrences s l) G). }
    assert (A : PyFloat (round1 (percentage (get_or (dict_get (fst mx) (x :: items)) 0%Z) (len l)))
                = PyFloat (round1 (percentage (occurrences (fst mx) l) (len l)))).
    { rewrite Gmx, Omx. reflexivity. }
    split; [apply occurrences_pos_in; lia|].
    split; [intros s; rewrite Omx; apply Hmax|].
    split; [exact A|].
    intros B. cbn [py_round1]. rewrite A.
    assert (R : rounds_well (count_occ string_dec l (fst mx)) (length l) = true).
    { apply rounds_well_upto_100; [|assumption]. split.
      - unfold occurrences in *. lia.
      - apply count_occ_bound. }
    unfold rounds_well in R. fold (occurrences (fst mx) l) in R. fold (len l) in R.
    destruct (nearest_tenths (percentage (occurrences (fst mx) l) (len l))) as [t|] eqn:T;
      [|discriminate].
    apply andb_prop in R as [R1 R2]. apply Z.ltb_lt in R1.
    exists t. split; [|exact R2].
    f_equal. now apply round1_tenths.
Qed.

Lemma article_consensus_spec_witness :
  (In "positive" ["positive"; "positive"; "negative"]
   /\ (occurrences "negative" ["positive"; "positive"; "negative"]
       <= occurrences "positive" ["positive"; "positive"; "negative"])%Z
   /\ agreement_percentage
        (article_consensus [Demo.voice "positive"; Demo.voice "positive"; Demo.voice "negative"])
      = PyFloat (round1 (percentage 2 3))
   /\ exists t,
        agreement_percentage
          (article_consensus [Demo.voice "positive"; Demo.voice "positive"; Demo.voice "negative"])
        = PyFloat (div (float_of_Z t) (float_of_Z 10))
        /\ half_tenth_close t 2 3 = true)
  /\ syn_consensus (Demo.first_article (synthesize_perspectives Demo.quiet))
     = article_consensus
         (syn_perspectives (Demo.first_article (synthesize_perspectives Demo.quiet))).
Proof.
  split.
  - assert (N : counted_sentiments
                  [Demo.voice "positive"; Demo.voice "positive"; Demo.voice "negative"] <> [])
      by discriminate.
    destruct (proj1 (proj2 (proj2 (article_consensus_spec
                [Demo.voice "positive"; Demo.voice "positive"; Demo.voice "negative"]))) N)
      as (I & M & A & B).
    split; [exact I|]. split; [exact (M "negative")|]. split; [exact A|].
    apply B. cbn. lia.
  - apply (proj1 (proj2 (proj2 (proj2 (article_consensus_spec [])))) Demo.quiet).
    left. reflexivity.
Defined.

(** C6.  When no perspective of an article has a sentiment other than
    "unknown", the agreement is the integer 0, the dominant sentiment is
    the fallback "mixed", and the distribution is empty; so it is for every
    such article of a synthesis. *)
Theorem consensus_without_sentiments (perspectives : list Perspective) :
  (forall p, In p perspectives -> p_sentiment p = "unknown") ->
  (agreement_percentage (article_consensus perspectives) = PyInt 0
   /\ dominant_sentiment (article_consensus perspectives) = "mixed"
   /\ sentiment_distribution (article_consensus perspectives) = [])
  /\ (forall all_analyses s,
        In s (synthesize_perspectives all_analyses) ->
        syn_perspectives s = perspectives ->
        agreement_percentage (syn_consensus s) = PyInt 0
        /\ dominant_sentiment (syn_consensus s) = "mixed").
Proof.
  intros H.
  assert (A : agreement_percentage (article_consensus perspectives) = PyInt 0
              /\ dominant_sentiment (article_consensus perspectives) = "mixed"
              /\ sentiment_distribution (article_consensus perspectives) = []).
  { unfold article_consensus. rewrite (all_unknown_filtered perspectives H). repeat split. }
  split; [exact A|].
  intros all_analyses s I E.
  rewrite (synthesized_consensus all_analyses s I), E. now destruct A as (? & ? & _).
Qed.

Lemma consensus_without_sentiments_witness :
  (agreement_percentage (article_consensus [Demo.voice "unknown"; Demo.voice "unknown"])
   = PyInt 0
   /\ dominant_sentiment (article_consensus [Demo.voice "unknown"; Demo.voice "unknown"])
      = "mixed"
   /\ sentiment_distribution (article_consensus [Demo.voice "unknown"; Demo.voice "unknown"])
      = [])
  /\ (agreement_percentage
        (syn_consensus (Demo.first_article (synthesize_perspectives Demo.quiet)))
      = PyInt 0
      /\ dominant_sentiment
           (syn_consensus (Demo.first_article (synthesize_perspectives Demo.quiet)))
         = "mixed").
Proof.
  split.
  - assert (H : forall p, In p [Demo.voice "unknown"; Demo.voice "unknown"] ->
                          p_sentiment p = "unknown")
      by (intros p [<-|[<-|[]]]; reflexivity).
    exact (proj1 (consensus_without_sentiments
                    [Demo.voice "unknown"; Demo.voice "unknown"] H)).
  - assert (H : forall p,
               In p (syn_perspectives (Demo.first_article (synthesize_perspectives Demo.quiet))) ->
               p_sentiment p = "unknown")
      by (intros p [<-|[]]; reflexivity).
    apply (proj2 (consensus_without_sentiments _ H) Demo.quiet); [|reflexivity].
    left. reflexivity.
Defined.

(** ** The synthesizer on a partial set of artifacts *)

Lemma load_all_loaded (fs : filesystem) (ms : list (string * string))
    (acc : list (option ModelData)) (log : list string) :
  fst (load_all fs ms acc log)
  = acc ++ map Some
             (flat_map (fun pm : string * string =>
                          match fs (fst pm) with
                          | Stored analyses metadata costs =>
                              [ {| md_model := snd pm; md_analyses := analyses;
                                   md_metadata := metadata; md_costs := costs |} ]
                          | _ => []
                          end) ms).
Proof.
  revert acc log. induction ms as [|[path name] ms IH]; intros acc log; cbn.
  - now rewrite app_nil_r.
  - unfold load_analysis. destruct (fs path); cbn; rewrite IH; cbn.
    + reflexivity.
    + reflexivity.
    + now rewrite <- app_assoc.
Qed.

Lemma load_all_log (fs : filesystem) (ms : list (string * string))
    (acc : list (option ModelData)) (log : list string) (line : string) :
  In line log
  \/ (exists path name, In (path, name) ms /\ fs path = Missing
        /\ line = ("  Warning: " ++ name ++ " analysis not found at " ++ path)%string) ->
  In line (snd (load_all fs ms acc log)).
Proof.
  revert acc log. induction ms as [|[path name] ms IH]; intros acc log; cbn.
  - intros [I|(p & n & [] & _)]. exact I.
  - intros H. unfold load_analysis.
    assert (G : forall lines acc',
               (fs path = Missing ->
                lines = [("  Warning: " ++ name ++ " analysis not found at " ++ path)%string]) ->
               In line (snd (load_all fs ms acc' (log ++ lines)))).
    { intros lines acc' Hl. apply IH.
      destruct H as [I|(p & n & [E|I] & M & L)].
      - left. apply in_or_app. now left.
      - injection E as <- <-. left. apply in_or_app. right.
        rewrite (Hl M). now left.
      - right. now exists p, n. }
    destruct (fs path); cbn; apply G; intros M; try discriminate M; reflexivity.
Qed.

Lemma perspectives_of_index_item (m : string) (ix : index) (item : Item) (k : string) :
  perspectives_of (index_item m ix item) k
  = perspectives_of ix k
    ++ map (fun it => make_perspective m (item_analysis it)) (matching k [item]).
Proof.
  unfold index_item, perspectives_of, matching, dict_has. cbn [filter].
  set (id := article_key (item_article item)).
  destruct (dict_get id ix) as [[a ps]|] eqn:E.
  - rewrite E. destruct (String.eqb_spec id k) as [<-|N].
    + now rewrite dict_get_set_same, E.
    + rewrite dict_get_set_other by congruence. cbn. now rewrite app_nil_r.
  - rewrite dict_get_set_same. destruct (String.eqb_spec id k) as [<-|N].
    + now rewrite dict_get_set_same, E.
    + rewrite !dict_get_set_other by congruence. cbn. now rewrite app_nil_r.
Qed.

Lemma matching_app (k : string) (a b : list Item) :
  matching k (a ++ b) = matching k a ++ matching k b.
Proof. apply filter_app. Qed.

Lemma perspectives_of_index_items (m : string) (items : list Item) (ix : index) (k : string) :
  perspectives_of (fold_left (index_item m) items ix) k
  = perspectives_of ix k
    ++ map (fun it => make_perspective m (item_analysis it)) (matching k items).
Proof.
  revert ix. induction items as [|item items IH]; intros ix.
  - cbn. now rewrite app_nil_r.
  - cbn [fold_left]. rewrite IH, perspectives_of_index_item.
    change (item :: items) with ([item] ++ items).
    now rewrite matching_app, map_app, app_assoc.
Qed.

(** What the index holds under a key: for each loaded artifact in turn, one
    perspective per record about that key. *)
Lemma perspectives_of_build_index (all : list ModelData) (k : string) :
  perspectives_of (build_index (map Some all)) k
  = flat_map (fun d => map (fun it => make_perspective (md_model d) (item_analysis it))
                           (matching k (md_analyses d))) all.
Proof.
  unfold build_index.
  assert (G : forall ix,
            perspectives_of (fold_left index_model (map Some all) ix) k
            = perspectives_of ix k
              ++ flat_map (fun d => map (fun it => make_perspective (md_model d) (item_analysis it))
                                        (matching k (md_analyses d))) all).
  { induction all as [|d all IH]; intros ix; cbn.
    - now rewrite app_nil_r.
    - rewrite IH, perspectives_of_index_items. now rewrite app_assoc. }
  rewrite G. reflexivity.
Qed.

Lemma dict_set_in {V} (k k0 : string) (v v0 : V) (d : list (string * V)) :
  In (k0, v0) (dict_set k v d) -> In (k0, v0) d \/ (k0 = k /\ v0 = v).
Proof.
  induction d as [|[k' v'] d IH]; cbn.
  - intros [E|[]]. injection E as <- <-. now right.
  - destruct (String.eqb_spec k' k) as [->|N]; cbn.
    + intros [E|I]; [injection E as <- <-; now right | left; now right].
    + intros [E|I]; [left; now left|]. destruct (IH I) as [J|J]; [left; now right | now right].
Qed.

Lemma index_item_ok (m : string) (ix : index) (item : Item) :
  index_ok ix -> index_ok (index_item m ix item).
Proof.
  intros [ND K]. unfold index_item, dict_has.
  set (id := article_key (item_article item)).
  destruct (dict_get id ix) as [[a ps]|] eqn:E.
  - rewrite E. split; [now apply dict_set_nodup|].
    intros k a' ps' I. apply dict_set_in in I as [I|[-> [= -> _]]].
    + now apply (K k a' ps').
    + apply dict_get_some_in in E. now apply (K id a ps).
  - rewrite dict_get_set_same. split; [now apply dict_set_nodup, dict_set_nodup|].
    intros k a' ps' I. apply dict_set_in in I as [I|[-> [= -> _]]].
    + apply dict_set_in in I as [I|[-> [= -> _]]]; [now apply (K k a' ps') | reflexivity].
    + reflexivity.
Qed.

Lemma build_index_ok (all : list (option ModelData)) : index_ok (build_index all).
Proof.
  unfold build_index.
  assert (G : forall ix, index_ok ix -> index_ok (fold_left index_model all ix)).
  { induction all as [|[d|] all IH]; intros ix H; cbn; auto.
    apply IH. generalize (md_analyses d) ix H.
    induction l as [|item items IHi]; intros ix' H'; cbn; auto.
    apply IHi. now apply index_item_ok. }
  apply G. split; [constructor | intros k a ps []].
Qed.

Lemma matching_unique (k : string) (items : list Item) :
  NoDup (map (fun item => article_key (item_article item)) items) ->
  length (matching k items)
  = match matching k items with [] => 0%nat | _ => 1%nat end.
Proof.
  unfold matching.
  induction items as [|item items IH]; intros ND; cbn [filter]; [reflexivity|].
  inversion ND as [|? ? Hn Hd]; subst.
  destruct (String.eqb_spec (article_key (item_article item)) k) as [E|N].
  - cbn [length]. f_equal.
    destruct (filter _ items) as [|it its] eqn:M; [reflexivity|].
    exfalso. apply Hn.
    assert (I : In it (it :: its)) by now left.
    rewrite <- M in I. apply filter_In in I as [I Ek].
    apply String.eqb_eq in Ek. rewrite E, <- Ek.
    now apply (in_map (fun item => article_key (item_article item))).
  - now apply IH.
Qed.

Lemma main_articles (fs : filesystem) :
  out_articles (fst (main fs)) = synthesize_perspectives (map Some (loaded fs))
  /\ out_models (fst (main fs)) = map snd models
  /\ out_models_included (fst (main fs)) = map snd models
  /\ snd (main fs) = snd (load_all fs models [] []).
Proof.
  unfold main. pose proof (load_all_loaded fs models [] []) as L.
  destruct (load_all fs models [] []) as [all log]. cbn in L. subst all.
  repeat split.
Qed.

Lemma loaded_from_static_list (fs : filesystem) (d : ModelData) :
  In d (loaded fs) ->
  exists path, In (path, md_model d) models
               /\ fs path = Stored (md_analyses d) (md_metadata d) (md_costs d).
Proof.
  unfold loaded. rewrite in_flat_map. intros ([path name] & I & H). cbn in H.
  destruct (fs path) eqn:E; try contradiction.
  destruct H as [<-|[]]. exists path. now split.
Qed.

Lemma coverage_with_unique_keys (k : string) (l : list ModelData) :
  (forall d, In d l -> unique_keys d) ->
  length (flat_map (fun d => map (fun it => make_perspective (md_model d) (item_analysis it))
                                 (matching k (md_analyses d))) l)
  = length (filter (fun d => match matching k (md_analyses d) with
                             | [] => false
                             | _ => true
                             end) l).
Proof.
  induction l as [|d l IH]; intros U; cbn [flat_map filter]; [reflexivity|].
  rewrite length_app, length_map, IH by (intros d' I; apply U; now right).
  rewrite (matching_unique k (md_analyses d)) by (apply U; now left).
  now destruct (matching k (md_analyses d)).
Qed.

(** C7, as the code has it.  Whatever subset of the static artifacts the
    file system holds, [main] returns an output (reading a missing file
    leaves a warning line, not an exception); the output lists all eight
    static models; every perspective of every article comes from a loaded
    artifact; the coverage count of an article is the number of its
    perspectives, one per record about it in the loaded artifacts, which is
    the number of contributing models when no loaded artifact has two
    records about the same article key. *)
Theorem synthesis_of_partial_artifacts (fs : filesystem) :
  out_models (fst (main fs))
  = [ "GPT-4o Mini"; "Llama 3.1 8B"; "Phi-4 Mini"; "Mistral Small";
      "GPT-4o"; "Llama 3.1 405B"; "DeepSeek-V3"; "Grok 3" ]
  /\ out_models_included (fst (main fs)) = out_models (fst (main fs))
  /\ (forall path name,
        In (path, name) models -> fs path = Missing ->
        In ("  Warning: " ++ name ++ " analysis not found at " ++ path)%string
           (snd (main fs)))
  /\ (forall d, In d (loaded fs) ->
        exists path, In (path, md_model d) models
                     /\ fs path = Stored (md_analyses d) (md_metadata d) (md_costs d))
  /\ (forall s, In s (out_articles (fst (main fs))) ->
        (forall p, In p (syn_perspectives s) ->
                   exists d, In d (loaded fs) /\ p_model p = md_model d)
        /\ syn_perspectives s
           = flat_map (fun d => map (fun it => make_perspective (md_model d) (item_analysis it))
                                    (matching (article_key (syn_article s)) (md_analyses d)))
                      (loaded fs)
        /\ models_analyzed (syn_consensus s) = len (syn_perspectives s)
        /\ ((forall d, In d (loaded fs) -> unique_keys d) ->
            models_analyzed (syn_consensus s)
            = len (contributing fs (article_key (syn_article s))))).
Proof.
  destruct (main_articles fs) as (A & M & MI & L).
  split; [rewrite M; reflexivity|].
  split; [now rewrite M, MI|].
  split.
  { intros path name I Miss. rewrite L. apply load_all_log. right. now exists path, name. }
  split; [apply loaded_from_static_list|].
  intros s I. rewrite A in I. unfold synthesize_perspectives in I.
  rewrite sort_by_coverage_in in I. apply in_map_iff in I as ([k [a ps]] & <- & I).
  destruct (build_index_ok (map Some (loaded fs))) as [ND K].
  pose proof (K k a ps I) as Ka.
  pose proof (dict_in_get k (a, ps) _ ND I) as G.
  pose proof (perspectives_of_build_index (loaded fs) k) as P.
  unfold perspectives_of in P. rewrite G in P.
  cbn [synthesize_entry syn_perspectives syn_article syn_consensus].
  rewrite Ka.
  assert (C : models_analyzed (article_consensus ps) = len ps) by reflexivity.
  split; [|split; [exact P | split; [exact C|]]].
  - intros p Ip. rewrite P in Ip. apply in_flat_map in Ip as (d & Id & Ip).
    apply in_map_iff in Ip as (it & <- & _). now exists d.
  - intros U. rewrite C. unfold len, contributing. f_equal.
    rewrite P. now apply coverage_with_unique_keys.
Qed.

Lemma synthesis_of_partial_artifacts_witness :
  In "  Warning: Grok 3 analysis not found at data/news_perspectives/grok_analysis.json"
     (snd (main (Demo.only_gpt_mini Demo.two_records)))
  /\ map (fun s => models_analyzed (syn_consensus s))
         (out_articles (fst (main (Demo.only_gpt_mini Demo.two_records))))
     = [1%Z; 1%Z]
  /\ models_analyzed
       (syn_consensus (Demo.first_article
                         (out_articles (fst (main (Demo.only_gpt_mini Demo.two_records))))))
     = len (contributing (Demo.only_gpt_mini Demo.two_records)
              (article_key
                 (syn_article (Demo.first_article
                                 (out_articles
                                    (fst (main (Demo.only_gpt_mini Demo.two_records)))))))).
Proof.
  split; [|split].
  - apply (proj1 (proj2 (proj2 (synthesis_of_partial_artifacts
             (Demo.only_gpt_mini Demo.two_records))))
             "data/news_perspectives/grok_analysis.json" "Grok 3").
    + cbn. tauto.
    + reflexivity.
  - reflexivity.
  - assert (I : In (Demo.first_article
                      (out_articles (fst (main (Demo.only_gpt_mini Demo.two_records)))))
                   (out_articles (fst (main (Demo.only_gpt_mini Demo.two_records)))))
      by (left; reflexivity).
    destruct (proj2 (proj2 (proj2 (proj2 (synthesis_of_partial_artifacts
                (Demo.only_gpt_mini Demo.two_records))))) _ I) as (_ & _ & _ & C).
    apply C. intros d [<-|[]]. unfold unique_keys. cbn.
    repeat constructor; cbn; intuition discriminate.
Defined.

(** Sentence C7 of the specification fails on the code on the coverage count:
    an artifact with two records
    under one article key gives that article two perspectives of the same
    model, and a coverage count of 2 with one contributing model. *)
Lemma coverage_counts_records_not_models :
  map (fun s => models_analyzed (syn_consensus s))
      (out_articles (fst (main (Demo.only_gpt_mini
                                  [Demo.record "news_0" "positive";
                                   Demo.record "news_0" "negative"]))))
  = [2%Z]
  /\ map (fun s => map p_model (syn_perspectives s))
         (out_articles (fst (main (Demo.only_gpt_mini
                                     [Demo.record "news_0" "positive";
                                      Demo.record "news_0" "negative"]))))
     = [["GPT-4o Mini"; "GPT-4o Mini"]]
  /\ map md_model (contributing (Demo.only_gpt_mini
                                   [Demo.record "news_0" "positive";
                                    Demo.record "news_0" "negative"]) "news_0")
     = ["GPT-4o Mini"]
  /\ 2%Z <> len (contributing (Demo.only_gpt_mini
                                 [Demo.record "news_0" "positive";
                                  Demo.record "news_0" "negative"]) "news_0").
Proof.
  repeat split; try reflexivity. vm_compute. discriminate.
Qed.

(** ** One item, and the batch *)

Section AnalyzerFacts.

Variable World : Type.
Variable create : request -> World -> result response * World.
Variable utcnow_iso : World -> string.
Variable sleep : Z -> World -> World.
Variable loads : string -> option json.
Variable model_name display_name : string.

Local Abbreviation analyze_article' :=
  (analyze_article World create utcnow_iso sleep loads model_name display_name).
Local Abbreviation analyze_try' :=
  (analyze_try World create utcnow_iso sleep loads model_name display_name).
Local Abbreviation call_with_retry' := (call_with_retry World create sleep model_name).
Local Abbreviation error_analysis' := (error_analysis model_name display_name).
Local Abbreviation analyze_loop' :=
  (analyze_loop World create utcnow_iso sleep loads model_name display_name).

Lemma analyze_article_on_failure (a : article) (st st1 : state World) (e : exn) :
  call_with_retry' (build_prompt a) st = (inl e, st1) ->
  analyze_article' a st = (error_analysis' e (utcnow_iso (world st1)), st1).
Proof.
  intros H. unfold analyze_article, analyze_try. now rewrite H.
Qed.

(** An analysis either is an error record, without token usage, or carries
    the three token counts of its response. *)
Lemma analyze_article_shape (a : article) (st : state World) :
  (exists e now, fst (analyze_article' a st) = error_analysis' e now)
  \/ (exists d u, fst (analyze_article' a st) = JDict d
                  /\ dict_get "token_usage" d = Some (usage_dict u)).
Proof.
  unfold analyze_article, analyze_try.
  destruct (call_with_retry' (build_prompt a) st) as [[e|resp] st1].
  { left. cbn. eauto. }
  unfold build_analysis.
  destruct (resp_content resp) as [content|]; [|left; cbn; eauto].
  cbn [bind ret].
  destruct (extract_analysis loads content) as [| | | | |l|d];
    try (left; cbn; eauto; fail).
  cbn [py_setitem bind ret].
  destruct (resp_usage resp) as [u|]; [|left; cbn; eauto].
  right. cbn [fst]. eexists. exists u. split; [reflexivity|].
  apply dict_get_set_same.
Qed.

Lemma track_tokens_error (e : exn) (now : string) (total : dict) :
  track_tokens (error_analysis' e now) total = inr total.
Proof. reflexivity. Qed.

Lemma track_tokens_usage (d : dict) (u : usage) (total : dict) :
  dict_get "token_usage" d = Some (usage_dict u) -> tokens_ok total ->
  exists total', track_tokens (JDict d) total = inr total' /\ tokens_ok total'.
Proof.
  intros G (x & y & z & ->). unfold track_tokens.
  cbn [py_contains ret bind]. unfold dict_has. rewrite G.
  cbn [py_getitem]. rewrite G. cbn.
  eexists. split; [reflexivity|]. unfold tokens_ok. eauto.
Qed.

(** The loop never raises: it appends one record per article, in order,
    each of them the analysis of its article at the state the loop had
    reached. *)
Lemma analyze_loop_total (articles : list article) :
  forall (analyzed : list (article * json)) (total : dict) (st : state World),
    tokens_ok total ->
    exists total',
      analyze_loop' articles analyzed total st
      = (inr (analyzed ++ fst (each_in_turn World create utcnow_iso sleep loads
                                 model_name display_name articles st), total'),
         snd (each_in_turn World create utcnow_iso sleep loads
                model_name display_name articles st))
      /\ tokens_ok total'.
Proof.
  induction articles as [|a rest IH]; intros analyzed total st T.
  - exists total. cbn. now rewrite app_nil_r.
  - cbn [analyze_loop each_in_turn].
    pose proof (analyze_article_shape a st) as S.
    destruct (analyze_article' a st) as [analysis st1]. cbn [fst] in S.
    assert (K : exists total1, track_tokens analysis total = inr total1 /\ tokens_ok total1).
    { destruct S as [(e & now & ->)|(d & u & -> & G)].
      - exists total. split; [apply track_tokens_error | assumption].
      - now apply (track_tokens_usage d u). }
    destruct K as (total1 & -> & T1).
    destruct (IH (analyzed ++ [(a, analysis)]) total1
                 (match rest with [] => st1 | _ => time_sleep World sleep 1 st1 end) T1)
      as (total' & E & T').
    exists total'. rewrite E.
    destruct (each_in_turn World create utcnow_iso sleep loads model_name display_name rest _)
      as [records st3].
    cbn [fst snd]. now rewrite <- app_assoc.
Qed.

Lemma each_in_turn_articles (articles : list article) (st : state World) :
  map fst (fst (each_in_turn World create utcnow_iso sleep loads
                  model_name display_name articles st)) = articles.
Proof.
  revert st. induction articles as [|a rest IH]; intros st; cbn [each_in_turn].
  - reflexivity.
  - destruct (analyze_article' a st) as [analysis st1].
    specialize (IH (match rest with [] => st1 | _ => time_sleep World sleep 1 st1 end)).
    destruct (each_in_turn World create utcnow_iso sleep loads model_name display_name rest _)
      as [records st3].
    cbn in *. now rewrite IH.
Qed.

(** C8.  When the request of an item ends in an exception, retries
    exhausted or not retried, the item's analysis is the error record:
    [error] is the message, [error_type] the class, [sentiment] is
    "unknown", [summary] a placeholder; nothing propagates.  The batch
    never raises either: it returns one record per article, in order, each
    article analyzed in its turn whatever happened to the others. *)
Theorem failures_do_not_abort_batch :
  (forall a st st1 e,
      call_with_retry' (build_prompt a) st = (inl e, st1) ->
      analyze_article' a st
      = (JDict [ ("model", JStr display_name);
                 ("model_id", JStr model_name);
                 ("error", JStr (exn_str e));
                 ("error_type", JStr (exn_type_name e));
                 ("analyzed_at", JStr (utcnow_iso (world st1)));
                 ("summary", JStr ("Analysis failed: " ++ exn_str e)%string);
                 ("sentiment", JStr "unknown") ], st1))
  /\ (forall articles st,
        exists total,
          analyze_articles World create utcnow_iso sleep loads model_name display_name
            articles st
          = (inr (fst (each_in_turn World create utcnow_iso sleep loads
                         model_name display_name articles st), total),
             snd (each_in_turn World create utcnow_iso sleep loads
                    model_name display_name articles st))
          /\ tokens_ok total
          /\ map fst (fst (each_in_turn World create utcnow_iso sleep loads
                             model_name display_name articles st)) = articles).
Proof.
  split.
  - intros a st st1 e H. now apply analyze_article_on_failure.
  - intros articles st.
    destruct (analyze_loop_total articles [] (zero_tokens) st) as (total & E & T).
    { unfold tokens_ok, zero_tokens. eauto. }
    exists total. split; [exact E|]. split; [exact T|].
    apply each_in_turn_articles.
Qed.

End AnalyzerFacts.

Lemma failures_do_not_abort_batch_witness :
  Demo.analyze Demo.news (Demo.start [raise (PyError "AuthenticationError" "401")])
  = (JDict [ ("model", JStr "GPT-4o Mini");
             ("model_id", JStr "openai/gpt-4o-mini");
             ("error", JStr (exn_str (PyError "AuthenticationError" "401")));
             ("error_type", JStr (exn_type_name (PyError "AuthenticationError" "401")));
             ("analyzed_at", JStr (Demo.utcnow_iso []));
             ("summary",
              JStr ("Analysis failed: " ++ exn_str (PyError "AuthenticationError" "401"))%string);
             ("sentiment", JStr "unknown") ],
     {| world := [];
        trace := [Call (make_request "openai/gpt-4o-mini" (build_prompt Demo.news))] |}).
Proof.
  apply (proj1 (failures_do_not_abort_batch Demo.World Demo.create Demo.utcnow_iso
                  Demo.sleep ref_loads "openai/gpt-4o-mini" "GPT-4o Mini")
           Demo.news (Demo.start [raise (PyError "AuthenticationError" "401")])
           {| world := [];
              trace := [Call (make_request "openai/gpt-4o-mini" (build_prompt Demo.news))] |}
           (PyError "AuthenticationError" "401")).
  reflexivity.
Defined.

(** A batch of three: the first request is refused, the second is rate
    limited three times, the third is answered.  Three records come back,
    the token counts are those of the one answer, and the pauses are the
    one second between items and the 2 and 4 seconds of the retries. *)
Example batch_survives_failures :
  let run := Demo.analyze_many [Demo.news; Demo.news; Demo.news]
               (Demo.start [ raise (PyError "AuthenticationError" "401");
                             Demo.rate_limited; Demo.rate_limited; Demo.rate_limited;
                             Demo.answer (q "{'summary': 'Up.', 'sentiment': 'positive'}") ]) in
  match fst run with
  | inr (analyzed, total) =>
      map (fun r => match snd r with
                    | JDict d => (dict_get "error_type" d, dict_get "sentiment" d)
                    | _ => (None, None)
                    end) analyzed
      = [ (Some (JStr "AuthenticationError"), Some (JStr "unknown"));
          (Some (JStr "RateLimitError"), Some (JStr "unknown"));
          (None, Some (JStr "positive")) ]
      /\ total = [ ("prompt_tokens", JInt 120); ("completion_tokens", JInt 80);
                   ("total_tokens", JInt 200) ]
  | inl _ => False
  end
  /\ sleeps (trace (snd run)) = [1; 2; 4; 1]%Z.
Proof. vm_compute. repeat split. Qed.

(** ** The repair scripts *)

Lemma bind_inr {A B} (m : result A) (k : A -> result B) (b : B) :
  bind m k = inr b -> exists a, m = inr a /\ k a = inr b.
Proof. destruct m as [e|a]; cbn; [discriminate | eauto]. Qed.

Ltac bind_inv H :=
  let a := fresh "x" in
  let E := fresh "E" in
  apply bind_inr in H as (a & E & H).

Section FixItemsFacts.

Variable fix_item : json -> result (json * bool).
Variable marked : json -> bool.

Hypothesis unfixed_same :
  forall item item', fix_item item = inr (item', false) -> item' = item.
Hypothesis unmarked_unfixed :
  forall item r, marked item = false -> fix_item item = inr r -> r = (item, false).

(** After a run whose rewritten items carry no marker, a second run over
    the items either raises or fixes nothing. *)
Lemma fix_items_settled (items : list json) :
  forall items' n,
    fix_items fix_item items = inr (items', n) ->
    forallb (fun item => match fix_item item with
                         | inr (item', true) => negb (marked item')
                         | _ => true
                         end) items = true ->
    forall r, fix_items fix_item items' = inr r -> r = (items', 0%Z).
Proof.
  induction items as [|item items IH]; intros items' n H S r R.
  - cbn in H. injection H as <- <-. cbn in R. now injection R as <-.
  - cbn [fix_items] in H. bind_inv H. bind_inv H. injection H as <- <-.
    cbn [forallb] in S. apply andb_prop in S as [S1 S2]. rewrite E in S1.
    destruct x as [item' b], x0 as [rest' m]. cbn [fst snd] in *.
    cbn [fix_items] in R. bind_inv R. bind_inv R. injection R as <-.
    assert (x = (item', false)) as ->.
    { destruct b.
      - apply unmarked_unfixed; [|assumption]. now destruct (marked item').
      - pose proof (unfixed_same _ _ E) as Q. subst item'. congruence. }
    rewrite (IH rest' m E0 S2 _ E2). reflexivity.
Qed.

End FixItemsFacts.

Lemma dict_getitem_inv (v : json) (k : string) (x : json) :
  py_getitem v k = inr x -> exists d, v = JDict d /\ dict_get k d = Some x.
Proof.
  destruct v; cbn; try discriminate.
  destruct (dict_get k d) eqn:E; [|discriminate].
  intros [= <-]. eauto.
Qed.

(** Where a run has put repaired items back, the next run finds them. *)
Lemma put_analyses_found (file d : json) (items0 items : list json) :
  py_getitem file "data" = inr d ->
  py_getitem d "analyses" = inr (JList items0) ->
  exists d',
    py_getitem (put_analyses file (JList items0) items) "data" = inr d'
    /\ py_getitem d' "analyses" = inr (JList items)
    /\ py_contains "data" (put_analyses file (JList items0) items) = inr true
    /\ py_contains "analyses" d' = inr true.
Proof.
  intros H1 H2.
  apply dict_getitem_inv in H1 as (fd & -> & G1).
  apply dict_getitem_inv in H2 as (dd & -> & G2).
  cbn [put_analyses]. rewrite G1.
  exists (JDict (dict_set "analyses" (JList items) dd)).
  cbn [py_getitem py_contains]. unfold dict_has.
  rewrite !dict_get_set_same. repeat split.
Qed.

Lemma put_analyses_other (file analyses : json) (items : list json) :
  (forall l, analyses <> JList l) -> put_analyses file analyses items = file.
Proof.
  intros H. destruct file; try reflexivity.
  destruct analyses; try reflexivity. now destruct (H l).
Qed.

Section RepairFacts.

Variable loads : string -> option json.

Lemma looks_broken_marker (analysis : json) (s : string) :
  FixAnalysisJson.looks_broken analysis s = inr true ->
  PyStr.startswith "{" s || PyStr.startswith FixAnalysisJson.preamble s = true.
Proof.
  unfold FixAnalysisJson.looks_broken. intros H.
  bind_inv H. destruct x; cbn [negb] in H; [|discriminate].
  destruct (PyStr.startswith "{" s || PyStr.startswith FixAnalysisJson.preamble s);
    [reflexivity | discriminate].
Qed.

(** What a step of the key_points script does to an item: nothing, or the
    analysis of a marked item is replaced by the rebuilt one. *)
Lemma fix_analysis_item_inv (item item' : json) (b : bool) :
  FixAnalysisJson.fix_item loads item = inr (item', b) ->
  (b = false /\ item' = item)
  \/ (b = true /\ FixAnalysisJson.marked item = true
      /\ exists analysis parsed new,
           py_getitem item "analysis" = inr analysis
           /\ FixAnalysisJson.rebuilt parsed analysis = inr new
           /\ py_setitem item "analysis" new = inr item').
Proof.
  unfold FixAnalysisJson.fix_item. intros H.
  bind_inv H. destruct x; cbn [negb] in H; [|injection H as <- <-; now left].
  bind_inv H. rename x into analysis, E0 into Ea.
  bind_inv H. rename x into summary, E0 into Es.
  bind_inv H. rename x into summary_start, E0 into Ess.
  bind_inv H. rename E0 into Eb.
  destruct x; cbn [negb] in H; [|injection H as <- <-; now left].
  bind_inv H. bind_inv H. bind_inv H.
  destruct (FixAnalysisJson.extract_json_from_string loads x1) as [parsed|];
    [|injection H as <- <-; now left].
  destruct (py_truthy parsed); cbn [negb] in H; [|injection H as <- <-; now left].
  bind_inv H. destruct x2; cbn [negb] in H; [|injection H as <- <-; now left].
  bind_inv H. rename x2 into new, E4 into En.
  bind_inv H. rename x2 into item1, E4 into Ei.
  bind_inv H. bind_inv H. bind_inv H. injection H as <- <-.
  right. split; [reflexivity|]. split.
  - unfold FixAnalysisJson.marked. rewrite Ea. cbn [bind]. rewrite Es. cbn [bind].
    rewrite Ess. now apply (looks_broken_marker analysis).
  - now exists analysis, parsed, new.
Qed.

(** What a step of the fence script does to an item: nothing, or the
    analysis of a marked item is replaced by the parsed key point. *)
Lemma fix_fences_item_inv (item item' : json) (b : bool) :
  FixJsonFences.fix_item loads item = inr (item', b) ->
  (b = false /\ item' = item)
  \/ (b = true /\ FixJsonFences.marked item = true
      /\ exists analysis kp text parsed,
           py_getitem item "analysis" = inr analysis
           /\ py_getitem analysis "key_points" = inr kp
           /\ py_first kp = inr (JStr text)
           /\ loads (FixJsonFences.strip_code_fences text) = Some parsed
           /\ py_setitem item "analysis" parsed = inr item').
Proof.
  unfold FixJsonFences.fix_item. intros H.
  bind_inv H. destruct x; cbn [negb] in H; [|injection H as <- <-; now left].
  bind_inv H. rename x into analysis, E0 into Ea.
  bind_inv H. rename x into s, E0 into Es.
  bind_inv H. rename x into summary, E0 into Ess.
  destruct (FixJsonFences.looks_fenced summary) eqn:F; cbn [negb] in H;
    [|injection H as <- <-; now left].
  bind_inv H. destruct x; cbn [negb] in H; [|injection H as <- <-; now left].
  bind_inv H. rename x into kp, E1 into Ek.
  bind_inv H. destruct (x >? 0)%Z; cbn [negb] in H; [|injection H as <- <-; now left].
  bind_inv H. rename x0 into first, E2 into Ef.
  bind_inv H. rename x0 into text, E2 into Et.
  destruct (loads (FixJsonFences.strip_code_fences text)) as [parsed|] eqn:L;
    [|injection H as <- <-; now left].
  bind_inv H. injection H as <- <-.
  right. split; [reflexivity|]. split.
  - unfold FixJsonFences.marked. rewrite Ea. cbn [bind]. rewrite Es. cbn [bind].
    now rewrite Ess.
  - exists analysis, kp, text, parsed. repeat split; try assumption.
    destruct first; cbn in Et; try discriminate. now injection Et as ->.
Qed.

End RepairFacts.

Section RepairTheorems.

Variable loads : string -> option json.

Lemma settled_second_run (fix_item : json -> result (json * bool)) (marked : json -> bool)
    (file d : json) (l : list json) (r : list json * Z) :
  (forall item item' b,
      fix_item item = inr (item', b) ->
      (b = false /\ item' = item) \/ (b = true /\ marked item = true)) ->
  py_getitem file "data" = inr d ->
  py_getitem d "analyses" = inr (JList l) ->
  fix_items fix_item l = inr r ->
  forallb (fun item => match fix_item item with
                       | inr (item', true) => negb (marked item')
                       | _ => true
                       end) l = true ->
  forall r2, fix_items fix_item (fst r) = inr r2 -> snd r2 = 0%Z.
Proof.
  intros Inv _ _ R S r2 R2. destruct r as [items' n].
  rewrite (fix_items_settled fix_item marked) with (items := l) (items' := items') (n := n) (r := r2);
    try assumption; try reflexivity.
  - intros item item' H. destruct (Inv _ _ _ H) as [[_ ->]|[F _]]; [reflexivity | discriminate].
  - intros item [i b] M H. destruct (Inv _ _ _ H) as [[-> ->]|[_ T]]; [reflexivity | congruence].
Qed.

Lemma repair_analysis_twice (file : json) :
  FixAnalysisJson.settles loads file = true ->
  FixAnalysisJson.repair loads (FixAnalysisJson.repair loads file)
  = FixAnalysisJson.repair loads file.
Proof.
  intros S. unfold FixAnalysisJson.repair.
  destruct (FixAnalysisJson.fix_analysis_file loads file) as [e|[data n]] eqn:F;
    cbn [stored_after]; [now rewrite F|].
  destruct (n >? 0)%Z eqn:N; [|now rewrite F; cbn; rewrite N].
  pose proof F as F0. unfold FixAnalysisJson.fix_analysis_file in F.
  bind_inv F. rename x into d, E into Ed.
  bind_inv F. rename x into analyses, E into Ea.
  bind_inv F. rename x into items, E into Ei.
  bind_inv F. rename x into r, E into Er. injection F as <- <-.
  assert (L : (exists l, analyses = JList l) \/ forall l, analyses <> JList l)
    by (destruct analyses; eauto; right; discriminate).
  destruct L as [(l & ->)|L].
  - cbn in Ei. injection Ei as <-.
    unfold FixAnalysisJson.settles in S. rewrite Ed in S. cbn [bind] in S. rewrite Ea in S.
    destruct (put_analyses_found file d l (fst r) Ed Ea) as (d' & G1 & G2 & _).
    unfold FixAnalysisJson.fix_analysis_file. rewrite G1. cbn [bind]. rewrite G2.
    cbn [bind py_iter ret].
    destruct (fix_items (FixAnalysisJson.fix_item loads) (fst r)) as [e|r2] eqn:R2;
      cbn [bind stored_after]; [reflexivity|].
    assert (Z0 : snd r2 = 0%Z).
    { apply (settled_second_run (FixAnalysisJson.fix_item loads) FixAnalysisJson.marked file d l r);
        try assumption.
      intros item item' b H.
      destruct (fix_analysis_item_inv loads _ _ _ H) as [?|(? & ? & _)]; auto. }
    now rewrite Z0.
  - rewrite (put_analyses_other file analyses (fst r) L) in *.
    rewrite F0. cbn [stored_after]. now rewrite N.
Qed.

Lemma repair_fences_twice (file : json) :
  FixJsonFences.settles loads file = true ->
  FixJsonFences.repair loads (FixJsonFences.repair loads file)
  = FixJsonFences.repair loads file.
Proof.
  intros S. unfold FixJsonFences.repair.
  destruct (FixJsonFences.fix_analysis_file loads file) as [e|[data n]] eqn:F;
    cbn [stored_after]; [now rewrite F|].
  destruct (n >? 0)%Z eqn:N; [|now rewrite F; cbn; rewrite N].
  pose proof F as F0. unfold FixJsonFences.fix_analysis_file in F.
  bind_inv F. destruct x; cbn [negb] in F; [|injection F as <- <-; discriminate N].
  bind_inv F. rename x into d, E0 into Ed.
  bind_inv F. destruct x; cbn [negb] in F; [|injection F as <- <-; discriminate N].
  bind_inv F. rename x into analyses, E1 into Ea.
  bind_inv F. rename x into items, E1 into Ei.
  bind_inv F. rename x into r, E1 into Er. injection F as <- <-.
  assert (L : (exists l, analyses = JList l) \/ forall l, analyses <> JList l)
    by (destruct analyses; eauto; right; discriminate).
  destruct L as [(l & ->)|L].
  - cbn in Ei. injection Ei as <-.
    unfold FixJsonFences.settles in S. rewrite Ed in S. cbn [bind] in S. rewrite Ea in S.
    destruct (put_analyses_found file d l (fst r) Ed Ea) as (d' & G1 & G2 & C1 & C2).
    unfold FixJsonFences.fix_analysis_file. rewrite C1. cbn [bind negb]. rewrite G1.
    cbn [bind]. rewrite C2. cbn [bind negb]. rewrite G2.
    cbn [bind py_iter ret].
    destruct (fix_items (FixJsonFences.fix_item loads) (fst r)) as [e|r2] eqn:R2;
      cbn [bind stored_after]; [reflexivity|].
    assert (Z0 : snd r2 = 0%Z).
    { apply (settled_second_run (FixJsonFences.fix_item loads) FixJsonFences.marked file d l r);
        try assumption.
      intros item item' b H.
      destruct (fix_fences_item_inv loads _ _ _ H) as [?|(? & ? & _)]; auto. }
    now rewrite Z0.
  - rewrite (put_analyses_other file analyses (fst r) L) in *.
    rewrite F0. cbn [stored_after]. now rewrite N.
Qed.

(** C9, as the code has it.  A second run of either repair script leaves
    the file as the first run left it, provided the first run wrote nothing
    or no summary that it wrote starts, once stripped, with a marker the
    script looks for (an opening brace or the bold preamble for the
    key_points script, a fence for the fence script). *)
Theorem repair_twice (file : json) :
  (FixAnalysisJson.settles loads file = true
   \/ FixAnalysisJson.repair loads file = file ->
   FixAnalysisJson.repair loads (FixAnalysisJson.repair loads file)
   = FixAnalysisJson.repair loads file)
  /\ (FixJsonFences.settles loads file = true
      \/ FixJsonFences.repair loads file = file ->
      FixJsonFences.repair loads (FixJsonFences.repair loads file)
      = FixJsonFences.repair loads file).
Proof.
  split; intros [S|E].
  - now apply repair_analysis_twice.
  - now rewrite !E.
  - now apply repair_fences_twice.
  - now rewrite !E.
Qed.

End RepairTheorems.

Lemma repair_twice_witness :
  (FixAnalysisJson.repair ref_loads (FixAnalysisJson.repair ref_loads Demo.broken_once)
   = FixAnalysisJson.repair ref_loads Demo.broken_once
   /\ FixAnalysisJson.repair ref_loads Demo.broken_once <> Demo.broken_once)
  /\ (FixJsonFences.repair ref_loads (FixJsonFences.repair ref_loads Demo.fenced_once)
      = FixJsonFences.repair ref_loads Demo.fenced_once
      /\ FixJsonFences.repair ref_loads Demo.fenced_once <> Demo.fenced_once).
Proof.
  split; split.
  - apply (proj1 (repair_twice ref_loads Demo.broken_once)). left. reflexivity.
  - intros H. apply (f_equal Demo.analysis_of) in H. discriminate H.
  - apply (proj2 (repair_twice ref_loads Demo.fenced_once)). left. reflexivity.
  - intros H. apply (f_equal Demo.analysis_of) in H. discriminate H.
Defined.

(** Sentence C9 of the specification fails on the code for both scripts:
    when the summary written by the
    first run starts with a marker again and its first key point parses
    again, the second run rewrites the record once more. *)
Lemma repair_can_repeat :
  (Demo.analysis_of (FixAnalysisJson.repair ref_loads Demo.broken_twice)
   = inr (JDict [ ("summary", JStr "{x}");
                  ("key_points", JList [JStr (q "{'summary': 'done'}")]);
                  ("sentiment", JStr "neutral"); ("confidence", JStr "medium");
                  ("bias_check", JStr EmptyString); ("missing_context", JStr EmptyString);
                  ("implications", JStr EmptyString);
                  ("model", JStr "GPT-4o Mini"); ("model_id", JStr "openai/gpt-4o-mini");
                  ("analyzed_at", JStr "2025-01-01T00:00:00");
                  ("token_usage", JDict [("total_tokens", JInt 200)]) ])
   /\ Demo.analysis_of (FixAnalysisJson.repair ref_loads
                          (FixAnalysisJson.repair ref_loads Demo.broken_twice))
      = inr (JDict [ ("summary", JStr "done");
                     ("key_points", JList []);
                     ("sentiment", JStr "neutral"); ("confidence", JStr "medium");
                     ("bias_check", JStr EmptyString); ("missing_context", JStr EmptyString);
                     ("implications", JStr EmptyString);
                     ("model", JStr "GPT-4o Mini"); ("model_id", JStr "openai/gpt-4o-mini");
                     ("analyzed_at", JStr "2025-01-01T00:00:00");
                     ("token_usage", JDict [("total_tokens", JInt 200)]) ])
   /\ FixAnalysisJson.repair ref_loads (FixAnalysisJson.repair ref_loads Demo.broken_twice)
      <> FixAnalysisJson.repair ref_loads Demo.broken_twice)
  /\ (Demo.analysis_of (FixJsonFences.repair ref_loads Demo.fenced_twice)
      = inr (JDict [ ("summary", JStr "```"); ("key_points", JList [JStr "{}"]) ])
      /\ Demo.analysis_of (FixJsonFences.repair ref_loads
                             (FixJsonFences.repair ref_loads Demo.fenced_twice))
         = inr (JDict [])
      /\ FixJsonFences.repair ref_loads (FixJsonFences.repair ref_loads Demo.fenced_twice)
         <> FixJsonFences.repair ref_loads Demo.fenced_twice).
Proof.
  repeat split; try reflexivity;
    intros H; apply (f_equal Demo.analysis_of) in H; discriminate H.
Qed.

(** ** What a repaired record keeps of its old analysis *)

Lemma setitem_getitem (v v' x : json) (k : string) :
  py_setitem v k x = inr v' -> py_getitem v' k = inr x.
Proof.
  destruct v; cbn; try discriminate. intros [= <-]. cbn.
  now rewrite dict_get_set_same.
Qed.

Lemma py_get_inv (v x default : json) (k : string) :
  py_get v k default = inr x ->
  exists d, v = JDict d /\ x = dict_get_default k default d.
Proof.
  destruct v; cbn; try discriminate. intros [= <-]. eauto.
Qed.

Lemma rebuilt_keeps_metadata (parsed analysis new : json) :
  FixAnalysisJson.rebuilt parsed analysis = inr new ->
  exists a nd,
    analysis = JDict a /\ new = JDict nd
    /\ dict_get "model" nd = Some (dict_get_default "model" (JStr EmptyString) a)
    /\ dict_get "model_id" nd = Some (dict_get_default "model_id" (JStr EmptyString) a)
    /\ dict_get "analyzed_at" nd = Some (dict_get_default "analyzed_at" (JStr EmptyString) a)
    /\ dict_get "token_usage" nd = dict_get "token_usage" a.
Proof.
  unfold FixAnalysisJson.rebuilt. intros H.
  do 7 bind_inv H.
  bind_inv H. apply py_get_inv in E6 as (a & -> & ->).
  bind_inv H. apply py_get_inv in E6 as (a' & [= <-] & ->).
  bind_inv H. apply py_get_inv in E6 as (a' & [= <-] & ->).
  bind_inv H. cbn in E6. injection E6 as <-. unfold dict_has in H.
  exists a. destruct (dict_get "token_usage" a) as [tu|] eqn:T.
  - bind_inv H. cbn in E6. rewrite T in E6. injection E6 as <-.
    cbn in H. injection H as <-. eexists. repeat split.
  - injection H as <-. eexists. repeat split.
Qed.

(** C10.  A record rewritten by the fence script has as its analysis the
    very object parsed from the first key point: nothing of the old
    analysis is copied into it.  A record rewritten by the key_points
    script keeps [model], [model_id] and [analyzed_at] of the old analysis
    (the empty string where the old one had none), and has [token_usage]
    exactly when the old one had it, with the same value. *)
Theorem repaired_metadata (loads : string -> option json) (item item' : json) :
  (FixJsonFences.fix_item loads item = inr (item', true) ->
   exists analysis kp text parsed,
     py_getitem item "analysis" = inr analysis
     /\ py_getitem analysis "key_points" = inr kp
     /\ py_first kp = inr (JStr text)
     /\ loads (FixJsonFences.strip_code_fences text) = Some parsed
     /\ py_getitem item' "analysis" = inr parsed)
  /\ (FixAnalysisJson.fix_item loads item = inr (item', true) ->
      exists a nd,
        py_getitem item "analysis" = inr (JDict a)
        /\ py_getitem item' "analysis" = inr (JDict nd)
        /\ dict_get "model" nd = Some (dict_get_default "model" (JStr EmptyString) a)
        /\ dict_get "model_id" nd = Some (dict_get_default "model_id" (JStr EmptyString) a)
        /\ dict_get "analyzed_at" nd = Some (dict_get_default "analyzed_at" (JStr EmptyString) a)
        /\ dict_get "token_usage" nd = dict_get "token_usage" a).
Proof.
  split; intros H.
  - destruct (fix_fences_item_inv loads _ _ _ H)
      as [[F _]|(_ & _ & analysis & kp & text & parsed & Ea & Ek & Ef & L & Si)];
      [discriminate|].
    exists analysis, kp, text, parsed. repeat split; try assumption.
    now apply (setitem_getitem item).
  - destruct (fix_analysis_item_inv loads _ _ _ H)
      as [[F _]|(_ & _ & analysis & parsed & new & Ea & R & Si)]; [discriminate|].
    destruct (rebuilt_keeps_metadata _ _ _ R) as (a & nd & -> & -> & M1 & M2 & M3 & M4).
    exists a, nd. repeat split; try assumption.
    now apply (setitem_getitem item).
Qed.

Lemma repaired_metadata_witness :
  (exists analysis kp text parsed,
     py_getitem (Demo.record_of Demo.fenced_once) "analysis" = inr analysis
     /\ py_getitem analysis "key_points" = inr kp
     /\ py_first kp = inr (JStr text)
     /\ ref_loads (FixJsonFences.strip_code_fences text) = Some parsed
     /\ py_getitem (Demo.after (FixJsonFences.fix_item ref_loads
                                  (Demo.record_of Demo.fenced_once))) "analysis"
        = inr parsed)
  /\ (exists a nd,
        py_getitem (Demo.record_of Demo.broken_once) "analysis" = inr (JDict a)
        /\ py_getitem (Demo.after (FixAnalysisJson.fix_item ref_loads
                                     (Demo.record_of Demo.broken_once))) "analysis"
           = inr (JDict nd)
        /\ dict_get "model" nd = Some (dict_get_default "model" (JStr EmptyString) a)
        /\ dict_get "model_id" nd = Some (dict_get_default "model_id" (JStr EmptyString) a)
        /\ dict_get "analyzed_at" nd = Some (dict_get_default "analyzed_at" (JStr EmptyString) a)
        /\ dict_get "token_usage" nd = dict_get "token_usage" a).
Proof.
  split.
  - apply (proj1 (repaired_metadata ref_loads (Demo.record_of Demo.fenced_once)
                    (Demo.after (FixJsonFences.fix_item ref_loads
                                   (Demo.record_of Demo.fenced_once))))).
    reflexivity.
  - apply (proj2 (repaired_metadata ref_loads (Demo.record_of Demo.broken_once)
                    (Demo.after (FixAnalysisJson.fix_item ref_loads
                                   (Demo.record_of Demo.broken_once))))).
    reflexivity.
Defined.

(** The same record shape through both scripts: the fence script leaves an
    analysis without [model], [model_id], [analyzed_at] and [token_usage];
    the key_points script keeps all four. *)
Example metadata_after_each_script :
  Demo.analysis_of (FixJsonFences.repair ref_loads Demo.fenced_once)
  = inr (JDict [ ("summary", JStr "Exports rose."); ("key_points", JList [JStr "a"]) ])
  /\ Demo.analysis_of (FixAnalysisJson.repair ref_loads Demo.broken_once)
     = inr (JDict [ ("summary", JStr "Exports rose.");
                    ("key_points", JList [JStr "a"; JStr "b"]);
                    ("sentiment", JStr "positive"); ("confidence", JStr "medium");
                    ("bias_check", JStr EmptyString); ("missing_context", JStr EmptyString);
                    ("implications", JStr EmptyString);
                    ("model", JStr "GPT-4o Mini"); ("model_id", JStr "openai/gpt-4o-mini");
                    ("analyzed_at", JStr "2025-01-01T00:00:00");
                    ("token_usage", JDict [("total_tokens", JInt 200)]) ]).
Proof. split; reflexivity. Qed.

(** * Further properties *)

(** ** The order of the synthesized articles *)

Lemma insert_by_coverage_filter (p : Synthesized -> bool) (x : Synthesized)
    (l : list Synthesized) :
  (forall y, (coverage x < coverage y)%nat -> p x = true -> p y = false) ->
  filter p (insert_by_coverage x l) = if p x then x :: filter p l else filter p l.
Proof.
  intros H. induction l as [|y l IH]; cbn [insert_by_coverage filter].
  - reflexivity.
  - destruct (Nat.ltb_spec (length (syn_perspectives x)) (length (syn_perspectives y)))
      as [L|L]; cbn [filter].
    + rewrite IH. destruct (p x) eqn:Px.
      * now rewrite (H y L eq_refl).
      * reflexivity.
    + reflexivity.
Qed.

Lemma insert_by_coverage_perm (x : Synthesized) (l : list Synthesized) :
  Permutation (insert_by_coverage x l) (x :: l).
Proof.
  induction l as [|y l IH]; cbn [insert_by_coverage]; [reflexivity|].
  destruct (length (syn_perspectives x) <? length (syn_perspectives y))%nat.
  - rewrite IH. apply perm_swap.
  - reflexivity.
Qed.

Lemma sort_by_coverage_perm (l : list Synthesized) :
  Permutation (sort_by_coverage l) l.
Proof.
  induction l as [|x l IH]; cbn [sort_by_coverage fold_right]; [reflexivity|].
  fold (sort_by_coverage l). rewrite insert_by_coverage_perm. now constructor.
Qed.

Lemma insert_by_coverage_sorted (x : Synthesized) (l : list Synthesized) :
  StronglySorted (fun a b => coverage b <= coverage a)%nat l ->
  StronglySorted (fun a b => coverage b <= coverage a)%nat (insert_by_coverage x l).
Proof.
  induction 1 as [|y l S IH F]; cbn [insert_by_coverage].
  - repeat constructor.
  - destruct (Nat.ltb_spec (length (syn_perspectives x)) (length (syn_perspectives y)))
      as [L|L].
    + constructor; [exact IH|].
      rewrite Forall_forall in *. intros z I.
      apply insert_by_coverage_in in I as [->|I]; [unfold coverage; lia | now apply F].
    + constructor; [now constructor|].
      constructor; [exact L|].
      rewrite Forall_forall in *. intros z I. specialize (F z I). unfold coverage in *. lia.
Qed.

(** X1.  The synthesized articles come out by descending number of
    perspectives; the sort only reorders them, and articles with the same
    number of perspectives keep the order in which they entered the
    index. *)
Theorem articles_sorted_by_coverage (all_analyses : list (option ModelData)) :
  StronglySorted (fun a b => coverage b <= coverage a)%nat
    (synthesize_perspectives all_analyses)
  /\ Permutation (synthesize_perspectives all_analyses)
                 (map synthesize_entry (build_index all_analyses))
  /\ forall n,
       filter (fun s => (coverage s =? n)%nat) (synthesize_perspectives all_analyses)
       = filter (fun s => (coverage s =? n)%nat)
                (map synthesize_entry (build_index all_analyses)).
Proof.
  unfold synthesize_perspectives.
  generalize (map synthesize_entry (build_index all_analyses)) as l.
  intros l. split; [|split].
  - induction l as [|x l IH]; cbn [sort_by_coverage fold_right]; [constructor|].
    now apply insert_by_coverage_sorted.
  - apply sort_by_coverage_perm.
  - intros n. induction l as [|x l IH]; cbn [sort_by_coverage fold_right]; [reflexivity|].
    fold (sort_by_coverage l). rewrite insert_by_coverage_filter.
    + cbn [filter]. now rewrite IH.
    + intros y L E. apply Nat.eqb_eq in E. apply Nat.eqb_neq. lia.
Qed.

(** ** The article index: one article per key, nothing lost *)

Lemma dict_has_set_same {V} (k : string) (v : V) (d : list (string * V)) :
  dict_has k (dict_set k v d) = true.
Proof. unfold dict_has. now rewrite dict_get_set_same. Qed.

Lemma index_item_keys (m : string) (ix : index) (item : Item) :
  map fst (index_item m ix item)
  = if dict_has (item_key item) ix then map fst ix else map fst ix ++ [item_key item].
Proof.
  unfold index_item, item_key.
  set (id := article_key (item_article item)).
  unfold dict_has. destruct (dict_get id ix) as [[a ps]|] eqn:E.
  - rewrite E, dict_keys_set. unfold dict_has. now rewrite E.
  - rewrite dict_get_set_same, !dict_keys_set, dict_has_set_same.
    unfold dict_has. now rewrite E.
Qed.

Lemma dict_has_keys {V} (k : string) (d : list (string * V)) :
  dict_has k d = true <-> In k (map fst d).
Proof.
  unfold dict_has. split.
  - destruct (dict_get k d) eqn:E; [|discriminate]. intros _.
    apply dict_get_some_in in E. now apply (in_map fst) in E.
  - intros I. destruct (dict_get k d) eqn:E; [reflexivity|].
    now apply dict_get_none_keys in E.
Qed.

Lemma index_item_key_in (m : string) (ix : index) (item : Item) (k : string) :
  In k (map fst (index_item m ix item)) <-> In k (map fst ix) \/ k = item_key item.
Proof.
  rewrite index_item_keys. destruct (dict_has (item_key item) ix) eqn:H.
  - apply dict_has_keys in H. split; [auto|]. intros [I| ->]; assumption.
  - rewrite in_app_iff. cbn. intuition congruence.
Qed.

Lemma index_items_key_in (m : string) (items : list Item) (ix : index) (k : string) :
  In k (map fst (fold_left (index_item m) items ix))
  <-> In k (map fst ix) \/ In k (map item_key items).
Proof.
  revert ix. induction items as [|item items IH]; intros ix; cbn [fold_left map In].
  - tauto.
  - rewrite IH, index_item_key_in. intuition congruence.
Qed.

Lemma build_index_key_in (all_analyses : list (option ModelData)) (k : string) :
  In k (map fst (build_index all_analyses)) <-> In k (map item_key (records all_analyses)).
Proof.
  unfold build_index.
  assert (G : forall ix,
            In k (map fst (fold_left index_model all_analyses ix))
            <-> In k (map fst ix) \/ In k (map item_key (records all_analyses))).
  { induction all_analyses as [|[d|] l IH]; intros ix; cbn [fold_left records flat_map].
    - cbn. tauto.
    - fold (records l). rewrite IH. cbn [index_model].
      rewrite index_items_key_in, map_app, in_app_iff. tauto.
    - fold (records l). rewrite IH. cbn [index_model app]. tauto. }
  rewrite G. cbn. tauto.
Qed.

Lemma find_app {A} (p : A -> bool) (l l' : list A) :
  find p (l ++ l') = match find p l with Some x => Some x | None => find p l' end.
Proof.
  induction l as [|x l IH]; cbn; [reflexivity|]. now destruct (p x).
Qed.


Lemma index_item_get (m : string) (ix : index) (item : Item) (k : string) :
  dict_get k (index_item m ix item)
  = if String.eqb (item_key item) k
    then Some (match dict_get (item_key item) ix with
               | Some (a, ps) => (a, ps ++ [make_perspective m (item_analysis item)])
               | None => (item_article item, [make_perspective m (item_analysis item)])
               end)
    else dict_get k ix.
Proof.
  unfold index_item, dict_has. fold (item_key item). set (id := item_key item).
  destruct (String.eqb_spec id k) as [<-|N].
  - destruct (dict_get id ix) as [[a ps]|] eqn:E.
    + now rewrite E, dict_get_set_same.
    + now rewrite !dict_get_set_same.
  - destruct (dict_get id ix) as [[a ps]|] eqn:E.
    + rewrite E. now rewrite dict_get_set_other by congruence.
    + rewrite dict_get_set_same. now rewrite !dict_get_set_other by congruence.
Qed.

Lemma index_item_first (m : string) (ix : index) (item : Item) (seen : list Item) :
  index_first ix seen -> index_first (index_item m ix item) (seen ++ [item]).
Proof.
  unfold index_first, first_record. intros F k. rewrite index_item_get, find_app.
  destruct (String.eqb_spec (item_key item) k) as [<-|N].
  - specialize (F (item_key item)).
    destruct (dict_get (item_key item) ix) as [[a ps]|].
    + destruct F as (Np & it & -> & ->). split; [now destruct ps | eauto].
    + rewrite F. cbn. rewrite String.eqb_refl. split; [discriminate | eauto].
  - specialize (F k). destruct (dict_get k ix) as [[a ps]|].
    + destruct F as (Np & it & -> & ->). eauto.
    + rewrite F. cbn. now destruct (String.eqb_spec (item_key item) k).
Qed.

Lemma build_index_first (all_analyses : list (option ModelData)) :
  index_first (build_index all_analyses) (records all_analyses).
Proof.
  unfold build_index.
  assert (G : forall ix seen, index_first ix seen ->
            index_first (fold_left index_model all_analyses ix)
                        (seen ++ records all_analyses)).
  { induction all_analyses as [|[d|] l IH]; intros ix seen H; cbn [fold_left records flat_map].
    - now rewrite app_nil_r.
    - fold (records l). rewrite app_assoc. apply IH. cbn [index_model].
      generalize (md_analyses d) ix seen H. clear.
      induction l as [|item items IHi]; intros ix seen H; cbn [fold_left].
      + now rewrite app_nil_r.
      + change (item :: items) with ([item] ++ items). rewrite app_assoc.
        apply IHi. now apply index_item_first.
    - fold (records l). cbn [app index_model]. now apply IH. }
  apply (G [] []). intros k. reflexivity.
Qed.

Lemma synthesized_keys (ix : index) :
  index_ok ix ->
  map (fun s => article_key (syn_article s)) (map synthesize_entry ix) = map fst ix.
Proof.
  intros [_ K]. rewrite map_map. apply map_ext_in. intros [k [a ps]] I. cbn.
  now apply (K k a ps).
Qed.

(** X2.  Records with the same key, whichever artifacts they come from, are
    joined into one article: the synthesized articles have pairwise
    distinct keys, which are exactly the keys of the loaded records; each
    article is the one of the first record loaded under its key, and has at
    least one perspective. *)
Theorem one_article_per_key (all_analyses : list (option ModelData)) :
  NoDup (map (fun s => article_key (syn_article s)) (synthesize_perspectives all_analyses))
  /\ (forall k,
        In k (map (fun s => article_key (syn_article s))
                  (synthesize_perspectives all_analyses))
        <-> In k (map item_key (records all_analyses)))
  /\ (forall s,
        In s (synthesize_perspectives all_analyses) ->
        (1 <= coverage s)%nat
        /\ exists item,
             first_record (article_key (syn_article s)) (records all_analyses) = Some item
             /\ syn_article s = item_article item).
Proof.
  pose proof (build_index_ok all_analyses) as OK.
  pose proof (synthesized_keys _ OK) as KS.
  assert (P : Permutation
                (map (fun s => article_key (syn_article s))
                     (synthesize_perspectives all_analyses))
                (map fst (build_index all_analyses))).
  { rewrite <- KS. apply Permutation_map. apply sort_by_coverage_perm. }
  split; [|split].
  - apply (Permutation_NoDup (Permutation_sym P)). apply OK.
  - intros k. rewrite <- build_index_key_in. split; intros I.
    + now apply (Permutation_in _ P).
    + now apply (Permutation_in _ (Permutation_sym P)).
  - intros s I. unfold synthesize_perspectives in I. rewrite sort_by_coverage_in in I.
    apply in_map_iff in I as ([k [a ps]] & <- & I). cbn.
    destruct OK as [ND K]. rewrite (K k a ps I).
    pose proof (build_index_first all_analyses k) as F.
    rewrite (dict_in_get k (a, ps) _ ND I) in F. destruct F as (N & it & Fi & ->).
    split; [destruct ps; [congruence | cbn; lia] | eauto].
Qed.

Lemma one_article_per_key_witness :
  (1 <= coverage (Demo.first_article (synthesize_perspectives Demo.quiet)))%nat
  /\ exists item,
       first_record
         (article_key (syn_article (Demo.first_article (synthesize_perspectives Demo.quiet))))
         (records Demo.quiet) = Some item
       /\ syn_article (Demo.first_article (synthesize_perspectives Demo.quiet))
          = item_article item.
Proof.
  apply (proj2 (proj2 (one_article_per_key Demo.quiet))). left. reflexivity.
Defined.

(** ** Counting perspectives *)

Lemma index_size_cons (e : string * (Article * list Perspective)) (ix : index) :
  index_size (e :: ix) = (length (snd (snd e)) + index_size ix)%nat.
Proof. reflexivity. Qed.

Lemma index_size_set_new (k : string) (v : Article * list Perspective) (ix : index) :
  dict_get k ix = None -> index_size (dict_set k v ix) = (index_size ix + length (snd v))%nat.
Proof.
  induction ix as [|[k' v'] ix IH]; cbn [dict_get dict_set].
  - intros _. rewrite index_size_cons. cbn. lia.
  - destruct (String.eqb_spec k' k); [discriminate|]. intros E.
    rewrite !index_size_cons, (IH E). lia.
Qed.

Lemma index_size_set_old (k : string) (v v0 : Article * list Perspective) (ix : index) :
  dict_get k ix = Some v0 ->
  (index_size (dict_set k v ix) + length (snd v0) = index_size ix + length (snd v))%nat.
Proof.
  induction ix as [|[k' v'] ix IH]; cbn [dict_get dict_set]; [discriminate|].
  destruct (String.eqb_spec k' k).
  - intros [= ->]. rewrite !index_size_cons. cbn [snd]. lia.
  - intros E. rewrite !index_size_cons. specialize (IH E). lia.
Qed.

Lemma index_item_size (m : string) (ix : index) (item : Item) :
  index_size (index_item m ix item) = S (index_size ix).
Proof.
  unfold index_item, dict_has. set (id := article_key (item_article item)).
  destruct (dict_get id ix) as [[a ps]|] eqn:E.
  - rewrite E.
    pose proof (index_size_set_old id (a, ps ++ [make_perspective m (item_analysis item)])
                  (a, ps) ix E) as H.
    cbn [snd] in H. rewrite length_app in H. cbn [length] in H. lia.
  - rewrite dict_get_set_same.
    pose proof (index_size_set_new id (item_article item, []) ix E) as H0.
    pose proof (index_size_set_old id
                  (item_article item, [] ++ [make_perspective m (item_analysis item)])
                  (item_article item, []) _ (dict_get_set_same id (item_article item, []) ix))
      as H.
    cbn [snd length app] in H, H0 |- *. lia.
Qed.

Lemma build_index_size (all_analyses : list (option ModelData)) :
  index_size (build_index all_analyses) = length (records all_analyses).
Proof.
  unfold build_index.
  assert (G : forall ix, index_size (fold_left index_model all_analyses ix)
                         = (index_size ix + length (records all_analyses))%nat).
  { induction all_analyses as [|[d|] l IH]; intros ix; cbn [fold_left records flat_map].
    - cbn. lia.
    - fold (records l). rewrite IH, length_app. cbn [index_model].
      assert (Hd : forall items ix', index_size (fold_left (index_item (md_model d)) items ix')
                                     = (index_size ix' + length items)%nat).
      { induction items as [|item items IHi]; intros ix'; cbn [fold_left length]; [lia|].
        rewrite IHi, index_item_size. lia. }
      rewrite Hd. lia.
    - fold (records l). cbn [index_model app]. apply IH. }
  rewrite G. reflexivity.
Qed.

Lemma list_sum_perm (l l' : list nat) : Permutation l l' -> list_sum l = list_sum l'.
Proof. induction 1; unfold list_sum in *; cbn [fold_right]; lia. Qed.

Lemma synthesized_coverage (all_analyses : list (option ModelData)) :
  list_sum (map coverage (synthesize_perspectives all_analyses))
  = length (records all_analyses).
Proof.
  rewrite <- build_index_size. unfold synthesize_perspectives, index_size.
  rewrite (list_sum_perm _ _ (Permutation_map coverage (sort_by_coverage_perm _))).
  rewrite map_map. f_equal. apply map_ext. now intros [k [a ps]].
Qed.

Lemma collect_length (all_analyses : list (option ModelData)) :
  length (collect an_sentiment all_analyses)
  = length (filter has_sentiment (records all_analyses)).
Proof.
  unfold collect, records.
  induction all_analyses as [|[d|] l IH]; cbn [flat_map]; [reflexivity| |exact IH].
  rewrite filter_app, !length_app, IH. f_equal.
  induction (md_analyses d) as [|item items IHi]; cbn [flat_map filter]; [reflexivity|].
  unfold has_sentiment at 1.
  destruct (an_sentiment (item_analysis item)); cbn; now rewrite IHi.
Qed.

(** X3.  Every loaded record becomes exactly one perspective of exactly one
    article: the coverage counts of the synthesized articles add up to the
    number of loaded records.  The global [total_analyses] counts only the
    records whose analysis carries a [sentiment] field, so it never exceeds
    that number. *)
Theorem perspectives_add_up (all_analyses : list (option ModelData)) :
  list_sum (map coverage (synthesize_perspectives all_analyses))
  = length (records all_analyses)
  /\ map (fun s => models_analyzed (syn_consensus s)) (synthesize_perspectives all_analyses)
     = map (fun s => Z.of_nat (coverage s)) (synthesize_perspectives all_analyses)
  /\ c_total_analyses (calculate_consensus all_analyses)
     = len (filter has_sentiment (records all_analyses))
  /\ (c_total_analyses (calculate_consensus all_analyses)
      <= Z.of_nat (list_sum (map coverage (synthesize_perspectives all_analyses))))%Z.
Proof.
  pose proof (synthesized_coverage all_analyses) as C.
  pose proof (collect_length all_analyses) as L.
  split; [exact C|]. split; [|split].
  - apply map_ext_in. intros s I. now rewrite (synthesized_consensus all_analyses s I).
  - unfold calculate_consensus, len. cbn [c_total_analyses]. now rewrite L.
  - unfold calculate_consensus, len. cbn [c_total_analyses]. rewrite L, C.
    pose proof (filter_length_le has_sentiment (records all_analyses)). lia.
Qed.

(** ** Loading the static list *)

Lemma load_all_log_is (fs : filesystem) (ms : list (string * string))
    (acc : list (option ModelData)) (log : list string) :
  snd (load_all fs ms acc log) = log ++ flat_map (load_report fs) ms.
Proof.
  revert acc log. induction ms as [|[path name] ms IH]; intros acc log; cbn [load_all flat_map].
  - now rewrite app_nil_r.
  - unfold load_report at 1. cbn [fst snd].
    destruct (load_analysis fs path name) as [[md|] lines]; rewrite IH, <- app_assoc;
      reflexivity.
Qed.

(** X4.  Every model of the static list is accounted for: its artifact is
    loaded, or exactly one line says why not (a warning for a missing file,
    an error line for any other failure); the lines come in the order of
    the list. *)
Theorem every_model_loaded_or_reported (fs : filesystem) :
  snd (main fs) = flat_map (load_report fs) models
  /\ (length (loaded fs) + length (snd (main fs)) = length models)%nat
  /\ Forall (fun pm : string * string =>
               match fs (fst pm) with
               | Stored _ _ _ => load_report fs pm = []
               | Missing =>
                   load_report fs pm
                   = [("  Warning: " ++ snd pm ++ " analysis not found at " ++ fst pm)%string]
               | Broken e =>
                   load_report fs pm
                   = [("  Error loading " ++ snd pm ++ " analysis: " ++ exn_str e)%string]
               end) models.
Proof.
  destruct (main_articles fs) as (_ & _ & _ & L).
  rewrite L, load_all_log_is. cbn [app]. split; [reflexivity|]. split.
  - unfold loaded. generalize models as ms.
    induction ms as [|[path name] ms IH]; cbn [flat_map]; [reflexivity|].
    rewrite !length_app, <- Nat.add_assoc, (Nat.add_comm (length (flat_map _ ms))).
    unfold load_report at 1, load_analysis. cbn [fst snd length].
    destruct (fs path); cbn [snd length]; lia.
  - apply Forall_forall. intros [path name] _. unfold load_report, load_analysis. cbn [fst snd].
    now destruct (fs path).
Qed.

(** ** More on consensus *)

Lemma dominant_of_counts (l : list string) :
  l <> [] ->
  exists x items,
    count_sentiments l = x :: items
    /\ In (fst (max_by_count x items)) l
    /\ dict_get (fst (max_by_count x items)) (count_sentiments l)
       = Some (occurrences (fst (max_by_count x items)) l)
    /\ forall s, (occurrences s l <= occurrences (fst (max_by_count x items)) l)%Z.
Proof.
  intros NE.
  pose proof (count_sentiments_get l) as G.
  pose proof (count_sentiments_nodup l) as ND.
  destruct (count_sentiments l) as [|x items] eqn:Ed.
  { destruct l as [|s0 l0]; [congruence|]. specialize (G s0). cbn [dict_get] in G.
    destruct (Z.eqb_spec (occurrences s0 (s0 :: l0)) 0) as [Z0|]; [|discriminate].
    assert (0 < occurrences s0 (s0 :: l0))%Z by (apply occurrences_pos_in; now left).
    lia. }
  exists x, items. split; [reflexivity|].
  set (mx := max_by_count x items).
  assert (Imx : In mx (x :: items)) by apply max_by_count_in.
  assert (Gmx : dict_get (fst mx) (x :: items) = Some (snd mx)).
  { apply dict_in_get; [assumption | now destruct mx]. }
  assert (Omx : occurrences (fst mx) l = snd mx /\ (0 < snd mx)%Z).
  { rewrite G in Gmx.
    destruct (Z.eqb_spec (occurrences (fst mx) l) 0); [discriminate|].
    injection Gmx as Gmx. split; [assumption|]. unfold occurrences in *. lia. }
  destruct Omx as [Omx Pmx].
  split; [apply occurrences_pos_in; lia|].
  split; [now rewrite Gmx, Omx|].
  intros s. rewrite Omx. specialize (G s).
  destruct (Z.eqb_spec (occurrences s l) 0) as [->|]; [lia|].
  apply dict_get_some_in in G. apply (max_by_count_max x items (s, occurrences s l) G).
Qed.

(** X5.  The global consensus counts every sentiment that is present,
    "unknown" included; its dominant sentiment is one that occurs most
    often, its agreement the rounded share of that sentiment; with no
    sentiment at all the dominant sentiment is "unknown" and the agreement
    the integer 0. *)
Theorem global_consensus_spec (all_analyses : list (option ModelData)) :
  (forall s,
      dict_get s (c_sentiment_distribution (calculate_consensus all_analyses))
      = if (occurrences s (collect an_sentiment all_analyses) =? 0)%Z then None
        else Some (occurrences s (collect an_sentiment all_analyses)))
  /\ c_total_analyses (calculate_consensus all_analyses)
     = len (collect an_sentiment all_analyses)
  /\ (collect an_sentiment all_analyses = [] ->
      c_dominant_sentiment (calculate_consensus all_analyses) = "unknown"
      /\ c_agreement_percentage (calculate_consensus all_analyses) = PyInt 0)
  /\ (collect an_sentiment all_analyses <> [] ->
      In (c_dominant_sentiment (calculate_consensus all_analyses))
         (collect an_sentiment all_analyses)
      /\ (forall s,
            occurrences s (collect an_sentiment all_analyses)
            <= occurrences (c_dominant_sentiment (calculate_consensus all_analyses))
                           (collect an_sentiment all_analyses))%Z
      /\ c_agreement_percentage (calculate_consensus all_analyses)
         = PyFloat (round1 (percentage
                      (occurrences (c_dominant_sentiment (calculate_consensus all_analyses))
                                   (collect an_sentiment all_analyses))
                      (len (collect an_sentiment all_analyses))))).
Proof.
  unfold calculate_consensus.
  cbn [c_sentiment_distribution c_total_analyses c_dominant_sentiment c_agreement_percentage].
  set (l := collect an_sentiment all_analyses).
  split; [intros s; apply count_sentiments_get|]. split; [reflexivity|]. split.
  - intros ->. split; reflexivity.
  - intros NE. destruct (dominant_of_counts l NE) as (x & items & E & I & G & M).
    rewrite E in *. split; [exact I|]. split; [exact M|].
    destruct l as [|s0 l0]; [congruence|]. cbv iota. cbn [py_round1].
    now rewrite G.
Qed.

Lemma global_consensus_spec_witness :
  (c_dominant_sentiment (calculate_consensus []) = "unknown"
   /\ c_agreement_percentage (calculate_consensus []) = PyInt 0)
  /\ (In (c_dominant_sentiment (calculate_consensus Demo.quiet))
         (collect an_sentiment Demo.quiet)
      /\ c_dominant_sentiment (calculate_consensus Demo.quiet) = "unknown"
      /\ c_agreement_percentage (calculate_consensus Demo.quiet)
         = PyFloat (round1 (percentage 1 1))).
Proof.
  split.
  - apply (proj1 (proj2 (proj2 (global_consensus_spec [])))). reflexivity.
  - assert (N : collect an_sentiment Demo.quiet <> []) by discriminate.
    destruct (proj2 (proj2 (proj2 (global_consensus_spec Demo.quiet))) N) as (I & _ & A).
    split; [exact I|]. split; [reflexivity | exact A].
Defined.

Lemma count_cons (x c : string) (l : list string) :
  count x (c :: l) = ((if String.eqb x c then 1 else 0) + count x l)%Z.
Proof.
  unfold count, len. cbn [filter]. destruct (String.eqb x c); cbn [length]; lia.
Qed.

Lemma count_filter_recognized (levels : list string) :
  (count "high" levels + count "medium" levels + count "low" levels
   = len (filter recognized levels))%Z.
Proof.
  induction levels as [|c levels IH]; [reflexivity|].
  rewrite !count_cons. cbn [filter]. unfold recognized at 1.
  assert (F : forall b : bool,
            len (if b then c :: filter recognized levels else filter recognized levels)
            = ((if b then 1 else 0) + len (filter recognized levels))%Z)
    by (intros [|]; unfold len; cbn [length]; lia).
  rewrite F.
  destruct (String.eqb_spec "high" c), (String.eqb_spec "medium" c),
    (String.eqb_spec "low" c); try congruence; cbn [orb]; lia.
Qed.

(** X6.  The confidence histogram has the three buckets high, medium and low,
    in this order, each with the number of analyses of that confidence;
    any other confidence value is dropped, so the buckets add up to the
    number of recognized values. *)
Theorem confidence_histogram (all_analyses : list (option ModelData)) :
  map fst (c_confidence_distribution (calculate_consensus all_analyses))
  = ["high"; "medium"; "low"]
  /\ (forall level,
        recognized level = true ->
        dict_get level (c_confidence_distribution (calculate_consensus all_analyses))
        = Some (occurrences level (collect an_confidence all_analyses)))
  /\ (forall level,
        recognized level = false ->
        dict_get level (c_confidence_distribution (calculate_consensus all_analyses)) = None)
  /\ (fold_right Z.add 0
        (map snd (c_confidence_distribution (calculate_consensus all_analyses)))
      = len (filter recognized (collect an_confidence all_analyses)))%Z
  /\ (fold_right Z.add 0
        (map snd (c_confidence_distribution (calculate_consensus all_analyses)))
      <= len (collect an_confidence all_analyses))%Z.
Proof.
  unfold calculate_consensus. cbn [c_confidence_distribution].
  set (levels := collect an_confidence all_analyses).
  assert (C : forall x, count x levels = occurrences x levels).
  { intros x. unfold count, occurrences, len. f_equal.
    induction levels as [|c l IH]; cbn [filter count_occ]; [reflexivity|].
    destruct (String.eqb_spec x c) as [E1|N]; destruct (string_dec c x) as [E2|E2];
      cbn [length]; try congruence; now rewrite IH. }
  assert (S : (count "high" levels + count "medium" levels + count "low" levels
               = len (filter recognized levels))%Z) by apply count_filter_recognized.
  split; [reflexivity|]. split; [|split; [|split]].
  - intros level R. unfold recognized in R. cbn [dict_get].
    destruct (String.eqb_spec "high" level) as [E|_]; [subst level; now rewrite C|].
    destruct (String.eqb_spec "medium" level) as [E|_]; [subst level; now rewrite C|].
    destruct (String.eqb_spec "low" level) as [E|_];
      [subst level; now rewrite C | discriminate].
  - intros level R. unfold recognized in R. cbn [dict_get].
    destruct (String.eqb_spec "high" level); [discriminate|].
    destruct (String.eqb_spec "medium" level); [discriminate|].
    destruct (String.eqb_spec "low" level); [discriminate | reflexivity].
  - cbn [map snd fold_right]. lia.
  - cbn [map snd fold_right]. unfold len in *.
    pose proof (filter_length_le recognized levels). lia.
Qed.

Lemma confidence_histogram_witness :
  dict_get "high" (c_confidence_distribution (calculate_consensus Demo.quiet))
  = Some (occurrences "high" (collect an_confidence Demo.quiet))
  /\ dict_get "unsure" (c_confidence_distribution (calculate_consensus Demo.quiet)) = None.
Proof.
  split.
  - apply (proj1 (proj2 (confidence_histogram Demo.quiet))). reflexivity.
  - apply (proj1 (proj2 (proj2 (confidence_histogram Demo.quiet)))). reflexivity.
Defined.

(** ** Ties *)

Lemma max_by_count_earliest (items : list (string * Z)) :
  forall (pre : list (string * Z)) (best : string * Z) (mid : list (string * Z)),
    (forall x, In x pre -> (snd x < snd best)%Z) ->
    (forall x, In x mid -> (snd x <= snd best)%Z) ->
    exists pre' post,
      pre ++ best :: mid ++ items = pre' ++ max_by_count best items :: post
      /\ (forall x, In x pre' -> (snd x < snd (max_by_count best items))%Z)
      /\ (forall x, In x post -> (snd x <= snd (max_by_count best items))%Z).
Proof.
  induction items as [|y items IH]; intros pre best mid Hp Hm; cbn [max_by_count].
  - exists pre, mid. rewrite app_nil_r. auto.
  - destruct (Z.ltb_spec (snd best) (snd y)) as [L|L].
    + destruct (IH (pre ++ best :: mid) y []) as (pre' & post & E & P1 & P2).
      * intros x I. apply in_app_iff in I as [I|[<-|I]]; [specialize (Hp x I) | | specialize (Hm x I)]; lia.
      * intros x [].
      * exists pre', post. rewrite <- E. split; [|auto].
        now rewrite <- app_assoc.
    + destruct (IH pre best (mid ++ [y])) as (pre' & post & E & P1 & P2).
      * exact Hp.
      * intros x I. apply in_app_iff in I as [I|[<-|[]]]; [now apply Hm | lia].
      * exists pre', post. rewrite <- E. split; [|auto].
        now rewrite <- app_assoc.
Qed.

Lemma filter_twice {A} (f g : A -> bool) (l : list A) :
  filter f (filter g l) = filter (fun x => g x && f x) l.
Proof.
  induction l as [|x l IH]; cbn [filter]; [reflexivity|].
  destruct (g x); cbn [filter andb]; [destruct (f x)|]; now rewrite IH.
Qed.

Lemma first_seen_filter (p : string -> bool) (l : list string) :
  filter p (first_seen l) = first_seen (filter p l).
Proof.
  induction l as [|y l IH]; cbn [first_seen filter]; [reflexivity|].
  destruct (p y) eqn:Py; cbn [first_seen].
  - f_equal. rewrite <- IH, !filter_twice. apply filter_ext. intros x. apply andb_comm.
  - rewrite <- IH, filter_twice. apply filter_ext_in. intros x _.
    destruct (String.eqb_spec x y) as [->|N]; cbn; [now rewrite Py | reflexivity].
Qed.

Lemma dict_has_set {V} (s k : string) (v : V) (d : list (string * V)) :
  dict_has s (dict_set k v d) = dict_has s d || String.eqb s k.
Proof.
  unfold dict_has. destruct (String.eqb_spec s k) as [->|N].
  - rewrite dict_get_set_same. now destruct (dict_get k d).
  - rewrite dict_get_set_other by assumption. now destruct (dict_get s d).
Qed.

Lemma count_sentiments_keys_from (l : list string) (c : list (string * Z)) :
  map fst (fold_left (fun c x => dict_set x (get_or (dict_get x c) 0 + 1)%Z c) l c)
  = map fst c ++ first_seen (filter (fun s => negb (dict_has s c)) l).
Proof.
  revert c. induction l as [|x l IH]; intros c; cbn [fold_left filter].
  - now rewrite app_nil_r.
  - rewrite IH, dict_keys_set.
    assert (F : filter (fun s => negb (dict_has s (dict_set x (get_or (dict_get x c) 0 + 1)%Z c))) l
                = filter (fun s => negb (String.eqb s x)) (filter (fun s => negb (dict_has s c)) l)).
    { rewrite filter_twice. apply filter_ext. intros s. rewrite dict_has_set.
      now destruct (dict_has s c), (String.eqb s x). }
    rewrite F. destruct (dict_has x c) eqn:H; cbn [negb first_seen].
    + f_equal. f_equal. rewrite filter_twice. apply filter_ext_in. intros s _.
      destruct (String.eqb_spec s x) as [->|N]; [now rewrite H | now rewrite andb_true_r].
    + rewrite <- app_assoc. cbn [app]. now rewrite first_seen_filter.
Qed.

Lemma count_sentiments_keys (l : list string) :
  map fst (count_sentiments l) = first_seen l.
Proof.
  unfold count_sentiments. rewrite count_sentiments_keys_from. cbn [map app].
  f_equal. induction l as [|x l IH]; [reflexivity|].
  cbn [filter]. unfold dict_has at 1. cbn [dict_get negb]. now rewrite IH.
Qed.

(** X7.  The sentiment distribution of an article lists the counted sentiments
    in the order of their first occurrence among the perspectives, and the
    dominant sentiment is the first entry with the largest count: of two
    sentiments that occur equally often, the one met first wins. *)
Theorem dominant_is_first_of_the_largest (perspectives : list Perspective) :
  map fst (sentiment_distribution (article_consensus perspectives))
  = first_seen (counted_sentiments perspectives)
  /\ (counted_sentiments perspectives <> [] ->
      exists pre n post,
        sentiment_distribution (article_consensus perspectives)
        = pre ++ (dominant_sentiment (article_consensus perspectives), n) :: post
        /\ (forall x, In x pre -> (snd x < n)%Z)
        /\ (forall x, In x post -> (snd x <= n)%Z)).
Proof.
  unfold article_consensus. fold (counted_sentiments perspectives).
  cbn [sentiment_distribution dominant_sentiment].
  split; [apply count_sentiments_keys|].
  intros NE. destruct (dominant_of_counts _ NE) as (x & items & E & _).
  rewrite E.
  destruct (max_by_count_earliest items [] x []) as (pre & post & L & P1 & P2);
    [intros ? [] | intros ? [] |].
  exists pre, (snd (max_by_count x items)), post. cbn [app] in L.
  rewrite <- surjective_pairing. auto.
Qed.

Lemma dominant_is_first_of_the_largest_witness :
  exists pre n post,
    sentiment_distribution
      (article_consensus [Demo.voice "negative"; Demo.voice "positive";
                          Demo.voice "positive"; Demo.voice "negative"])
    = pre ++ (dominant_sentiment
                (article_consensus [Demo.voice "negative"; Demo.voice "positive";
                                    Demo.voice "positive"; Demo.voice "negative"]), n) :: post
    /\ (forall x, In x pre -> (snd x < n)%Z)
    /\ (forall x, In x post -> (snd x <= n)%Z).
Proof.
  apply (proj2 (dominant_is_first_of_the_largest
                  [Demo.voice "negative"; Demo.voice "positive";
                   Demo.voice "positive"; Demo.voice "negative"])).
  discriminate.
Defined.

Lemma unanimous_table_100 : unanimous_table 100 = true.
Proof. vm_compute. reflexivity. Qed.

Lemma unanimous_table_sound (bound n : nat) :
  unanimous_table bound = true -> (1 <= n <= bound)%nat ->
  nearest_tenths (percentage (Z.of_nat n) (Z.of_nat n)) = Some 1000%Z.
Proof.
  unfold unanimous_table. intros T H. rewrite forallb_forall in T.
  assert (I : In n (seq 1 bound)) by (apply in_seq; lia).
  specialize (T n I).
  destruct (nearest_tenths (percentage (Z.of_nat n) (Z.of_nat n))) as [t|]; [|discriminate].
  apply Z.eqb_eq in T. now subst.
Qed.

Lemma occurrences_all_same (s : string) (l : list string) :
  (forall x, In x l -> x = s) -> occurrences s l = len l.
Proof.
  unfold occurrences, len. intros H. f_equal.
  induction l as [|x l IH]; cbn [count_occ length]; [reflexivity|].
  destruct (string_dec x s) as [_|N]; [|destruct N; apply H; now left].
  f_equal. apply IH. intros y I. apply H. now right.
Qed.

(** X8.  When all the counted sentiments of an article are the same, that
    sentiment is dominant and the agreement is exactly 100.0 (shown for up
    to 100 counted sentiments). *)
Theorem unanimous_agreement (perspectives : list Perspective) (s : string) :
  counted_sentiments perspectives <> [] ->
  (forall x, In x (counted_sentiments perspectives) -> x = s) ->
  (length (counted_sentiments perspectives) <= 100)%nat ->
  dominant_sentiment (article_consensus perspectives) = s
  /\ agreement_percentage (article_consensus perspectives) = PyFloat 100%float.
Proof.
  intros NE A B. unfold article_consensus. fold (counted_sentiments perspectives).
  cbn [dominant_sentiment agreement_percentage].
  destruct (dominant_of_counts _ NE) as (x & items & E & I & G & _).
  rewrite E in *. pose proof (A _ I) as D. split; [exact D|].
  destruct (counted_sentiments perspectives) as [|s0 l0] eqn:El; [congruence|].
  cbv iota. rewrite <- El in *. cbn [py_round1]. rewrite G. cbn [get_or]. rewrite D.
  rewrite (occurrences_all_same s _ A). f_equal.
  assert (T : nearest_tenths (percentage (len (counted_sentiments perspectives))
                                (len (counted_sentiments perspectives))) = Some 1000%Z).
  { apply (unanimous_table_sound 100 _ unanimous_table_100). rewrite El in *. cbn in *. lia. }
  unfold round1. rewrite T. reflexivity.
Qed.

Lemma unanimous_agreement_witness :
  dominant_sentiment (article_consensus [Demo.voice "positive"; Demo.voice "unknown";
                                         Demo.voice "positive"]) = "positive"
  /\ agreement_percentage (article_consensus [Demo.voice "positive"; Demo.voice "unknown";
                                              Demo.voice "positive"]) = PyFloat 100%float.
Proof.
  apply (unanimous_agreement [Demo.voice "positive"; Demo.voice "unknown";
                              Demo.voice "positive"] "positive").
  - discriminate.
  - intros x [<-|[<-|[]]]; reflexivity.
  - cbn. lia.
Defined.

(** ** The output of [main] *)

Lemma records_nil (all_analyses : list (option ModelData)) :
  records all_analyses = [] <->
  (forall d, In (Some d) all_analyses -> md_analyses d = []).
Proof.
  induction all_analyses as [|[d|] l IH].
  - split; [intros _ d [] | reflexivity].
  - unfold records; cbn [flat_map]; fold (records l). split.
    + intros E. apply app_eq_nil in E as [E1 E2]. intros d' [[= <-]|I]; [exact E1|].
      now apply IH.
    + intros H. rewrite (H d (or_introl eq_refl)). cbn [app]. apply IH.
      intros d' I. apply H. now right.
  - unfold records; cbn [flat_map]; fold (records l).
    cbn [app]. rewrite IH. split; intros H d' I.
    + destruct I as [I|I]; [discriminate I | now apply H].
    + apply H. now right.
Qed.

Lemma build_index_nil (all_analyses : list (option ModelData)) :
  records all_analyses = [] -> build_index all_analyses = [].
Proof.
  intros E. pose proof (build_index_key_in all_analyses) as K. rewrite E in K.
  destruct (build_index all_analyses) as [|[k v] ix]; [reflexivity|].
  destruct (proj1 (K k)). now left.
Qed.

Lemma collect_nil {A} (field : Analysis -> option A) (all_analyses : list (option ModelData)) :
  records all_analyses = [] -> collect field all_analyses = [].
Proof.
  unfold collect, records.
  induction all_analyses as [|[d|] l IH]; cbn [flat_map]; [reflexivity| |exact IH].
  intros E. apply app_eq_nil in E as [E1 E2]. rewrite E1, (IH E2). reflexivity.
Qed.

Lemma main_consensus (fs : filesystem) :
  out_consensus (fst (main fs)) = calculate_consensus (map Some (loaded fs))
  /\ out_count (fst (main fs)) = len (out_articles (fst (main fs)))
  /\ out_total_perspectives (fst (main fs))
     = c_total_analyses (out_consensus (fst (main fs))).
Proof.
  unfold main. pose proof (load_all_loaded fs models [] []) as L.
  destruct (load_all fs models [] []) as [all log]. cbn in L. subst all.
  repeat split.
Qed.

(** X9.  When the artifacts that could be loaded hold no record at all (in
    particular when no artifact could be loaded), [main] still produces an
    output: no article, count 0, the global consensus "unknown" with the
    integer agreement 0 and an all-zero confidence histogram, while
    [models_included] still names the eight models of the static list. *)
Theorem nothing_to_synthesize (fs : filesystem) :
  (forall d, In d (loaded fs) -> md_analyses d = []) ->
  out_articles (fst (main fs)) = []
  /\ out_count (fst (main fs)) = 0%Z
  /\ out_consensus (fst (main fs))
     = {| c_dominant_sentiment := "unknown";
          c_sentiment_distribution := [];
          c_agreement_percentage := PyInt 0;
          c_total_analyses := 0;
          c_confidence_distribution := [("high", 0%Z); ("medium", 0%Z); ("low", 0%Z)] |}
  /\ out_total_perspectives (fst (main fs)) = 0%Z
  /\ length (out_models_included (fst (main fs))) = 8%nat.
Proof.
  intros H.
  assert (R : records (map Some (loaded fs)) = []).
  { apply records_nil. intros d I. apply in_map_iff in I as (d' & [= ->] & I). now apply H. }
  destruct (main_articles fs) as (A & _ & M & _).
  destruct (main_consensus fs) as (C & N & T).
  rewrite T, N, C, A, M. unfold synthesize_perspectives, calculate_consensus.
  rewrite (build_index_nil _ R), !(collect_nil _ _ R). cbn. repeat split.
Qed.

Lemma nothing_to_synthesize_witness :
  out_articles (fst (main (fun _ => Missing))) = []
  /\ out_count (fst (main (fun _ => Missing))) = 0%Z
  /\ out_consensus (fst (main (fun _ => Missing)))
     = {| c_dominant_sentiment := "unknown";
          c_sentiment_distribution := [];
          c_agreement_percentage := PyInt 0;
          c_total_analyses := 0;
          c_confidence_distribution := [("high", 0%Z); ("medium", 0%Z); ("low", 0%Z)] |}
  /\ out_total_perspectives (fst (main (fun _ => Missing))) = 0%Z
  /\ length (out_models_included (fst (main (fun _ => Missing)))) = 8%nat.
Proof.
  apply (nothing_to_synthesize (fun _ => Missing)).
  intros d I. cbn in I. destruct I.
Defined.

Lemma synthesized_perspectives_from (all : list ModelData) (s : Synthesized) (p : Perspective) :
  In s (synthesize_perspectives (map Some all)) -> In p (syn_perspectives s) ->
  exists d item, In d all /\ In item (md_analyses d)
                 /\ p = make_perspective (md_model d) (item_analysis item).
Proof.
  unfold synthesize_perspectives. intros I Ip.
  apply sort_by_coverage_in, in_map_iff in I as ([k [a ps]] & <- & I).
  cbn [synthesize_entry syn_perspectives] in Ip.
  destruct (build_index_ok (map Some all)) as [ND _].
  pose proof (dict_in_get k (a, ps) _ ND I) as G.
  pose proof (perspectives_of_build_index all k) as P.
  unfold perspectives_of in P. rewrite G in P. subst ps.
  apply in_flat_map in Ip as (d & Id & Ip).
  apply in_map_iff in Ip as (item & <- & Ii).
  exists d, item. repeat split; [exact Id|].
  unfold matching in Ii. now apply filter_In in Ii.
Qed.

(** X10.  [get_model_emoji] falls back to the white circle exactly for the names
    its table does not list, and the table lists every model of the static
    list of [main]: each perspective in the output of [main] is labelled
    with one of the eight static model names and carries that model's own
    emoji, never the fallback. *)
Theorem emoji_never_default_in_output (fs : filesystem) :
  (forall name, get_model_emoji name = "⚪" <-> ~ In name (map fst emoji_map))
  /\ forall s p,
       In s (out_articles (fst (main fs))) -> In p (syn_perspectives s) ->
       In (p_model p) (map snd models)
       /\ p_emoji p = get_model_emoji (p_model p)
       /\ p_emoji p <> "⚪".
Proof.
  split.
  - intros name. unfold get_model_emoji. split.
    + intros E I. apply in_map_iff in I as ([k v] & <- & I). cbn [fst] in E.
      cbn in I.
      repeat (destruct I as [[= <- <-]|I]; [vm_compute in E; discriminate E|]).
      destruct I.
    + intros N. destruct (dict_get name emoji_map) eqn:G; [|reflexivity].
      destruct N. apply dict_get_some_in in G.
      now apply (in_map fst) in G.
  - intros s p Is Ip. destruct (main_articles fs) as (A & _). rewrite A in Is.
    destruct (synthesized_perspectives_from _ s p Is Ip) as (d & item & Id & _ & ->).
    destruct (loaded_from_static_list fs d Id) as (path & Im & _).
    cbn [make_perspective p_model p_emoji].
    split; [now apply (in_map snd) in Im|]. split; [reflexivity|].
    cbn in Im.
    repeat (destruct Im as [[= _ <-]|Im]; [vm_compute; discriminate|]).
    destruct Im.
Qed.

Lemma emoji_never_default_in_output_witness :
  get_model_emoji "Claude" = "⚪"
  /\ p_emoji (hd (Demo.voice EmptyString)
                 (syn_perspectives
                    (Demo.first_article
                       (out_articles (fst (main (Demo.only_gpt_mini Demo.two_records)))))))
     <> "⚪".
Proof.
  split.
  - apply (proj1 (emoji_never_default_in_output (fun _ => Missing)) "Claude").
    cbn. intros H. repeat destruct H as [H|H]; discriminate H || exact H.
  - apply (proj2 (emoji_never_default_in_output (Demo.only_gpt_mini Demo.two_records))
             (Demo.first_article
                (out_articles (fst (main (Demo.only_gpt_mini Demo.two_records)))))).
    + vm_compute. left. reflexivity.
    + vm_compute. left. reflexivity.
Defined.

(** ** More on the analyzer *)

Lemma sleeps_app (a b : list event) : sleeps (a ++ b) = sleeps a ++ sleeps b.
Proof. induction a as [|[r|d] a IH]; cbn; now rewrite ?IH. Qed.

Lemma calls_app (a b : list event) : calls (a ++ b) = (calls a + calls b)%nat.
Proof. induction a as [|[r|d] a IH]; cbn; now rewrite ?IH. Qed.

Lemma requests_app (a b : list event) : requests (a ++ b) = requests a ++ requests b.
Proof. induction a as [|[r|d] a IH]; cbn; now rewrite ?IH. Qed.

Lemma total_sleep_app (a b : list event) :
  total_sleep (a ++ b) = (total_sleep a + total_sleep b)%Z.
Proof.
  unfold total_sleep. rewrite sleeps_app.
  induction (sleeps a) as [|d l IH]; cbn; [reflexivity | rewrite IH; lia].
Qed.

Section AnalyzerMore.

Variable World : Type.
Variable create : request -> World -> result response * World.
Variable utcnow_iso : World -> string.
Variable sleep : Z -> World -> World.
Variable loads : string -> option json.
Variable model_name display_name : string.

Local Abbreviation analyze_article' :=
  (analyze_article World create utcnow_iso sleep loads model_name display_name).
Local Abbreviation call_with_retry' := (call_with_retry World create sleep model_name).
Local Abbreviation error_analysis' := (error_analysis model_name display_name).
Local Abbreviation analyze_loop' :=
  (analyze_loop World create utcnow_iso sleep loads model_name display_name).
Local Abbreviation analyze_articles' :=
  (analyze_articles World create utcnow_iso sleep loads model_name display_name).
Local Abbreviation each_in_turn' :=
  (each_in_turn World create utcnow_iso sleep loads model_name display_name).

(** X11.  Whatever the service answered, the analysis of an article is a
    dictionary stamped by the analyzer itself: [model] is its display name,
    [model_id] its model name and [analyzed_at] the time read after the
    request, also when the parsed reply had fields of these names. *)
Theorem analysis_carries_identity (a : article) (st : state World) :
  exists d,
    fst (analyze_article' a st) = JDict d
    /\ dict_get "model" d = Some (JStr display_name)
    /\ dict_get "model_id" d = Some (JStr model_name)
    /\ dict_get "analyzed_at" d
       = Some (JStr (utcnow_iso (world (snd (analyze_article' a st))))).
Proof.
  unfold analyze_article, analyze_try.
  destruct (call_with_retry' (build_prompt a) st) as [[e|resp] st1].
  { eexists. cbn. repeat split. }
  unfold build_analysis.
  destruct (resp_content resp) as [content|]; [|eexists; cbn; repeat split].
  cbn [bind ret].
  destruct (extract_analysis loads content) as [| | | | |l|d];
    try (eexists; cbn; repeat split; fail).
  cbn [py_setitem bind ret].
  destruct (resp_usage resp) as [u|]; [|eexists; cbn; repeat split].
  cbn [py_setitem fst snd]. eexists. split; [reflexivity|].
  repeat split.
  - rewrite !dict_get_set_other by discriminate. apply dict_get_set_same.
  - rewrite !dict_get_set_other by discriminate. apply dict_get_set_same.
  - rewrite !dict_get_set_other by discriminate. apply dict_get_set_same.
Qed.

(** X12.  A reply is kept only as an object.  When the completion text parses as
    JSON that is not an object (a list, a string, a number), stamping it
    raises [TypeError], which the handler of [analyze_article] turns into
    the error record: the parsed reply is dropped. *)
Theorem reply_kept_only_as_object (a : article) (st st1 : state World)
    (resp : response) (content : string) (v : json) :
  call_with_retry' (build_prompt a) st = (inr resp, st1) ->
  resp_content resp = Some content ->
  loads (strip_fences content) = Some v ->
  (forall d, v <> JDict d) ->
  exists msg,
    analyze_article' a st
    = (error_analysis' (PyError "TypeError" msg) (utcnow_iso (world st1)), st1).
Proof.
  intros C R L N. unfold analyze_article, analyze_try. rewrite C.
  unfold build_analysis. rewrite R. cbn [bind ret].
  unfold extract_analysis, parse_content. rewrite L.
  destruct v as [| | | | | |d]; try (eexists; reflexivity).
  now destruct (N d).
Qed.

Lemma retry_bounds (req : request) (st : state World) :
  exists evs,
    trace (snd (retry_loop World create sleep (range max_retries) req st)) = trace st ++ evs
    /\ (1 <= calls evs <= 3)%nat
    /\ (0 <= total_sleep evs <= 6)%Z
    /\ Forall (eq req) (requests evs).
Proof.
  change (range max_retries) with [0; 1; 2]%Z.
  cbn [retry_loop]. unfold client_create.
  destruct (create req (world st)) as [[[m1|t1 m1]|resp1] w1]; cbn.
  2,3: exists [Call req]; cbn; repeat split; try lia; repeat constructor.
  destruct (create req (sleep 2 w1)) as [[[m2|t2 m2]|resp2] w2]; cbn.
  2,3: exists [Call req; Sleep 2; Call req]; rewrite <- !app_assoc; cbn;
       repeat split; try lia; repeat constructor.
  destruct (create req (sleep 4 w2)) as [[[m3|t3 m3]|resp3] w3]; cbn.
  all: exists [Call req; Sleep 2; Call req; Sleep 4; Call req];
       rewrite <- !app_assoc; cbn;
       repeat split; try lia; repeat constructor.
Qed.

Lemma analyze_article_trace (a : article) (st : state World) :
  exists evs,
    trace (snd (analyze_article' a st)) = trace st ++ evs
    /\ (1 <= calls evs <= 3)%nat
    /\ (0 <= total_sleep evs <= 6)%Z
    /\ Forall (eq (make_request model_name (build_prompt a))) (requests evs).
Proof.
  pose proof (retry_bounds (make_request model_name (build_prompt a)) st) as B.
  unfold analyze_article, analyze_try, call_with_retry.
  destruct (retry_loop World create sleep (range max_retries)
              (make_request model_name (build_prompt a)) st) as [[e|resp] st1];
    cbn [snd] in B |- *; [exact B|].
  destruct (build_analysis loads model_name display_name resp (utcnow_iso (world st1)));
    exact B.
Qed.

Lemma each_in_turn_trace (articles : list article) (st : state World) :
  exists evs,
    trace (snd (each_in_turn' articles st)) = trace st ++ evs
    /\ (length articles <= calls evs <= 3 * length articles)%nat
    /\ (Z.of_nat (length articles - 1) <= total_sleep evs
        <= 6 * Z.of_nat (length articles) + Z.of_nat (length articles - 1))%Z
    /\ Forall (fun r => exists a, In a articles
                                  /\ r = make_request model_name (build_prompt a))
              (requests evs).
Proof.
  revert st. induction articles as [|a rest IH]; intros st; cbn [each_in_turn].
  - exists []. cbn. rewrite app_nil_r. repeat split; try lia. constructor.
  - destruct (analyze_article_trace a st) as (e1 & E1 & C1 & S1 & R1).
    destruct (analyze_article' a st) as [analysis st1]. cbn [snd] in E1.
    set (st2 := match rest with [] => st1 | _ => time_sleep World sleep 1 st1 end).
    destruct (IH st2) as (e2 & E2 & C2 & S2 & R2).
    destruct (each_in_turn' rest st2) as [records st3]. cbn [snd] in E2 |- *.
    assert (R1' : Forall (fun r => exists a0, In a0 (a :: rest)
                                   /\ r = make_request model_name (build_prompt a0))
                         (requests e1)).
    { eapply Forall_impl; [|exact R1]. intros r <-. exists a. split; [now left | reflexivity]. }
    assert (R2' : Forall (fun r => exists a0, In a0 (a :: rest)
                                   /\ r = make_request model_name (build_prompt a0))
                         (requests e2)).
    { eapply Forall_impl; [|exact R2]. intros r (a0 & I & ->). exists a0.
      split; [now right | reflexivity]. }
    destruct rest as [|b rest'].
    + exists (e1 ++ e2). subst st2. rewrite E2, E1, app_assoc.
      rewrite calls_app, total_sleep_app, requests_app. cbn [length] in *.
      repeat split; try lia. apply Forall_app. now split.
    + exists (e1 ++ Sleep 1 :: e2). subst st2. rewrite E2. cbn [time_sleep trace].
      rewrite E1, <- !app_assoc. cbn [app].
      rewrite calls_app, total_sleep_app, requests_app.
      change (Sleep 1 :: e2) with ([Sleep 1%Z] ++ e2).
      rewrite calls_app, total_sleep_app, requests_app.
      cbn [length] in *. cbn [calls requests app].
      change (total_sleep [Sleep 1%Z]) with 1%Z.
      repeat split; try lia. apply Forall_app. now split.
Qed.

(** X13.  A batch of [n] articles costs between [n] and [3 n] requests, each of
    them the request of one of its articles, and sleeps between [n - 1]
    seconds (the pauses between two articles) and [6 n + (n - 1)] seconds
    (every article rate limited to the end); an empty batch does nothing. *)
Theorem batch_cost_bounds (articles : list article) (st : state World) :
  exists evs,
    trace (snd (analyze_articles' articles st)) = trace st ++ evs
    /\ (length articles <= calls evs <= 3 * length articles)%nat
    /\ (Z.of_nat (length articles - 1) <= total_sleep evs
        <= 6 * Z.of_nat (length articles) + Z.of_nat (length articles - 1))%Z
    /\ Forall (fun r => exists a, In a articles
                                  /\ r = make_request model_name (build_prompt a))
              (requests evs).
Proof.
  destruct (analyze_loop_total World create utcnow_iso sleep loads model_name display_name
              articles [] zero_tokens st) as (total & E & _).
  { unfold tokens_ok, zero_tokens. eauto. }
  unfold analyze_articles. rewrite E. cbn [snd]. apply each_in_turn_trace.
Qed.

Lemma track_tokens_counts (analysis : json) (x y z : Z) :
  (exists e now, analysis = error_analysis' e now)
  \/ (exists d u, analysis = JDict d /\ dict_get "token_usage" d = Some (usage_dict u)) ->
  track_tokens analysis
    [ ("prompt_tokens", JInt x); ("completion_tokens", JInt y); ("total_tokens", JInt z) ]
  = inr [ ("prompt_tokens", JInt (x + tokens_of "prompt_tokens" analysis));
          ("completion_tokens", JInt (y + tokens_of "completion_tokens" analysis));
          ("total_tokens", JInt (z + tokens_of "total_tokens" analysis)) ].
Proof.
  intros [(e & now & ->)|(d & u & -> & G)].
  - cbn. now rewrite !Z.add_0_r.
  - unfold track_tokens, tokens_of. cbn [py_contains ret bind]. unfold dict_has.
    rewrite G. cbn [py_getitem]. rewrite G. reflexivity.
Qed.

Lemma analyze_loop_tokens (articles : list article) :
  forall (analyzed : list (article * json)) (x y z : Z) (st : state World),
    fst (analyze_loop' articles analyzed
           [ ("prompt_tokens", JInt x); ("completion_tokens", JInt y);
             ("total_tokens", JInt z) ] st)
    = inr (analyzed ++ fst (each_in_turn' articles st),
           [ ("prompt_tokens",
              JInt (x + sum_tokens "prompt_tokens" (fst (each_in_turn' articles st))));
             ("completion_tokens",
              JInt (y + sum_tokens "completion_tokens" (fst (each_in_turn' articles st))));
             ("total_tokens",
              JInt (z + sum_tokens "total_tokens" (fst (each_in_turn' articles st)))) ]).
Proof.
  induction articles as [|a rest IH]; intros analyzed x y z st.
  - cbn. now rewrite app_nil_r, !Z.add_0_r.
  - cbn [analyze_loop each_in_turn].
    pose proof (analyze_article_shape World create utcnow_iso sleep loads
                  model_name display_name a st) as S.
    destruct (analyze_article' a st) as [analysis st1]. cbn [fst] in S.
    rewrite (track_tokens_counts analysis x y z S).
    rewrite IH.
    destruct (each_in_turn' rest _) as [records st3].
    cbn [fst snd]. unfold sum_tokens. cbn [map fold_right snd].
    rewrite <- app_assoc, !Z.add_assoc. reflexivity.
Qed.

(** X14.  The totals a batch returns are, for each of the three counters, the sum
    of what its records report under [token_usage]; an error record
    reports nothing and adds nothing. *)
Theorem batch_token_totals (articles : list article) (st : state World) :
  (forall e now key, tokens_of key (error_analysis' e now) = 0%Z)
  /\ exists recs,
       fst (analyze_articles' articles st)
       = inr (recs,
              [ ("prompt_tokens", JInt (sum_tokens "prompt_tokens" recs));
                ("completion_tokens", JInt (sum_tokens "completion_tokens" recs));
                ("total_tokens", JInt (sum_tokens "total_tokens" recs)) ])
       /\ map fst recs = articles.
Proof.
  split; [reflexivity|].
  exists (fst (each_in_turn' articles st)).
  unfold analyze_articles, zero_tokens. rewrite analyze_loop_tokens. cbn [app].
  split; [reflexivity|].
  apply each_in_turn_articles.
Qed.

End AnalyzerMore.

Lemma reply_kept_only_as_object_witness :
  exists msg,
    Demo.analyze Demo.news (Demo.start [Demo.answer "[1, 2]"])
    = (error_analysis "openai/gpt-4o-mini" "GPT-4o Mini" (PyError "TypeError" msg)
         "2025-01-01T00:00:00",
       {| world := [];
          trace := [Call (make_request "openai/gpt-4o-mini" (build_prompt Demo.news))] |}).
Proof.
  apply (reply_kept_only_as_object Demo.World Demo.create Demo.utcnow_iso Demo.sleep
           ref_loads "openai/gpt-4o-mini" "GPT-4o Mini" Demo.news
           (Demo.start [Demo.answer "[1, 2]"])
           {| world := [];
              trace := [Call (make_request "openai/gpt-4o-mini" (build_prompt Demo.news))] |}
           {| resp_content := Some "[1, 2]";
              resp_usage := Some {| prompt_tokens := 120; completion_tokens := 80;
                                    total_tokens := 200 |} |}
           "[1, 2]" (JList [JInt 1; JInt 2])).
  - reflexivity.
  - reflexivity.
  - vm_compute. reflexivity.
  - intros d. discriminate.
Defined.

(** ** Braces and fences *)

Lemma find_from_spec (c : ascii) (s : string) (i : Z) :
  (PyStr.find_from c s i = (-1)%Z /\ absent c s)
  \/ exists pre rest,
       s = (pre ++ String c rest)%string /\ absent c pre
       /\ PyStr.find_from c s i = (i + PyStr.len pre)%Z.
Proof.
  revert i. induction s as [|a s IH]; intros i; cbn [PyStr.find_from absent].
  - left. split; [reflexivity | exact I].
  - destruct (Ascii.eqb_spec a c) as [->|N].
    + right. exists EmptyString, s. cbn. repeat split. lia.
    + destruct (IH (i + 1)%Z) as [[E A]|(pre & rest & -> & A & E)].
      * left. now repeat split.
      * right. exists (String a pre), rest. cbn [append absent]. repeat split; auto.
        rewrite E. unfold PyStr.len. cbn [String.length]. lia.
Qed.

Lemma drop_app (pre s : string) : PyStr.drop (String.length pre) (pre ++ s) = s.
Proof. induction pre as [|a pre IH]; [now destruct s | exact IH]. Qed.

Lemma substring_skip (pre s : string) (n : nat) :
  String.substring (String.length pre) n (pre ++ s) = String.substring 0 n s.
Proof. induction pre as [|a pre IH]; [reflexivity | exact IH]. Qed.

Lemma take_app (sub post : string) : PyStr.take (String.length sub) (sub ++ post) = sub.
Proof.
  unfold PyStr.take. induction sub as [|a sub IH]; cbn.
  - now destruct post.
  - now rewrite IH.
Qed.

Lemma take_cons (n : nat) (a : ascii) (s : string) :
  PyStr.take (S n) (String a s) = String a (PyStr.take n s).
Proof. reflexivity. Qed.

Lemma take_zero (s : string) : PyStr.take 0 s = EmptyString.
Proof. now destruct s. Qed.

Lemma match_braces_spec (s : string) :
  forall (i brace_count : Z),
    (1 <= brace_count)%Z ->
    (match_braces s i brace_count = (-1)%Z
     /\ forall n, (n <= String.length s)%nat -> (0 < brace_count + depth (PyStr.take n s))%Z)
    \/ exists sub post body,
         s = (sub ++ post)%string
         /\ match_braces s i brace_count = (i + PyStr.len sub)%Z
         /\ sub = (body ++ "}")%string
         /\ (brace_count + depth sub = 0)%Z
         /\ forall n, (n < String.length sub)%nat ->
                      (0 < brace_count + depth (PyStr.take n sub))%Z.
Proof.
  induction s as [|a s IH]; intros i c Hc.
  - left. split; [reflexivity|]. intros n Hn. rewrite take_zero || idtac.
    destruct n; cbn; lia.
  - assert (Step : forall c' delta,
               (1 <= c')%Z -> (c' = c + delta)%Z ->
               (forall t, depth (String a t) = delta + depth t)%Z ->
               (match_braces s (i + 1) c' = (-1)%Z
                /\ forall n, (n <= String.length (String a s))%nat ->
                             (0 < c + depth (PyStr.take n (String a s)))%Z)
               \/ exists sub post body,
                    String a s = (sub ++ post)%string
                    /\ match_braces s (i + 1) c' = (i + PyStr.len sub)%Z
                    /\ sub = (body ++ "}")%string
                    /\ (c + depth sub = 0)%Z
                    /\ forall n, (n < String.length sub)%nat ->
                                 (0 < c + depth (PyStr.take n sub))%Z).
    { intros c' delta Hc' Ec D.
      destruct (IH (i + 1)%Z c' Hc') as [[E P]|(sub & post & body & -> & E & -> & B & P)].
      - left. split; [exact E|]. intros [|n] Hn.
        + rewrite take_zero. cbn. lia.
        + rewrite take_cons, D. cbn [String.length] in Hn.
          specialize (P n ltac:(lia)). lia.
      - right. exists (String a (body ++ "}")), post, (String a body).
        repeat split.
        + rewrite E. unfold PyStr.len. cbn [String.length]. lia.
        + rewrite D. lia.
        + intros [|n] Hn.
          * rewrite take_zero. cbn. lia.
          * rewrite take_cons, D. cbn [String.length] in Hn.
            specialize (P n ltac:(lia)). lia. }
    cbn [match_braces].
    destruct (Ascii.eqb_spec a "{") as [->|N1].
    + apply (Step (c + 1)%Z 1%Z); [lia | lia | reflexivity].
    + destruct (Ascii.eqb_spec a "}") as [->|N2].
      * destruct (Z.eqb_spec (c - 1) 0) as [Z0|NZ].
        -- right. exists "}"%string, s, EmptyString. cbn. repeat split; try lia.
           intros n Hn. assert (n = 0%nat) as -> by lia. cbn. lia.
        -- apply (Step (c - 1)%Z (-1)%Z); [lia | lia | reflexivity].
      * apply (Step c 0%Z); [lia | lia |].
        intros t. cbn [depth].
        destruct (Ascii.eqb_spec a "{"); [contradiction|].
        destruct (Ascii.eqb_spec a "}"); [contradiction|]. reflexivity.
Qed.

(** X15.  The span the analyzer cuts out of a reply that does not parse runs
    from the first opening brace to the first point where the braces
    balance: the shortest such text, starting with an opening and ending
    with a closing brace, every brace counted whether or not it stands
    inside a JSON string.  When there is no span, the reply has no opening
    brace or its first one is never balanced. *)
Theorem brace_slice_spec (content : string) :
  match brace_slice content with
  | Some sub =>
      exists pre body post,
        content = (pre ++ sub ++ post)%string
        /\ absent "{" pre
        /\ sub = ("{" ++ body ++ "}")%string
        /\ depth sub = 0%Z
        /\ forall n, (0 < n < String.length sub)%nat -> (0 < depth (PyStr.take n sub))%Z
  | None =>
      absent "{" content
      \/ exists pre rest,
           content = (pre ++ "{" ++ rest)%string
           /\ absent "{" pre
           /\ forall n, (0 < n <= String.length ("{" ++ rest))%nat ->
                        (0 < depth (PyStr.take n ("{" ++ rest)))%Z
  end.
Proof.
  unfold brace_slice, PyStr.find.
  destruct (find_from_spec "{" content 0) as [[E A]|(pre & rest & -> & A & E)]; rewrite E.
  - cbn. now left.
  - rewrite Z.add_0_l. cbv zeta.
    assert (G : ((PyStr.len pre >=? 0) = true)%Z)
      by (apply Z.geb_le; unfold PyStr.len; lia).
    assert (D : PyStr.drop (Z.to_nat (PyStr.len pre)) (pre ++ String "{" rest)
                = String "{" rest)
      by (unfold PyStr.len; rewrite Nat2Z.id; apply drop_app).
    rewrite G, D.
    change (match_braces (String "{" rest) (PyStr.len pre) 0)
      with (match_braces rest (PyStr.len pre + 1) 1).
    destruct (match_braces_spec rest (PyStr.len pre + 1) 1)
      as [[M P]|(sub & post & body & -> & M & -> & B & P)]; [lia| |].
    + rewrite M.
      assert (L : ((-1 >? PyStr.len pre) = false)%Z)
        by (rewrite Z.gtb_ltb; apply Z.ltb_ge; unfold PyStr.len; lia).
      rewrite L. right. exists pre, rest. repeat split; [exact A|].
      intros [|n] Hn; [lia|]. cbn [append]. rewrite take_cons. cbn [depth].
      change (Ascii.eqb "{" "{") with true. cbv iota.
      cbn [append String.length] in Hn. specialize (P n ltac:(lia)). lia.
    + rewrite M.
      assert (L : ((PyStr.len pre + 1 + PyStr.len (body ++ "}") >? PyStr.len pre) = true)%Z)
        by (rewrite Z.gtb_ltb; apply Z.ltb_lt; unfold PyStr.len; lia).
      rewrite L. exists pre, body, post.
      assert (S : PyStr.slice (PyStr.len pre)
                    (PyStr.len pre + 1 + PyStr.len (body ++ "}"))
                    (pre ++ String "{" ((body ++ "}") ++ post))
                  = ("{" ++ body ++ "}")%string).
      { unfold PyStr.slice, PyStr.len. rewrite Nat2Z.id.
        replace (Z.to_nat (Z.of_nat (String.length pre) + 1
                           + Z.of_nat (String.length (body ++ "}")))
                 - String.length pre)%nat
          with (String.length ("{" ++ body ++ "}")) by (cbn [append String.length]; lia).
        rewrite substring_skip.
        change (String "{" ((body ++ "}") ++ post)) with (("{" ++ body ++ "}") ++ post)%string.
        apply take_app. }
      rewrite S. repeat split.
      * exact A.
      * cbn [append depth]. change (Ascii.eqb "{" "{") with true. cbv iota. lia.
      * intros [|n] Hn; [lia|]. cbn [append]. rewrite take_cons. cbn [depth].
        change (Ascii.eqb "{" "{") with true. cbv iota.
        cbn [append String.length] in Hn. specialize (P n ltac:(lia)). lia.
Qed.

Lemma split_lines_app (a b : string) :
  PyStr.split_lines (a ++ PyStr.NL ++ b) = PyStr.split_lines a ++ PyStr.split_lines b.
Proof.
  induction a as [|c a IH]; cbn [append PyStr.split_lines].
  - unfold PyStr.NL. cbn [append PyStr.split_lines]. now rewrite Ascii.eqb_refl.
  - destruct (Ascii.eqb c PyStr.nl).
    + now rewrite IH.
    + rewrite IH. destruct (split_lines_nonempty a) as (l & ls & ->). reflexivity.
Qed.

Lemma join_split_lines (s : string) : PyStr.join_lines (PyStr.split_lines s) = s.
Proof.
  induction s as [|c s IH]; [reflexivity|]. cbn [PyStr.split_lines].
  destruct (split_lines_nonempty s) as (l & ls & E). rewrite E in *.
  destruct (Ascii.eqb_spec c PyStr.nl) as [->|N].
  - cbn [PyStr.join_lines] in *. rewrite IH. reflexivity.
  - destruct ls as [|l' ls]; cbn [PyStr.join_lines] in *; now rewrite <- IH.
Qed.

Lemma split_lines_one (s : string) : absent PyStr.nl s -> PyStr.split_lines s = [s].
Proof.
  induction s as [|c s IH]; [reflexivity|]. cbn [absent PyStr.split_lines].
  intros [N A]. destruct (Ascii.eqb_spec c PyStr.nl); [contradiction|].
  now rewrite (IH A).
Qed.

Lemma lstrip_blank (ws s : string) :
  blank ws = true -> PyStr.lstrip (ws ++ s) = PyStr.lstrip s.
Proof.
  induction ws as [|c ws IH]; [reflexivity|]. cbn [blank append].
  intros H. apply andb_prop in H as [H1 H2]. cbn [PyStr.lstrip]. rewrite H1. now apply IH.
Qed.

Lemma rstrip_blank (ws : string) : blank ws = true -> PyStr.rstrip ws = EmptyString.
Proof.
  induction ws as [|c ws IH]; [reflexivity|]. cbn [blank PyStr.rstrip].
  intros H. apply andb_prop in H as [H1 H2]. now rewrite (IH H2), H1.
Qed.

Lemma rstrip_keeps (t : string) (b : ascii) (ws : string) :
  PyStr.isspace b = false -> blank ws = true ->
  PyStr.rstrip (t ++ String b ws) = (t ++ String b EmptyString)%string.
Proof.
  intros Hb Hw. induction t as [|c t IH]; cbn [append PyStr.rstrip].
  - now rewrite (rstrip_blank ws Hw), Hb.
  - rewrite IH. now destruct t.
Qed.

Lemma string_app_assoc (a b c : string) : ((a ++ b) ++ c = a ++ b ++ c)%string.
Proof. induction a as [|x a IH]; cbn; [reflexivity | now rewrite IH]. Qed.

Lemma absent_app (c : ascii) (a b : string) : absent c a -> absent c b -> absent c (a ++ b).
Proof. induction a as [|x a IH]; cbn; [auto | intros [N A] B; auto]. Qed.

Lemma fenced_strip (ws1 ws2 lang body : string) :
  blank ws1 = true -> blank ws2 = true ->
  PyStr.strip (ws1 ++ fence ++ lang ++ PyStr.NL ++ body ++ PyStr.NL ++ fence ++ ws2)
  = (fence ++ lang ++ PyStr.NL ++ body ++ PyStr.NL ++ fence)%string.
Proof.
  intros B1 B2. unfold PyStr.strip. rewrite (lstrip_blank _ _ B1).
  unfold fence at 1 3. cbn [append PyStr.lstrip].
  change (PyStr.isspace "`") with false. cbv iota.
  change (String "`" (String "`" (String "`" (lang ++ PyStr.NL ++ body ++ PyStr.NL ++ fence ++ ws2))))
    with (fence ++ lang ++ PyStr.NL ++ body ++ PyStr.NL ++ fence ++ ws2)%string.
  replace (fence ++ lang ++ PyStr.NL ++ body ++ PyStr.NL ++ fence ++ ws2)%string
    with ((fence ++ lang ++ PyStr.NL ++ body ++ PyStr.NL ++ "``") ++ String "`" ws2)%string.
  2:{ rewrite !string_app_assoc. reflexivity. }
  rewrite rstrip_keeps by (reflexivity || assumption).
  rewrite !string_app_assoc. reflexivity.
Qed.

Lemma strip_fences_fenced (ws1 ws2 lang body : string) :
  blank ws1 = true -> blank ws2 = true -> absent PyStr.nl lang ->
  strip_fences (ws1 ++ fence ++ lang ++ PyStr.NL ++ body ++ PyStr.NL ++ fence ++ ws2) = body.
Proof.
  intros B1 B2 A. unfold strip_fences. rewrite (fenced_strip ws1 ws2 lang body B1 B2).
  assert (P : PyStr.startswith fence (fence ++ lang ++ PyStr.NL ++ body ++ PyStr.NL ++ fence)
              = true).
  { unfold PyStr.startswith, fence. cbn [append]. rewrite !prefix_refl_cons.
    now destruct (lang ++ PyStr.NL ++ body ++ PyStr.NL ++ "```")%string. }
  rewrite P.
  assert (S : PyStr.split_lines (fence ++ lang ++ PyStr.NL ++ body ++ PyStr.NL ++ fence)
              = (fence ++ lang)%string :: PyStr.split_lines body ++ [fence]).
  { rewrite <- string_app_assoc, split_lines_app, split_lines_app.
    rewrite (split_lines_one (fence ++ lang)).
    - reflexivity.
    - apply absent_app; [|exact A]. cbn. repeat split; discriminate. }
  rewrite S. cbn [hd].
  assert (P' : PyStr.startswith fence (fence ++ lang) = true).
  { unfold PyStr.startswith, fence. cbn [append]. rewrite !prefix_refl_cons. now destruct lang. }
  rewrite P'. unfold PyList.drop_first, PyList.drop_last. cbn [tl].
  destruct (PyStr.split_lines body ++ [fence]) as [|l ls] eqn:E.
  { now destruct (PyStr.split_lines body). }
  rewrite <- E, last_last.
  change (String.eqb (PyStr.strip fence) fence) with true. cbv iota.
  rewrite removelast_last. apply join_split_lines.
Qed.

(** X16.  A reply wrapped in a fenced block gives the analysis of the text
    inside the fences: with white space around the block, any language tag
    after the opening fence and any text between the fences, stripping the
    fences returns that text unchanged, so the reply is parsed exactly as
    the bare text would be. *)
Theorem fenced_reply_parses_as_bare (loads : string -> option json)
    (ws1 ws2 lang body : string) :
  blank ws1 = true -> blank ws2 = true -> absent PyStr.nl lang ->
  strip_fences (ws1 ++ fence ++ lang ++ PyStr.NL ++ body ++ PyStr.NL ++ fence ++ ws2) = body
  /\ extract_analysis loads
       (ws1 ++ fence ++ lang ++ PyStr.NL ++ body ++ PyStr.NL ++ fence ++ ws2)
     = parse_content loads body.
Proof.
  intros B1 B2 A. unfold extract_analysis.
  rewrite (strip_fences_fenced ws1 ws2 lang body B1 B2 A). now split.
Qed.

Lemma fenced_reply_parses_as_bare_witness :
  strip_fences (" " ++ fence ++ "json" ++ PyStr.NL ++ q "{'summary': 'ok'}" ++ PyStr.NL
                ++ fence ++ PyStr.NL) = q "{'summary': 'ok'}"
  /\ extract_analysis ref_loads
       (" " ++ fence ++ "json" ++ PyStr.NL ++ q "{'summary': 'ok'}" ++ PyStr.NL
        ++ fence ++ PyStr.NL)
     = parse_content ref_loads (q "{'summary': 'ok'}").
Proof.
  apply (fenced_reply_parses_as_bare ref_loads " " PyStr.NL "json" (q "{'summary': 'ok'}")).
  - reflexivity.
  - reflexivity.
  - cbn. repeat split; discriminate.
Defined.

(** ** What the repair scripts leave alone *)

Section FixItemsFrame.

Variable fix_item : json -> result (json * bool).
Variable marked : json -> bool.

Hypothesis step_inv :
  forall item item' b,
    fix_item item = inr (item', b) ->
    (b = false /\ item' = item)
    \/ (b = true /\ marked item = true
        /\ exists new, py_setitem item "analysis" new = inr item').


Lemma fix_items_clean (items : list json) :
  forallb (fun item => negb (marked item)) items = true ->
  forall items' n, fix_items fix_item items = inr (items', n) -> items' = items /\ n = 0%Z.
Proof.
  induction items as [|item items IH]; intros C items' n H.
  - cbn in H. injection H as <- <-. now split.
  - cbn [fix_items] in H. bind_inv H. bind_inv H. injection H as <- <-.
    cbn [forallb] in C. apply andb_prop in C as [C1 C2].
    destruct x as [item' b], x0 as [rest' m]. cbn [fst snd].
    destruct (IH C2 rest' m E0) as [-> ->].
    destruct (step_inv _ _ _ E) as [[-> ->]|(_ & M & _)]; [now split|].
    rewrite M in C1. discriminate C1.
Qed.

End FixItemsFrame.





Section RepairFrame.

Variable loads : string -> option json.
Variable dump : json -> dump_outcome.

Lemma fix_analysis_step (item item' : json) (b : bool) :
  FixAnalysisJson.fix_item loads item = inr (item', b) ->
  (b = false /\ item' = item)
  \/ (b = true /\ FixAnalysisJson.marked item = true
      /\ exists new, py_setitem item "analysis" new = inr item').
Proof.
  intros H. destruct (fix_analysis_item_inv loads _ _ _ H)
    as [?|(? & ? & _ & _ & new & _ & _ & ?)]; [now left|].
  right. eauto.
Qed.

Lemma fix_fences_step (item item' : json) (b : bool) :
  FixJsonFences.fix_item loads item = inr (item', b) ->
  (b = false /\ item' = item)
  \/ (b = true /\ FixJsonFences.marked item = true
      /\ exists new, py_setitem item "analysis" new = inr item').
Proof.
  intros H. destruct (fix_fences_item_inv loads _ _ _ H)
    as [?|(? & ? & _ & _ & _ & parsed & _ & _ & _ & _ & ?)]; [now left|].
  right. eauto.
Qed.




(** X18.  An artifact none of whose records carries a script's marker is left as
    it is by that script: the run, if it returns, counts no fix, and
    nothing is written. *)
Theorem clean_artifact_untouched (file : json) :
  (forallb (fun item => negb (FixAnalysisJson.marked item)) (file_records file) = true ->
   FixAnalysisJson.repair loads file = file
   /\ forall r, FixAnalysisJson.fix_analysis_file loads file = inr r -> snd r = 0%Z)
  /\ (forallb (fun item => negb (FixJsonFences.marked item)) (file_records file) = true ->
      FixJsonFences.repair loads file = file
      /\ forall r, FixJsonFences.fix_analysis_file loads file = inr r -> snd r = 0%Z).
Proof.
  assert (G : forall (run : result (json * Z)),
             (forall r, run = inr r -> snd r = 0%Z) ->
             stored_after file run = file /\ forall r, run = inr r -> snd r = 0%Z).
  { intros run H. split; [|exact H]. destruct run as [e|[data n]]; [reflexivity|].
    pose proof (H _ eq_refl) as Z0. cbn [snd] in Z0. subst n. reflexivity. }
  assert (S1 : forall (A : Type) (f : A -> string) (l : list A),
             forallb (fun item => negb (FixAnalysisJson.marked item))
                     (map (fun x => JStr (f x)) l) = true)
    by (intros A f l; induction l; [reflexivity | exact IHl]).
  assert (S2 : forall (A : Type) (f : A -> string) (l : list A),
             forallb (fun item => negb (FixJsonFences.marked item))
                     (map (fun x => JStr (f x)) l) = true)
    by (intros A f l; induction l; [reflexivity | exact IHl]).
  split; intros C; apply G; intros [data n] F; cbn [snd].
  - unfold FixAnalysisJson.fix_analysis_file in F.
    bind_inv F. rename x into d, E into Ed.
    bind_inv F. rename x into analyses, E into Ea.
    bind_inv F. rename x into items, E into Ei.
    bind_inv F. destruct x as [items' m]. injection F as <- <-. cbn [snd].
    unfold file_records in C. rewrite Ed in C. cbn [bind] in C. rewrite Ea in C.
    assert (U : forallb (fun item => negb (FixAnalysisJson.marked item)) items = true).
    { destruct analyses as [| | | |s|l|dd]; cbn in Ei; try discriminate; injection Ei as <-.
      - apply (S1 _ (fun c => String c EmptyString)).
      - exact C.
      - apply (S1 _ fst). }
    now destruct (fix_items_clean _ _ fix_analysis_step items U items' m E).
  - unfold FixJsonFences.fix_analysis_file in F.
    bind_inv F. destruct x; cbn [negb] in F; [|now injection F as <- <-].
    bind_inv F. rename x into d, E0 into Ed.
    bind_inv F. destruct x; cbn [negb] in F; [|now injection F as <- <-].
    bind_inv F. rename x into analyses, E1 into Ea.
    bind_inv F. rename x into items, E1 into Ei.
    bind_inv F. destruct x as [items' m]. injection F as <- <-. cbn [snd].
    unfold file_records in C. rewrite Ed in C. cbn [bind] in C. rewrite Ea in C.
    assert (U : forallb (fun item => negb (FixJsonFences.marked item)) items = true).
    { destruct analyses as [| | | |s|l|dd]; cbn in Ei; try discriminate; injection Ei as <-.
      - apply (S2 _ (fun c => String c EmptyString)).
      - exact C.
      - apply (S2 _ fst). }
    now destruct (fix_items_clean _ _ fix_fences_step items U items' m E1).
Qed.

End RepairFrame.

Lemma clean_artifact_untouched_witness :
  (FixAnalysisJson.repair ref_loads (Demo.artifact "Exports rose." "a")
   = Demo.artifact "Exports rose." "a"
   /\ forall r, FixAnalysisJson.fix_analysis_file ref_loads (Demo.artifact "Exports rose." "a")
                = inr r -> snd r = 0%Z)
  /\ (FixJsonFences.repair ref_loads (Demo.artifact "Exports rose." "a")
      = Demo.artifact "Exports rose." "a"
      /\ forall r, FixJsonFences.fix_analysis_file ref_loads (Demo.artifact "Exports rose." "a")
                   = inr r -> snd r = 0%Z).
Proof.
  split.
  - apply (proj1 (clean_artifact_untouched ref_loads (Demo.artifact "Exports rose." "a"))).
    vm_compute. reflexivity.
  - apply (proj2 (clean_artifact_untouched ref_loads (Demo.artifact "Exports rose." "a"))).
    vm_compute. reflexivity.
Defined.


(** ** The scripts' entry points *)



Lemma run_on_file_ok (pass : json -> result (json * Z)) (dump : json -> dump_outcome)
    (f : string) (dk dk' : disk) (n : Z) :
  run_on_file pass dump f dk = (inr n, dk') ->
  n = fixes_of pass (dk f)
  /\ forall p, dk' p = if String.eqb p f
                       then repaired_entry (fun doc => stored_after doc (pass doc)) (dk f)
                       else dk p.
Proof.
  unfold run_on_file, fixes_of.
  destruct (dk f) as [|e|doc] eqn:D; try discriminate.
  destruct (pass doc) as [e|[data' m]] eqn:P; [discriminate|].
  cbn [repaired_entry]. rewrite P. cbn [stored_after].
  destruct (m >? 0)%Z; [destruct (dump data'); [|discriminate]|];
    intros [= <- <-]; (split; [reflexivity|]); intros p; unfold disk_put;
    destruct (String.eqb_spec p f); congruence.
Qed.

Lemma run_on_file_raise (pass : json -> result (json * Z)) (dump : json -> dump_outcome)
    (f : string) (dk dk' : disk) (e : exn) :
  run_on_file pass dump f dk = (inl e, dk') ->
  (forall p, p <> f -> dk' p = dk p)
  /\ (dk' f = dk f
      \/ exists doc data n on_load,
           dk f = Holds doc /\ pass doc = inr (data, n) /\ (0 < n)%Z
           /\ dump data = Failed e on_load /\ dk' f = Unreadable on_load).
Proof.
  unfold run_on_file.
  destruct (dk f) as [|e0|doc] eqn:D.
  - intros [= <- <-]. auto.
  - intros [= <- <-]. auto.
  - destruct (pass doc) as [e0|[data' m]] eqn:P; [intros [= <- <-];  auto|].
    destruct (Z.gtb_spec m 0) as [G|G]; [|discriminate].
    destruct (dump data') as [|raised on_load] eqn:W; [discriminate|].
    intros [= <- <-]. split.
    + intros p N. unfold disk_put. destruct (String.eqb_spec p f); congruence.
    + right. exists doc, data', m, on_load. unfold disk_put. rewrite String.eqb_refl.
      repeat split; auto; lia.
Qed.

Lemma run_on_file_fst (pass : json -> result (json * Z)) (dump : json -> dump_outcome)
    (f : string) (dk dk' : disk) :
  dk f = dk' f -> fst (run_on_file pass dump f dk) = fst (run_on_file pass dump f dk').
Proof.
  intros E. unfold run_on_file. rewrite <- E.
  destruct (dk f) as [|e|doc]; try reflexivity.
  destruct (pass doc) as [e|[data' n]]; [reflexivity|].
  destruct (n >? 0)%Z; [|reflexivity]. now destruct (dump data').
Qed.

Lemma listed_in (p : string) (l : list string) : listed p l = true <-> In p l.
Proof.
  unfold listed. rewrite existsb_exists. split.
  - intros (x & I & E). apply String.eqb_eq in E. now subst.
  - intros I. exists p. split; [exact I | apply String.eqb_refl].
Qed.

Lemma listed_cons (p f : string) (l : list string) :
  listed p (f :: l) = String.eqb p f || listed p l.
Proof. reflexivity. Qed.


Section ScriptFacts.

Variable loads : string -> option json.



End ScriptFacts.

Section KeyPointsScript.

Variable loads : string -> option json.
Variable dump : json -> dump_outcome.

Local Abbreviation pass := (FixAnalysisJson.fix_analysis_file loads).
Local Abbreviation main_loop' := (FixAnalysisJsonMain.main_loop loads dump).

Lemma analysis_main_loop (fs : list string) :
  NoDup fs ->
  forall (total : Z) (dk : disk),
    match fst (main_loop' fs total dk) with
    | inr t =>
        (forall p, snd (main_loop' fs total dk) p
                   = if listed p fs
                     then repaired_entry (FixAnalysisJson.repair loads) (dk p)
                     else dk p)
        /\ t = (total + fold_right Z.add 0%Z (map (fun p => fixes_of pass (dk p)) fs))%Z
    | inl e =>
        exists pre f post,
          fs = pre ++ f :: post
          /\ dk f <> Absent
          /\ fst (run_on_file pass dump f dk) = inl e
          /\ (forall p, p <> f ->
                        snd (main_loop' fs total dk) p
                        = if listed p pre
                          then repaired_entry (FixAnalysisJson.repair loads) (dk p)
                          else dk p)
          /\ (snd (main_loop' fs total dk) f = dk f
              \/ exists doc data n on_load,
                   dk f = Holds doc /\ pass doc = inr (data, n) /\ (0 < n)%Z
                   /\ dump data = Failed e on_load
                   /\ snd (main_loop' fs total dk) f = Unreadable on_load)
    end.
Proof.
  induction 1 as [|f rest NI ND IH]; intros total dk.
  - cbn. split; [reflexivity | lia].
  - cbn [FixAnalysisJsonMain.main_loop].
    destruct (dk f) as [|e0|doc] eqn:Df.
    + (* the file does not exist: skipped *)
      specialize (IH total dk).
      destruct (fst (main_loop' rest total dk)) as [e|t].
      * destruct IH as (pre & g & post & -> & Ng & Rg & P & Q).
        exists (f :: pre), g, post. repeat split; try assumption.
        intros p Np. rewrite (P p Np), listed_cons.
        destruct (String.eqb_spec p f) as [->|N]; cbn [orb]; [|reflexivity].
        rewrite Df. cbn [repaired_entry]. now destruct (listed f pre).
      * destruct IH as [P T]. split.
        -- intros p. rewrite P, listed_cons.
           destruct (String.eqb_spec p f) as [->|N]; cbn [orb]; [|reflexivity].
           rewrite Df. cbn [repaired_entry]. now destruct (listed f rest).
        -- cbn [map fold_right]. rewrite Df. cbn [fixes_of]. lia.
    + (* the file cannot be read *)
      unfold run_on_file. rewrite Df. cbn [fst snd].
      exists [], f, rest. split; [reflexivity|]. split; [congruence|].
      split; [now rewrite Df|]. split; [reflexivity | now left].
    + destruct (run_on_file pass dump f dk) as [[e|n] dk'] eqn:Run; cbn [fst snd].
      * (* the run on the file raises *)
        destruct (run_on_file_raise _ _ _ _ _ _ Run) as [O F].
        exists [], f, rest. split; [reflexivity|]. split; [congruence|].
        split; [now rewrite Run|]. split; [exact O | exact F].
      * destruct (run_on_file_ok _ _ _ _ _ _ Run) as [N D].
        assert (Same : forall p, In p rest -> dk' p = dk p).
        { intros p I. rewrite D.
          destruct (String.eqb_spec p f); [subst; contradiction | reflexivity]. }
        assert (Here : dk' f = repaired_entry (FixAnalysisJson.repair loads) (dk f)).
        { rewrite D, String.eqb_refl. reflexivity. }
        specialize (IH (total + n)%Z dk').
        destruct (fst (main_loop' rest (total + n) dk')) as [e|t].
        -- destruct IH as (pre & g & post & -> & Ng & Rg & P & Q).
           assert (Ig : In g (pre ++ g :: post)) by (apply in_or_app; right; now left).
           assert (Gf : g <> f) by (intros ->; contradiction).
           exists (f :: pre), g, post. split; [reflexivity|].
           split; [now rewrite <- (Same g Ig)|].
           split; [now rewrite (run_on_file_fst pass dump g dk dk' (eq_sym (Same g Ig)))|].
           split.
           ++ intros p Np. rewrite (P p Np), listed_cons.
              destruct (String.eqb_spec p f) as [->|Nf]; cbn [orb].
              ** destruct (listed f pre) eqn:L.
                 --- apply listed_in in L. destruct NI. apply in_or_app. now left.
                 --- exact Here.
              ** destruct (listed p pre) eqn:L.
                 --- apply listed_in in L. rewrite Same; [reflexivity|].
                     apply in_or_app. now left.
                 --- rewrite D. destruct (String.eqb_spec p f); [contradiction | reflexivity].
           ++ rewrite (Same g Ig) in Q. exact Q.
        -- destruct IH as [P T]. split.
           ++ intros p. rewrite P, listed_cons.
              destruct (String.eqb_spec p f) as [->|Np]; cbn [orb].
              ** destruct (listed f rest) eqn:L; [apply listed_in in L; contradiction|].
                 exact Here.
              ** destruct (listed p rest) eqn:L.
                 --- apply listed_in in L. now rewrite Same.
                 --- rewrite D. destruct (String.eqb_spec p f); [contradiction | reflexivity].
           ++ cbn [map fold_right]. rewrite T, N.
              assert (M : map (fun p => fixes_of pass (dk' p)) rest
                          = map (fun p => fixes_of pass (dk p)) rest).
              { apply map_ext_in. intros p I. now rewrite Same. }
              rewrite M. lia.
Qed.

(** X20.  The key_points script handles its four files in order and stops at
    the first one that exists but cannot be processed.  When it ends
    normally every listed file that held a document holds the repaired one
    and the total is the sum of the fixes of the files.  When it raises,
    the exception is that of one listed, existing file; the files before it
    are repaired and the later ones are as they were; the failing file
    itself is as it was, unless the exception came from [json.dump] while a
    fix was written back: then the file is left cut off and no longer
    loads.  A file that does not exist is skipped and never the cause. *)
Theorem key_points_script_stops_at_first_failure (dk : disk) :
  match fst (FixAnalysisJsonMain.main loads dump dk) with
  | inr total =>
      (forall p, snd (FixAnalysisJsonMain.main loads dump dk) p
                 = if listed p FixAnalysisJsonMain.files_to_fix
                   then repaired_entry (FixAnalysisJson.repair loads) (dk p)
                   else dk p)
      /\ total = fold_right Z.add 0%Z
                   (map (fun p => fixes_of (FixAnalysisJson.fix_analysis_file loads) (dk p))
                        FixAnalysisJsonMain.files_to_fix)
  | inl e =>
      exists pre f post,
        FixAnalysisJsonMain.files_to_fix = pre ++ f :: post
        /\ dk f <> Absent
        /\ fst (run_on_file (FixAnalysisJson.fix_analysis_file loads) dump f dk) = inl e
        /\ (forall p, p <> f ->
                      snd (FixAnalysisJsonMain.main loads dump dk) p
                      = if listed p pre
                        then repaired_entry (FixAnalysisJson.repair loads) (dk p)
                        else dk p)
        /\ (snd (FixAnalysisJsonMain.main loads dump dk) f = dk f
            \/ exists doc data n on_load,
                 dk f = Holds doc
                 /\ FixAnalysisJson.fix_analysis_file loads doc = inr (data, n)
                 /\ (0 < n)%Z
                 /\ dump data = Failed e on_load
                 /\ snd (FixAnalysisJsonMain.main loads dump dk) f = Unreadable on_load)
  end.
Proof.
  assert (ND : NoDup FixAnalysisJsonMain.files_to_fix).
  { unfold FixAnalysisJsonMain.files_to_fix.
    repeat (constructor; [cbn; intros H; repeat destruct H as [H|H]; discriminate H || exact H|]).
    constructor. }
  pose proof (analysis_main_loop _ ND 0%Z dk) as H. unfold FixAnalysisJsonMain.main.
  destruct (fst (FixAnalysisJsonMain.main_loop loads dump FixAnalysisJsonMain.files_to_fix 0 dk));
    [exact H|].
  destruct H as [P T]. split; [exact P | lia].
Qed.

End KeyPointsScript.

(** ** Fences in the repair scripts *)

Lemma find_line_none (p : string -> bool) (lines : list string) (i : nat) :
  forallb (fun l => negb (p l)) lines = true -> find_line p lines i = None.
Proof.
  revert i. induction lines as [|l lines IH]; intros i H; [reflexivity|].
  cbn [forallb] in H. apply andb_prop in H as [H1 H2]. cbn [find_line].
  destruct (p l); [discriminate H1 | now apply IH].
Qed.

Lemma find_line_last (p : string -> bool) (lines : list string) (x : string) (i : nat) :
  forallb (fun l => negb (p l)) lines = true -> p x = true ->
  find_line p (lines ++ [x]) i = Some (i + length lines)%nat.
Proof.
  revert i. induction lines as [|l lines IH]; intros i H Px; cbn [app find_line length].
  - rewrite Px. f_equal. lia.
  - cbn [forallb] in H. apply andb_prop in H as [H1 H2].
    destruct (p l); [discriminate H1|]. rewrite (IH (S i) H2 Px). f_equal. lia.
Qed.

Lemma find_line_first (p : string -> bool) (before : list string) (x : string)
    (rest : list string) (i : nat) :
  forallb (fun l => negb (p l)) before = true -> p x = true ->
  find_line p (before ++ x :: rest) i = Some (i + length before)%nat.
Proof.
  revert i. induction before as [|l before IH]; intros i H Px; cbn [app find_line length].
  - rewrite Px. f_equal. lia.
  - cbn [forallb] in H. apply andb_prop in H as [H1 H2].
    destruct (p l); [discriminate H1|]. rewrite (IH (S i) H2 Px). f_equal. lia.
Qed.

Lemma skipn_past {A} (before : list A) (x : A) (rest : list A) :
  skipn (S (length before)) (before ++ x :: rest) = rest.
Proof. induction before as [|b before IH]; [reflexivity | exact IH]. Qed.

Lemma firstn_exact {A} (body rest : list A) : firstn (length body) (body ++ rest) = body.
Proof. induction body as [|b body IH]; cbn; [reflexivity | now rewrite IH]. Qed.

Lemma rstrip_nonspace (c : ascii) (s : string) :
  PyStr.isspace c = false -> PyStr.rstrip (String c s) = String c (PyStr.rstrip s).
Proof. intros H. cbn [PyStr.rstrip]. rewrite H. now destruct (PyStr.rstrip s). Qed.

Lemma strip_fence_line (lang : string) :
  PyStr.startswith fence (PyStr.strip (fence ++ lang)) = true.
Proof.
  unfold PyStr.strip, fence. cbn [append PyStr.lstrip].
  change (PyStr.isspace "`") with false. cbv iota.
  rewrite !rstrip_nonspace by reflexivity.
  unfold PyStr.startswith. rewrite !prefix_refl_cons. now destruct (PyStr.rstrip lang).
Qed.

Lemma fenced_lines (lang body : string) :
  absent PyStr.nl lang ->
  PyStr.split_lines (fence ++ lang ++ PyStr.NL ++ body ++ PyStr.NL ++ fence)
  = (fence ++ lang)%string :: PyStr.split_lines body ++ [fence].
Proof.
  intros A. rewrite <- string_app_assoc, split_lines_app, split_lines_app.
  rewrite (split_lines_one (fence ++ lang)).
  - reflexivity.
  - apply absent_app; [|exact A]. cbn. repeat split; discriminate.
Qed.

Lemma starts_with_fence (s : string) : PyStr.startswith fence (fence ++ s) = true.
Proof.
  unfold PyStr.startswith, fence. cbn [append]. rewrite !prefix_refl_cons. now destruct s.
Qed.

Section FenceFacts.

Variable loads : string -> option json.

Lemma strip_code_fences_block (ws1 ws2 lang body : string) :
  blank ws1 = true -> blank ws2 = true -> absent PyStr.nl lang -> no_bare_fence body = true ->
  FixJsonFences.strip_code_fences
    (ws1 ++ fence ++ lang ++ PyStr.NL ++ body ++ PyStr.NL ++ fence ++ ws2) = body.
Proof.
  intros B1 B2 A NB.
  unfold FixJsonFences.strip_code_fences.
  rewrite (fenced_strip ws1 ws2 lang body B1 B2), (fenced_lines lang body A).
  cbn [find_line]. rewrite strip_fence_line. cbn [skipn].
  rewrite (find_line_last (fun line => String.eqb (PyStr.strip line) fence)
             (PyStr.split_lines body) fence 1 NB eq_refl).
  unfold PyList.slice. cbn [skipn].
  replace (1 + length (PyStr.split_lines body) - 1)%nat
    with (length (PyStr.split_lines body) + 0)%nat by lia.
  rewrite firstn_app_2. cbn [firstn]. rewrite app_nil_r. apply join_split_lines.
Qed.

(** X21.  What the fence script's stripper returns, for every text.  Take the
    lines of the stripped text.  If none of them starts (once stripped)
    with a fence, the stripped text comes back.  Otherwise let the opening
    line be the first one that does, wherever it stands: the result is made
    of the lines after it up to, and without, the first of them that is a
    bare fence, and of all the lines after it when none of them is a bare
    fence; the lines before the opening line, the opening line itself and
    whatever follows the closing fence are dropped.  In particular a fenced
    block with white space around it gives its body, as the analyzer's own
    stripping does. *)
Theorem strip_code_fences_spec (content : string) :
  (forallb (fun l => negb (opens_fence l)) (PyStr.split_lines (PyStr.strip content)) = true ->
   FixJsonFences.strip_code_fences content = PyStr.strip content)
  /\ (forall before opening rest,
        PyStr.split_lines (PyStr.strip content) = before ++ opening :: rest ->
        forallb (fun l => negb (opens_fence l)) before = true ->
        opens_fence opening = true ->
        (forall body closing after,
            rest = body ++ closing :: after ->
            forallb (fun l => negb (closes_fence l)) body = true ->
            closes_fence closing = true ->
            FixJsonFences.strip_code_fences content = PyStr.join_lines body)
        /\ (forallb (fun l => negb (closes_fence l)) rest = true ->
            FixJsonFences.strip_code_fences content = PyStr.join_lines rest))
  /\ (forall ws1 ws2 lang body,
        content = (ws1 ++ fence ++ lang ++ PyStr.NL ++ body ++ PyStr.NL ++ fence ++ ws2)%string ->
        blank ws1 = true -> blank ws2 = true -> absent PyStr.nl lang ->
        no_bare_fence body = true ->
        FixJsonFences.strip_code_fences content = body
        /\ strip_fences content = body).
Proof.
  split; [|split].
  - intros NF. unfold FixJsonFences.strip_code_fences.
    assert (S0 : find_line (fun line => PyStr.startswith fence (PyStr.strip line))
                   (PyStr.split_lines (PyStr.strip content)) 0 = None)
      by apply (find_line_none opens_fence _ 0 NF).
    rewrite S0. cbn [skipn].
    rewrite find_line_none.
    + cbn. apply join_split_lines.
    + rewrite forallb_forall in NF |- *. intros l I. specialize (NF l I).
      unfold opens_fence in NF.
      destruct (String.eqb_spec (PyStr.strip l) fence) as [E|N]; [|reflexivity].
      rewrite E in NF. discriminate NF.
  - intros before opening rest L NB O.
    assert (S0 : find_line (fun line => PyStr.startswith fence (PyStr.strip line))
                   (before ++ opening :: rest) 0 = Some (length before))
      by apply (find_line_first opens_fence before opening rest 0 NB O).
    split.
    + intros body closing after -> NC C.
      unfold FixJsonFences.strip_code_fences. rewrite L, S0, skipn_past.
      assert (S1 : find_line (fun line => String.eqb (PyStr.strip line) fence)
                     (body ++ closing :: after) (S (length before))
                   = Some (S (length before) + length body)%nat)
        by apply (find_line_first closes_fence body closing after (S (length before)) NC C).
      rewrite S1. unfold PyList.slice. rewrite skipn_past.
      replace (S (length before) + length body - S (length before))%nat
        with (length body) by lia.
      now rewrite firstn_exact.
    + intros NC.
      unfold FixJsonFences.strip_code_fences. rewrite L, S0, skipn_past.
      assert (S1 : find_line (fun line => String.eqb (PyStr.strip line) fence)
                     rest (S (length before)) = None)
        by apply (find_line_none closes_fence rest (S (length before)) NC).
      now rewrite S1.
  - intros ws1 ws2 lang body -> B1 B2 A NB. split.
    + now apply strip_code_fences_block.
    + now apply strip_fences_fenced.
Qed.

(** X22.  The key_points script reads a fenced block like the analyzer does: the
    fences, the language tag and the surrounding white space go, and the
    result is whatever the first balanced brace span of the text between
    the fences parses to. *)
Theorem extract_json_from_fenced (ws1 ws2 lang body : string) :
  blank ws1 = true -> blank ws2 = true -> absent PyStr.nl lang ->
  FixAnalysisJson.extract_json_from_string loads
    (ws1 ++ fence ++ lang ++ PyStr.NL ++ body ++ PyStr.NL ++ fence ++ ws2)
  = match brace_slice body with
    | Some json_content => loads json_content
    | None => None
    end.
Proof.
  intros B1 B2 A. unfold FixAnalysisJson.extract_json_from_string.
  rewrite (fenced_strip ws1 ws2 lang body B1 B2).
  assert (P : PyStr.startswith FixAnalysisJson.preamble
                (fence ++ lang ++ PyStr.NL ++ body ++ PyStr.NL ++ fence) = false).
  { unfold PyStr.startswith, FixAnalysisJson.preamble, fence. cbn [append String.prefix].
    now destruct (ascii_dec "*" "`"). }
  rewrite P. cbv zeta. rewrite starts_with_fence, (fenced_lines lang body A).
  cbn [hd]. rewrite starts_with_fence.
  unfold PyList.drop_first, PyList.drop_last. cbn [tl].
  destruct (PyStr.split_lines body ++ [fence]) as [|l ls] eqn:E.
  { now destruct (PyStr.split_lines body). }
  rewrite <- E, last_last.
  change (String.eqb (PyStr.strip fence) fence) with true. cbv iota.
  rewrite removelast_last, join_split_lines. reflexivity.
Qed.

End FenceFacts.

Lemma strip_code_fences_spec_witness :
  FixJsonFences.strip_code_fences " no fence here " = PyStr.strip " no fence here "
  /\ FixJsonFences.strip_code_fences
       ("Here it is:" ++ PyStr.NL ++ "  ```json" ++ PyStr.NL ++ "{" ++ PyStr.NL ++ "}"
        ++ PyStr.NL ++ "``` " ++ PyStr.NL ++ "Bye")
     = PyStr.join_lines ["{"; "}"]
  /\ FixJsonFences.strip_code_fences ("```json" ++ PyStr.NL ++ "{" ++ PyStr.NL ++ "}")
     = PyStr.join_lines ["{"; "}"]
  /\ (FixJsonFences.strip_code_fences
        (" " ++ fence ++ "json" ++ PyStr.NL ++ q "{'summary': 'ok'}" ++ PyStr.NL ++ fence
         ++ PyStr.NL) = q "{'summary': 'ok'}"
      /\ strip_fences (" " ++ fence ++ "json" ++ PyStr.NL ++ q "{'summary': 'ok'}" ++ PyStr.NL
                       ++ fence ++ PyStr.NL) = q "{'summary': 'ok'}").
Proof.
  split; [|split; [|split]].
  - apply (proj1 (strip_code_fences_spec " no fence here ")).
    vm_compute. reflexivity.
  - apply (proj1 (proj1 (proj2 (strip_code_fences_spec
                                  ("Here it is:" ++ PyStr.NL ++ "  ```json" ++ PyStr.NL ++ "{"
                                   ++ PyStr.NL ++ "}" ++ PyStr.NL ++ "``` " ++ PyStr.NL ++ "Bye")))
                        ["Here it is:"] "  ```json" ["{"; "}"; "``` "; "Bye"]
                        eq_refl eq_refl eq_refl)
             ["{"; "}"] "``` " ["Bye"]); reflexivity.
  - apply (proj2 (proj1 (proj2 (strip_code_fences_spec
                                  ("```json" ++ PyStr.NL ++ "{" ++ PyStr.NL ++ "}")))
                        [] "```json" ["{"; "}"] eq_refl eq_refl eq_refl)).
    reflexivity.
  - apply (proj2 (proj2 (strip_code_fences_spec
                           (" " ++ fence ++ "json" ++ PyStr.NL ++ q "{'summary': 'ok'}"
                            ++ PyStr.NL ++ fence ++ PyStr.NL)))
             " " PyStr.NL "json" (q "{'summary': 'ok'}")).
    + reflexivity.
    + reflexivity.
    + reflexivity.
    + cbn. repeat split; discriminate.
    + vm_compute. reflexivity.
Defined.

Lemma extract_json_from_fenced_witness :
  FixAnalysisJson.extract_json_from_string ref_loads
    (" " ++ fence ++ "json" ++ PyStr.NL ++ q "{'summary': 'ok'} and so on" ++ PyStr.NL
     ++ fence ++ PyStr.NL)
  = match brace_slice (q "{'summary': 'ok'} and so on") with
    | Some json_content => ref_loads json_content
    | None => None
    end.
Proof.
  apply (extract_json_from_fenced ref_loads " " PyStr.NL "json"
           (q "{'summary': 'ok'} and so on")).
  - reflexivity.
  - reflexivity.
  - cbn. repeat split; discriminate.
Defined.
